(** * The todo-app server (class-19/demo/todo-app/server.js)

    A shallow embedding of the Express application: the identity
    middleware, the route table, the route handlers and the SQL
    statements they send to PostgreSQL, followed by the properties of
    ownership isolation, error recovery and routing.

    What lies outside server.js is kept as a parameter of the
    development (Section [Server]): the integer input routine of the
    database, the JSON codec of the JavaScript runtime, the files of
    ./public, the module ./modules/books and the part of the [tasks]
    table declaration that the repository does not contain. *)

From Stdlib Require Import ZArith List String Ascii Bool Lia DecimalString Permutation.
Import ListNotations.

Set Warnings "-register-all".

Local Open Scope string_scope.
Local Open Scope Z_scope.

(** ** JavaScript values *)

(** The values [JSON.parse] can yield. Numbers are the integers: a
    number with a fraction, sent as a query parameter, behaves like the
    string of its digits. *)
Inductive json : Type :=
| JNull
| JBool (b : bool)
| JNum (n : Z)
| JStr (s : string)
| JArr (items : list json)
| JObj (fields : list (string * json)).

(** [undefined] is [None] throughout. *)
Definition js := option json.

(** Lookup in a list of named values (an object's own properties, the
    query string, the cookies, the route parameters). *)
Fixpoint assoc {A : Type} (name : string) (l : list (string * A)) : option A :=
  match l with
  | [] => None
  | (k, v) :: l' => if String.eqb k name then Some v else assoc name l'
  end.

(** JavaScript truthiness. *)
Definition truthy (v : json) : bool :=
  match v with
  | JNull => false
  | JBool b => b
  | JNum n => negb (n =? 0)
  | JStr s => negb (String.eqb s "")
  | JArr _ => true
  | JObj _ => true
  end.

(** [v.name] for a value [v] that is neither [null] nor [undefined]:
    the property of an object, [undefined] on anything else. *)
Definition prop (name : string) (v : json) : js :=
  match v with
  | JObj fields => assoc name fields
  | _ => None
  end.

(** [s || d] on an optional string: the empty string is falsy. *)
Definition or_default (s : option string) (d : string) : string :=
  match s with
  | Some x => if String.eqb x "" then d else x
  | None => d
  end.

(** [`${s}`] for an optional string. *)
Definition template (s : option string) : string :=
  match s with
  | Some x => x
  | None => "undefined"
  end.

(** ** The database *)

(** A column value, for the expressions of ORDER BY. *)
Inductive value : Type :=
| VNull
| VInt (n : Z)
| VText (s : string).

Definition text_value (s : option string) : value :=
  match s with
  | Some x => VText x
  | None => VNull
  end.

Definition int_value (n : option Z) : value :=
  match n with
  | Some x => VInt x
  | None => VNull
  end.

(** Ascending order of column values; ASC places NULL last. *)
Definition value_leb (a b : value) : bool :=
  match a, b with
  | _, VNull => true
  | VNull, _ => false
  | VInt x, VInt y => x <=? y
  | VText x, VText y => String.leb x y
  | VInt _, VText _ => true
  | VText _, VInt _ => false
  end.

(** users(id SERIAL PRIMARY KEY, username VARCHAR(100) NOT NULL UNIQUE) *)
Module Users.
Record row : Type := mk { id : Z; username : string }.

(** The row as the driver hands it to JavaScript. *)
Definition object (u : row) : json :=
  JObj [("id", JNum (id u)); ("username", JStr (username u))].
End Users.

(** tasks(id, title, description, category, contact, status, due,
    user_id INT REFERENCES users(id)) *)
Module Tasks.
(** Modelled from the spec: the CREATE TABLE of [tasks] is not in the
    repository. The columns are those the data model of the
    specification lists and the statements of server.js name: an
    integer identifier, five texts and a due date, all of which may be
    NULL but the identifier; [user_id] is the nullable INT the
    migration adds. *)
Record row : Type := mk {
  id : Z;
  title : option string;
  description : option string;
  category : option string;
  contact : option string;
  status : option string;
  due : value;
  user_id : option Z
}.

(** The value of a named column. *)
Definition column (name : string) (t : row) : option value :=
  if String.eqb name "id" then Some (VInt (id t))
  else if String.eqb name "title" then Some (text_value (title t))
  else if String.eqb name "description" then Some (text_value (description t))
  else if String.eqb name "category" then Some (text_value (category t))
  else if String.eqb name "contact" then Some (text_value (contact t))
  else if String.eqb name "status" then Some (text_value (status t))
  else if String.eqb name "due" then Some (due t)
  else if String.eqb name "user_id" then Some (int_value (user_id t))
  else None.
End Tasks.

(** The two tables, each in the order a scan reads it, and the
    sequences behind the two id columns (the next value of each). *)
Record database : Type := mkDb {
  tasks : list Tasks.row;
  users : list Users.row;
  tasks_id_seq : Z;
  users_id_seq : Z
}.

(** The errors a statement is rejected with. *)
Inductive dberror : Type :=
| InvalidInteger (text : string)
| IntegerOutOfRange (n : Z)
| NotNullViolation (column : string)
| UniqueViolation (constraint : string)
| ForeignKeyViolation (constraint : string)
| ValueTooLong (type : string)
| OtherViolation (detail : string).

(** What a handler passes to [handleError] or to [next]: the string
    ['Task Not Found'], the error object of a rejected query, or the
    TypeError thrown inside a callback. *)
Inductive error : Type :=
| Message (s : string)
| DbError (e : dberror)
| TypeError (detail : string).

(** A query parameter as the driver sends it: [null] and [undefined]
    become NULL, a number goes as itself, anything else as text. *)
Inductive sqlparam : Type :=
| PNull
| PInt (n : Z)
| PText (s : string).

Definition text_param (s : option string) : sqlparam :=
  match s with
  | Some x => PText x
  | None => PNull
  end.

(** A parameter as the value of an ORDER BY expression. *)
Definition param_value (p : sqlparam) : value :=
  match p with
  | PNull => VNull
  | PInt n => VInt n
  | PText s => VText s
  end.

Definition int4_range (n : Z) : bool :=
  (-2147483648 <=? n) && (n <=? 2147483647).

(** [a = b] in a WHERE clause: NULL on either side is not a match. *)
Definition sql_eq (a b : option Z) : bool :=
  match a, b with
  | Some x, Some y => x =? y
  | _, _ => false
  end.

Definition sql_eq_text (a : string) (b : option string) : bool :=
  match b with
  | Some y => String.eqb a y
  | None => false
  end.

(** The first [n] characters of a text, and what comes after them. *)
Fixpoint prefix_of (n : nat) (s : string) : string :=
  match n, s with
  | S n', String c s' => String c (prefix_of n' s')
  | _, _ => EmptyString
  end.

Fixpoint suffix_from (n : nat) (s : string) : string :=
  match n, s with
  | S n', String _ s' => suffix_from n' s'
  | _, _ => s
  end.

Fixpoint blank (s : string) : bool :=
  match s with
  | EmptyString => true
  | String c s' => Ascii.eqb c " "%char && blank s'
  end.

(** What a column of type VARCHAR(n) stores for a text: the text
    itself when it fits; its first [n] characters when only blanks go
    beyond them; nothing, an error, when anything else does. A text
    is the list of its characters here, and [n] counts characters. *)
Definition varchar (n : nat) (s : string) : option string :=
  if (String.length s <=? n)%nat then Some s
  else if blank (suffix_from n s) then Some (prefix_of n s)
  else None.

(** ORDER BY key ASC: a stable insertion sort on the key of each row;
    rows with equal keys stay in the order of the scan. *)
Fixpoint insert_by {A : Type} (key : A -> value) (x : A) (l : list A) : list A :=
  match l with
  | [] => [x]
  | y :: l' => if value_leb (key x) (key y) then x :: l else y :: insert_by key x l'
  end.

Definition order_by_asc {A : Type} (key : A -> value) (rows : list A) : list A :=
  fold_right (insert_by key) [] rows.

(** LIMIT n *)
Definition limit {A : Type} (n : nat) (rows : list A) : list A := firstn n rows.

(** ** Promises *)

Inductive promise (A : Type) : Type :=
| Fulfilled (a : A)
| Rejected (e : error).
Arguments Fulfilled {A} a.
Arguments Rejected {A} e.

(** [p.then(f)]: a rejection passes [f] by. *)
Definition then_ {A B : Type} (p : promise A) (f : A -> promise B) : promise B :=
  match p with
  | Fulfilled a => f a
  | Rejected e => Rejected e
  end.

(** [p.catch(g)]: a fulfilled value passes [g] by. *)
Definition catch_ {A : Type} (p : promise A) (g : error -> promise A) : promise A :=
  match p with
  | Fulfilled a => Fulfilled a
  | Rejected e => g e
  end.

Definition of_result {A : Type} (r : dberror + A) : promise A :=
  match r with
  | inl e => Rejected (DbError e)
  | inr a => Fulfilled a
  end.

(** A rejected query, sequenced. *)
Definition bind {A B : Type} (r : dberror + A) (f : A -> dberror + B) : dberror + B :=
  match r with
  | inl e => inl e
  | inr a => f a
  end.

Notation "x <- r ;; k" := (bind r (fun x => k))
  (at level 61, r at next level, right associativity).

(** ** Requests and responses *)

Inductive http_method : Type := GET | HEAD | POST | PUT | DELETE | OTHER.

Definition method_eqb (a b : http_method) : bool :=
  match a, b with
  | GET, GET | HEAD, HEAD | POST, POST | PUT, PUT | DELETE, DELETE | OTHER, OTHER => true
  | _, _ => false
  end.

(** [request.body], as the urlencoded and JSON parsers leave it: the
    fields the handlers read. *)
Module Body.
Record t : Type := mk {
  title : option string;
  description : option string;
  category : option string;
  contact : option string;
  status : option string;
  username : option string
}.
Definition empty : t := mk None None None None None None.
End Body.

(** The request as the stack of server.js sees it below the parsers:
    [method] is the method after [methodOverride('_method')], [path]
    the pieces of the path between slashes (a trailing slash adds
    none), [query] and [body] the parsed query string and form,
    [cookies] the table built by [cookieParser()] for the cookies it
    leaves as text. [params] is filled in by the router and [user] by
    the identity middleware. *)
Record http_request : Type := mkRequest {
  method : http_method;
  path : list string;
  query : list (string * string);
  body : Body.t;
  cookies : list (string * string);
  params : list (string * string);
  user : json
}.

Definition set_user (u : json) (r : http_request) : http_request :=
  mkRequest (method r) (path r) (query r) (body r) (cookies r) (params r) u.

Definition set_params (ps : list (string * string)) (r : http_request) : http_request :=
  mkRequest (method r) (path r) (query r) (body r) (cookies r) ps (user r).

(** The second argument of [response.render]. *)
Inductive view_model : Type :=
| NoModel
| TasksModel (rows : list Tasks.row)
| TaskModel (task : option Tasks.row)
| ErrorModel (err : error).

Inductive sent_body : Type :=
| Render (view : string) (model : view_model)
| Redirect (location : string)
| Send (text : string)
| File (content : string).

Inductive cookie_op : Type :=
| SetCookie (name value : string)
| ClearCookie (name : string).

Record http_response : Type := mkResponse {
  statusCode : Z;
  locals_user : js;
  cookie_ops : list cookie_op;
  sent : option sent_body
}.

(** The response object Express creates for a request. *)
Definition fresh_response : http_response := mkResponse 200 None [] None.

Definition set_status (code : Z) (r : http_response) : http_response :=
  mkResponse code (locals_user r) (cookie_ops r) (sent r).

Definition set_locals_user (u : json) (r : http_response) : http_response :=
  mkResponse (statusCode r) (Some u) (cookie_ops r) (sent r).

Definition render (view : string) (model : view_model) (r : http_response) : http_response :=
  mkResponse (statusCode r) (locals_user r) (cookie_ops r) (Some (Render view model)).

Definition send (text : string) (r : http_response) : http_response :=
  mkResponse (statusCode r) (locals_user r) (cookie_ops r) (Some (Send text)).

Definition send_file (content : string) (r : http_response) : http_response :=
  mkResponse (statusCode r) (locals_user r) (cookie_ops r) (Some (File content)).

(** [response.redirect(url)]: status 302 and the Location. *)
Definition redirect (location : string) (r : http_response) : http_response :=
  mkResponse 302 (locals_user r) (cookie_ops r) (Some (Redirect location)).

Definition cookie (name value : string) (r : http_response) : http_response :=
  mkResponse (statusCode r) (locals_user r)
    (cookie_ops r ++ [SetCookie name value]) (sent r).

Definition clearCookie (name : string) (r : http_response) : http_response :=
  mkResponse (statusCode r) (locals_user r)
    (cookie_ops r ++ [ClearCookie name]) (sent r).

(** The lines written to the console. *)
Inductive log_entry : Type :=
| LogUser (u : json)
| WarnUserCookie
| LogPostAdd (b : Body.t)
| LogDelete (task_id : option string).

(** The process: the database behind [client] and the console. *)
Record world : Type := mkWorld {
  db : database;
  console : list log_entry
}.

Definition log (e : log_entry) (w : world) : world :=
  mkWorld (db w) (console w ++ [e]).

Definition set_db (d : database) (w : world) : world :=
  mkWorld d (console w).

(** How a handler leaves a request. *)
Inductive outcome : Type :=
| Responded (r : http_response)
| NextError (e : error)
| UnhandledRejection (e : error)
| FallThrough.

(** A chain of promises nobody waits for: what it did, or the
    rejection nothing caught. *)
Definition settle (p : promise outcome) : outcome :=
  match p with
  | Fulfilled o => o
  | Rejected e => UnhandledRejection e
  end.

Definition handler : Type := http_request -> http_response -> world -> world * outcome.

(** [handleError] (server.js, last function). *)
Definition handleError (err : error) (response : http_response) : http_response :=
  let viewModel := ErrorModel err in
  render "pages/error-view" viewModel (set_status 500 response).

(** Decimal digits of an integer, for template literals. *)
Definition decimal (n : Z) : string :=
  DecimalString.NilZero.string_of_int (Z.to_int n).

(** ASCII lower case, for the case-insensitive match of route paths. *)
Definition lower_ascii (c : ascii) : ascii :=
  let n := nat_of_ascii c in
  if ((65 <=? n) && (n <=? 90))%nat then ascii_of_nat (n + 32) else c.

Fixpoint lower (s : string) : string :=
  match s with
  | EmptyString => EmptyString
  | String c s' => String (lower_ascii c) (lower s')
  end.

(** A route path: literal pieces and named parameters, or ['*']. *)
Inductive segment : Type :=
| Lit (s : string)
| Param (name : string).

Inductive pattern : Type :=
| Path (segments : list segment)
| Star.

Fixpoint match_segments (pat : list segment) (p : list string)
  : option (list (string * string)) :=
  match pat, p with
  | [], [] => Some []
  | Lit s :: pat', x :: p' =>
      if String.eqb (lower s) (lower x) then match_segments pat' p' else None
  | Param name :: pat', x :: p' =>
      option_map (cons (name, x)) (match_segments pat' p')
  | _, _ => None
  end.

Definition match_pattern (pat : pattern) (p : list string)
  : option (list (string * string)) :=
  match pat with
  | Path segs => match_segments segs p
  | Star => Some []
  end.

(** A route registered with [app.get] also answers HEAD. *)
Definition method_matches (route_method request_method : http_method) : bool :=
  method_eqb route_method request_method
  || (method_eqb route_method GET && method_eqb request_method HEAD).

(** ** A concrete environment

    One choice for everything server.js takes from outside, and a small
    database, to run the application on. *)

Module Sample.

Definition quote : string := String (ascii_of_nat 34) EmptyString.

(** Integer input: an optional minus sign and decimal digits, within
    the range of [integer]. *)
Definition int4in (s : string) : option Z :=
  match NilZero.int_of_string s with
  | Some d => let n := Z.of_int d in if int4_range n then Some n else None
  | None => None
  end.

(** Serialisation without escapes in strings. *)
Fixpoint stringify (j : json) : string :=
  match j with
  | JNull => "null"
  | JBool b => if b then "true" else "false"
  | JNum n => decimal n
  | JStr s => quote ++ s ++ quote
  | JArr items =>
      "[" ++ (fix all (l : list json) : string :=
                match l with
                | [] => ""
                | x :: l' =>
                    match l' with
                    | [] => stringify x
                    | _ => stringify x ++ "," ++ all l'
                    end
                end) items ++ "]"
  | JObj fields =>
      "{" ++ (fix all (l : list (string * json)) : string :=
                match l with
                | [] => ""
                | (k, v) :: l' =>
                    match l' with
                    | [] => quote ++ k ++ quote ++ ":" ++ stringify v
                    | _ => quote ++ k ++ quote ++ ":" ++ stringify v ++ "," ++ all l'
                    end
                end) fields ++ "}"
  end%string.

(** [s] without the prefix [p]. *)
Fixpoint strip (p s : string) : option string :=
  match p, s with
  | EmptyString, _ => Some s
  | String a p', String b s' => if Ascii.eqb a b then strip p' s' else None
  | _, _ => None
  end.

(** [s] cut at the first [c]. *)
Fixpoint cut (c : ascii) (s : string) : option (string * string) :=
  match s with
  | EmptyString => None
  | String a s' =>
      if Ascii.eqb a c then Some (EmptyString, s')
      else match cut c s' with
           | Some (before, rest) => Some (String a before, rest)
           | None => None
           end
  end.

(** A parser for the texts the application writes into its cookie,
    the literals and the integers; it throws on anything else. *)
Definition parse (s : string) : option json :=
  if String.eqb s "null" then Some JNull
  else if String.eqb s "true" then Some (JBool true)
  else if String.eqb s "false" then Some (JBool false)
  else
    match NilZero.int_of_string s with
    | Some d => Some (JNum (Z.of_int d))
    | None =>
        match strip ("{" ++ quote ++ "id" ++ quote ++ ":")%string s with
        | None => None
        | Some s1 =>
            match cut "," s1 with
            | None => None
            | Some (digits, s2) =>
                match NilZero.int_of_string digits,
                      strip (quote ++ "username" ++ quote ++ ":" ++ quote)%string s2 with
                | Some d, Some s3 =>
                    match cut (ascii_of_nat 34) s3 with
                    | Some (name, rest) =>
                        if String.eqb rest "}"
                        then Some (JObj [("id", JNum (Z.of_int d));
                                         ("username", JStr name)])
                        else None
                    | None => None
                    end
                | _, _ => None
                end
            end
        end
    end.

Definition due_default : value := VNull.
Definition constraint (others : list Tasks.row) (t : Tasks.row) : option dberror := None.
Definition public_file (p : list string) : option string := None.
Definition books : http_request -> http_response -> world -> world * outcome :=
  fun _ res w => (w, Responded (render "pages/books" NoModel res)).

Definition keith : Users.row := Users.mk 1 "keith".
Definition ada : Users.row := Users.mk 2 "ada".

Definition milk : Tasks.row :=
  Tasks.mk 1 (Some "Buy milk") (Some "two litres") (Some "home") (Some "keith")
    (Some "open") (VText "2024-02-01") (Some 1).
Definition eggs : Tasks.row :=
  Tasks.mk 2 (Some "Buy eggs") (Some "a dozen") (Some "home") (Some "keith")
    (Some "open") (VText "2024-01-01") (Some 1).

Definition db0 : database := mkDb [milk; eggs] [keith; ada] 3 3.
Definition world0 : world := mkWorld db0 [].

(** A request as it reaches the stack. *)
Definition incoming (m : http_method) (p : list string) (b : Body.t)
    (cookies : list (string * string)) : http_request :=
  mkRequest m p [] b cookies [] JNull.

(** The same request past the identity middleware and the router. *)
Definition routed (m : http_method) (p : list string) (b : Body.t)
    (ps : list (string * string)) (u : json) : http_request :=
  mkRequest m p [] b [] ps u.

Definition as_keith : json := Users.object keith.
Definition as_ada : json := Users.object ada.

Definition form (title : string) : Body.t :=
  Body.mk (Some title) (Some "") (Some "") (Some "") (Some "done") None.
Definition credentials (name : string) : Body.t :=
  Body.mk None None None None None (Some name).

(** Requests at the handlers. *)
Definition keith_lists : http_request := routed GET [] Body.empty [] as_keith.
Definition keith_views_milk : http_request :=
  routed GET ["tasks"; "1"] Body.empty [("task_id", "1")] as_keith.
Definition ada_views_milk : http_request :=
  routed GET ["tasks"; "1"] Body.empty [("task_id", "1")] as_ada.
Definition ada_updates_milk : http_request :=
  routed PUT ["tasks"; "1"] (form "Sell milk") [("task_id", "1")] as_ada.
Definition bob_registers : http_request :=
  routed POST ["register"] (credentials "bob") [] (JObj []).
Definition ada_logs_in : http_request :=
  routed POST ["login"] (credentials "ada") [] (JObj []).
Definition eve_logs_in : http_request :=
  routed POST ["login"] (credentials "eve") [] (JObj []).

(** Requests at the stack. *)
Definition keith_cookie : list (string * string) := [("user", stringify as_keith)].
Definition broken_cookie : list (string * string) := [("user", "{id:")].
Definition get_home_broken : http_request := incoming GET [] Body.empty broken_cookie.
Definition get_edit_abc : http_request :=
  incoming GET ["tasks"; "abc"; "edit"] Body.empty keith_cookie.
Definition get_nowhere : http_request := incoming GET ["nowhere"] Body.empty keith_cookie.
Definition post_nowhere : http_request := incoming POST ["nowhere"] Body.empty keith_cookie.

(** More of the same, for the properties beyond the claims. *)
Definition stray : Tasks.row :=
  Tasks.mk 3 (Some "Water plants") None None None (Some "open") VNull None.
Definition db_stray : database := mkDb [milk; eggs; stray] [keith; ada] 4 3.
Definition world_stray : world := mkWorld db_stray [].

Definition keith_adds : http_request :=
  routed POST ["add"] (form "Buy bread") [] as_keith.
Definition keith_views_new : http_request :=
  routed GET ["tasks"; "3"] Body.empty [("task_id", "3")] as_keith.
Definition nobody_adds : http_request :=
  routed POST ["add"] (form "Buy bread") [] (JObj []).
Definition forged_adds : http_request :=
  routed POST ["add"] (form "Buy bread") [] (JObj [("id", JNum 99)]).
Definition keith_registers : http_request :=
  routed POST ["register"] (credentials "keith") [] (JObj []).
Definition bob_logs_in : http_request :=
  routed POST ["login"] (credentials "bob") [] (JObj []).
Definition keith_updates_milk : http_request :=
  routed PUT ["tasks"; "1"] (form "Sell milk") [("task_id", "1")] as_keith.
Definition keith_deletes_milk : http_request :=
  routed DELETE ["tasks"; "1"] Body.empty [("task_id", "1")] as_keith.
Definition nobody_lists : http_request := routed GET [] Body.empty [] (JObj []).

Definition five_cookie : http_request := incoming GET [] Body.empty [("user", "5")].
Definition post_logout : http_request := incoming POST ["logout"] Body.empty broken_cookie.
Definition post_register_bob : http_request :=
  incoming POST ["register"] (credentials "bob") [].
Definition bob : Users.row := Users.mk 3 "bob".
Definition bob_cookie : list (string * string) := [("user", stringify (Users.object bob))].
Definition post_add_bob : http_request :=
  incoming POST ["add"] (form "Buy bread") bob_cookie.
Definition get_home_bob : http_request := incoming GET [] Body.empty bob_cookie.
Definition get_home_keith : http_request := incoming GET [] Body.empty keith_cookie.

Definition put_abc : http_request :=
  incoming PUT ["tasks"; "abc"] (form "Sell milk") keith_cookie.
Definition delete_abc : http_request :=
  incoming DELETE ["tasks"; "abc"] Body.empty keith_cookie.
Definition nobody_lists_v1 : http_request := routed GET [] Body.empty [] (JObj []).
Definition keith_updates_abc : http_request :=
  routed PUT ["tasks"; "abc"] (form "Sell milk") [("task_id", "abc")] as_keith.
Definition keith_deletes_abc : http_request :=
  routed DELETE ["tasks"; "abc"] Body.empty [("task_id", "abc")] as_keith.

(** A username of 101 characters, the last 98 of them blanks. *)
Definition bob_and_blanks : string :=
  "bob                                                                                                  ".
Definition bob_with_blanks_registers : http_request :=
  routed POST ["register"] (credentials bob_and_blanks) [] (JObj []).
Definition bob_with_blanks_logs_in : http_request :=
  routed POST ["login"] (credentials bob_and_blanks) [] (JObj []).

(** A database the migration has not run on, and one where the id 1
    is out of keith's reach. *)
Definition old_milk : Tasks.row :=
  Tasks.mk 1 (Some "Buy milk") None None None (Some "open") (VText "2024-02-01") None.
Definition db_before : database := mkDb [old_milk] [] 2 1.
Definition db_taken : database := mkDb [old_milk] [Users.mk 7 "grace"] 2 8.

End Sample.

(** ** The application *)

Section Server.

(** PostgreSQL's input routine for [integer]: the number a text
    denotes, if it denotes one. *)
Variable int4in : string -> option Z.

(** The text the driver sends for a parameter that is a boolean, an
    array or an object. *)
Variable pg_text : json -> string.

(** [JSON.parse], [None] when it throws, and [JSON.stringify]. *)
Variable JSON_parse : string -> option json.
Variable JSON_stringify : json -> string.

(** The [tasks] table is declared outside the repository: what its
    [due] column defaults to, and the error, if any, that its
    declared constraints raise for a new version of a row next to the
    rows already there. *)
Variable tasks_due_default : value.
Variable tasks_constraint : list Tasks.row -> Tasks.row -> option dberror.

(** The files under ./public, by path. *)
Variable public_file : list string -> option string.

(** The handler exported by ./modules/books. *)
Variable books : handler.

(** *** Statements *)

(** A parameter bound where the statement compares it with an
    [integer] column. *)
Definition int4 (p : sqlparam) : dberror + option Z :=
  match p with
  | PNull => inr None
  | PInt n => if int4_range n then inr (Some n) else inl (IntegerOutOfRange n)
  | PText s =>
      match int4in s with
      | Some n => inr (Some n)
      | None => inl (InvalidInteger s)
      end
  end.

(** The driver's encoding of a JavaScript value as a parameter. *)
Definition prepareValue (v : js) : sqlparam :=
  match v with
  | None => PNull
  | Some JNull => PNull
  | Some (JNum n) => PInt n
  | Some (JStr s) => PText s
  | Some j => PText (pg_text j)
  end.

(** WHERE id = $a AND user_id = $b *)
Definition owned_by (tid uid : option Z) (t : Tasks.row) : bool :=
  sql_eq (Some (Tasks.id t)) tid && sql_eq (Tasks.user_id t) uid.

(** SELECT * FROM Tasks WHERE user_id = $2 ORDER BY $1 ASC;
    the sort expression is the parameter [$1] itself. *)
Definition SQL_getTasks (p1 p2 : sqlparam) (d : database)
  : database * (dberror + list Tasks.row) :=
  (d, uid <- int4 p2 ;;
      inr (order_by_asc (fun _ : Tasks.row => param_value p1)
             (filter (fun t => sql_eq (Tasks.user_id t) uid) (tasks d)))).

(** SELECT * FROM Tasks WHERE id = $1 AND user_id = $2 LIMIT 1; *)
Definition SQL_getOneTask (p1 p2 : sqlparam) (d : database)
  : database * (dberror + list Tasks.row) :=
  (d, tid <- int4 p1 ;;
      uid <- int4 p2 ;;
      inr (limit 1 (filter (owned_by tid uid) (tasks d)))).

Definition user_exists (d : database) (uid : option Z) : bool :=
  match uid with
  | None => true
  | Some u => existsb (fun r => Users.id r =? u) (users d)
  end.

(** INSERT INTO tasks (title, description, category, contact, status,
    user_id) VALUES ($1, $2, $3, $4, $5, $6) RETURNING Id; the id comes
    from the sequence of the column, as that of [users] does, and the
    foreign key is the one the migration adds. *)
Definition SQL_addTask (p1 p2 p3 p4 p5 : option string) (p6 : sqlparam)
    (d : database) : database * (dberror + list Z) :=
  match int4 p6 with
  | inl e => (d, inl e)
  | inr uid =>
      let id := tasks_id_seq d in
      let d1 := mkDb (tasks d) (users d) (id + 1) (users_id_seq d) in
      let row := Tasks.mk id p1 p2 p3 p4 p5 tasks_due_default uid in
      match tasks_constraint (tasks d) row with
      | Some e => (d1, inl e)
      | None =>
          if user_exists d uid
          then (mkDb (tasks d ++ [row]) (users d) (id + 1) (users_id_seq d),
                inr [id])
          else (d1, inl (ForeignKeyViolation "fk_user_id"))
      end
  end.

(** DELETE FROM Tasks WHERE Id = $1 AND user_id = $2 *)
Definition SQL_deleteOneTask (p1 p2 : sqlparam) (d : database)
  : database * (dberror + unit) :=
  match (tid <- int4 p1 ;; uid <- int4 p2 ;; inr (tid, uid)) with
  | inl e => (d, inl e)
  | inr (tid, uid) =>
      (mkDb (filter (fun t => negb (owned_by tid uid t)) (tasks d))
         (users d) (tasks_id_seq d) (users_id_seq d), inr tt)
  end.

(** SELECT * FROM Tasks WHERE Id = $1 AND user_id = $2 *)
Definition SQL_editOneTask (p1 p2 : sqlparam) (d : database)
  : database * (dberror + list Tasks.row) :=
  (d, tid <- int4 p1 ;;
      uid <- int4 p2 ;;
      inr (filter (owned_by tid uid) (tasks d))).

(** SET Title = $1, Description = $2, Category = $3, Contact = $4,
    Status = $5 *)
Definition set_fields (p1 p2 p3 p4 p5 : option string) (t : Tasks.row) : Tasks.row :=
  Tasks.mk (Tasks.id t) p1 p2 p3 p4 p5 (Tasks.due t) (Tasks.user_id t).

(** The first constraint a new row version breaks. *)
Fixpoint first_violation (all : list Tasks.row) (changed : list Tasks.row)
  : option dberror :=
  match changed with
  | [] => None
  | t :: rest =>
      match tasks_constraint all t with
      | Some e => Some e
      | None => first_violation all rest
      end
  end.

(** UPDATE Tasks SET ... WHERE Id = $6 AND user_id = $7; the
    statement writes a new version of each row it changes, and a scan
    reads the new versions behind the rows left alone. *)
Definition SQL_updateOneTask (p1 p2 p3 p4 p5 : option string) (p6 p7 : sqlparam)
    (d : database) : database * (dberror + unit) :=
  match (tid <- int4 p6 ;; uid <- int4 p7 ;; inr (tid, uid)) with
  | inl e => (d, inl e)
  | inr (tid, uid) =>
      let changed := map (set_fields p1 p2 p3 p4 p5)
                       (filter (owned_by tid uid) (tasks d)) in
      match first_violation (tasks d) changed with
      | Some e => (d, inl e)
      | None =>
          (mkDb (filter (fun t => negb (owned_by tid uid t)) (tasks d) ++ changed)
             (users d) (tasks_id_seq d) (users_id_seq d), inr tt)
      end
  end.

(** INSERT INTO users (username) VALUES ($1) RETURNING id, username;
    a text too long for the column is refused before an id is drawn;
    otherwise the id is drawn from the sequence before the constraints
    are checked, and is not given back when one of them fails. *)
Definition SQL_createUser (p1 : option string) (d : database)
  : database * (dberror + list Users.row) :=
  let id := users_id_seq d in
  let d1 := mkDb (tasks d) (users d) (tasks_id_seq d) (id + 1) in
  match p1 with
  | None => (d1, inl (NotNullViolation "username"))
  | Some text =>
      match varchar 100 text with
      | None => (d, inl (ValueTooLong "character varying(100)"))
      | Some name =>
          if existsb (fun r => Users.id r =? id) (users d)
          then (d1, inl (UniqueViolation "users_pkey"))
          else if existsb (fun r => String.eqb (Users.username r) name) (users d)
          then (d1, inl (UniqueViolation "users_username_key"))
          else
            let row := Users.mk id name in
            (mkDb (tasks d) (users d ++ [row]) (tasks_id_seq d) (id + 1), inr [row])
      end
  end.

(** SELECT id, username FROM users WHERE username = $1; *)
Definition SQL_doLogin (p1 : option string) (d : database)
  : database * (dberror + list Users.row) :=
  (d, inr (filter (fun r => sql_eq_text (Users.username r) p1) (users d))).

(** [client.query(SQL, values)]: the statement runs against the
    database and the promise settles with its rows or its error. *)
Definition client_query {A : Type}
    (statement : database -> database * (dberror + A)) (w : world)
  : world * promise A :=
  let (d, r) := statement (db w) in
  (set_db d w, of_result r).

(** *** The identity middleware *)

(** The body of the [try] block: [user && JSON.parse(user) || {}],
    or the exception [JSON.parse] throws. *)
Definition parse_user (cookie : option string) : unit + json :=
  match cookie with
  | None => inr (JObj [])
  | Some text =>
      if String.eqb text "" then inr (JObj [])
      else
        match JSON_parse text with
        | None => inl tt
        | Some v => inr (if truthy v then v else JObj [])
        end
  end.

(** What a middleware hands on. *)
Inductive passed : Type :=
| CallsNext (request : http_request) (response : http_response)
| Throws (err : error).

(** [app.use((request, response, next) => ...)], after [cookieParser()]. *)
Definition identity (request : http_request) (response : http_response) (w : world)
  : world * passed :=
  let user_cookie := assoc "user" (cookies request) in
  let '(w1, request1) :=
    match parse_user user_cookie with
    | inr u =>
        let request1 := set_user u request in
        (log (LogUser (user request1)) w, request1)
    | inl _ =>
        (log WarnUserCookie w, set_user (JObj []) request)
    end in
  let response1 := set_locals_user (user request1) response in
  (w1, CallsNext request1 response1).

(** *** Route handlers *)

Definition responds (r : http_response) : promise outcome := Fulfilled (Responded r).

Definition getTasks : handler := fun request response w =>
  let sort_by := assoc "sort_by" (query request) in
  let SQL := SQL_getTasks in
  let (w1, p) :=
    client_query (SQL (PText (or_default sort_by "due"))
                      (prepareValue (prop "id" (user request)))) w in
  (w1, settle
    (catch_
      (then_ p (fun rows => responds (render "index" (TasksModel rows) response)))
      (fun err => responds (handleError err response)))).

Definition getOneTask : handler := fun request response w =>
  let task_id := assoc "task_id" (params request) in
  let SQL := SQL_getOneTask in
  let (w1, p) :=
    client_query (SQL (text_param task_id)
                      (prepareValue (prop "id" (user request)))) w in
  (w1, settle
    (catch_
      (then_ p (fun rows =>
        if (List.length rows <? 1)%nat
        then responds (handleError (Message "Task Not Found") response)
        else responds (render "pages/detail-view" (TaskModel (nth_error rows 0)) response)))
      (fun err => responds (handleError err response)))).

Definition showAddTaskForm : handler := fun request response w =>
  (w, Responded (render "pages/add-view" NoModel response)).

Definition addTask : handler := fun request response w =>
  let w0 := log (LogPostAdd (body request)) w in
  let b := body request in
  let SQL := SQL_addTask in
  let (w1, p) :=
    client_query (SQL (Body.title b) (Body.description b) (Body.category b)
                      (Body.contact b) (Body.status b)
                      (prepareValue (prop "id" (user request)))) w0 in
  (w1, settle
    (catch_
      (then_ p (fun rows =>
        match nth_error rows 0 with
        | Some id => responds (redirect ("/tasks/" ++ decimal id)%string response)
        | None => Rejected (TypeError "Cannot read properties of undefined")
        end))
      (fun err => responds (handleError err response)))).

Definition deleteOneTask : handler := fun request response w =>
  let w0 := log (LogDelete (assoc "task_id" (params request))) w in
  let SQL := SQL_deleteOneTask in
  let (w1, p) :=
    client_query (SQL (text_param (assoc "task_id" (params request)))
                      (prepareValue (prop "id" (user request)))) w0 in
  (w1, settle
    (catch_
      (then_ p (fun _ => responds (redirect "/" response)))
      (fun err => responds (handleError err response)))).

Definition editOneTask : handler := fun request response w =>
  let task_id := assoc "task_id" (params request) in
  let SQL := SQL_editOneTask in
  let (w1, p) :=
    client_query (SQL (text_param task_id)
                      (prepareValue (prop "id" (user request)))) w in
  (w1, settle
    (then_ p (fun rows =>
      let task := nth_error rows 0 in
      let viewModel := TaskModel task in
      responds (render "pages/edit-view" viewModel response)))).

Definition updateOneTask : handler := fun request response w =>
  let task_id := assoc "task_id" (params request) in
  let b := body request in
  let SQL := SQL_updateOneTask in
  let (w1, p) :=
    client_query (SQL (Body.title b) (Body.description b) (Body.category b)
                      (Body.contact b) (Body.status b)
                      (text_param task_id)
                      (prepareValue (prop "id" (user request)))) w in
  (w1, settle
    (catch_
      (then_ p (fun _ => responds (redirect ("/tasks/" ++ template task_id)%string response)))
      (fun err => Fulfilled (NextError err)))).

Definition showRegister : handler := fun request response w =>
  (w, Responded (render "pages/register" NoModel response)).

(** [JSON.stringify(rows[0])], as the cookie value [response.cookie]
    writes for it. *)
Definition stringify_row (user : option Users.row) : string :=
  match user with
  | Some u => JSON_stringify (Users.object u)
  | None => "undefined"
  end.

Definition createUser : handler := fun request response w =>
  let username := Body.username (body request) in
  let SQL := SQL_createUser in
  let (w1, p) := client_query (SQL username) w in
  (w1, settle
    (catch_
      (then_ p (fun rows =>
        let user := nth_error rows 0 in
        responds (redirect "/" (cookie "user" (stringify_row user) response))))
      (fun err => responds (handleError err response)))).

Definition showLogin : handler := fun request response w =>
  (w, Responded (render "pages/login" NoModel response)).

Definition doLogin : handler := fun request response w =>
  let username := Body.username (body request) in
  let SQL := SQL_doLogin in
  let (w1, p) := client_query (SQL username) w in
  (w1, settle
    (catch_
      (then_ p (fun rows =>
        let user := nth_error rows 0 in
        match user with
        | None =>
            responds (render "pages/error-view"
                        (ErrorModel (Message "User not found!"))
                        (set_status 400 response))
        | Some _ =>
            responds (redirect "/" (cookie "user" (stringify_row user) response))
        end))
      (fun err => responds (handleError err response)))).

Definition doLogout : handler := fun request response w =>
  (w, Responded (redirect "/" (clearCookie "user" response))).

(** [(req, res) => res.status(404).send('This route does not exist')] *)
Definition notFound : handler := fun req res w =>
  (w, Responded (send "This route does not exist" (set_status 404 res))).

(** *** The stack *)

Definition task_path : list segment := [Lit "tasks"; Param "task_id"].

(** The routes, in the order server.js registers them. *)
Definition routes : list (http_method * pattern * handler) :=
  [ (GET, Path [], getTasks);
    (GET, Path [Lit "add"], showAddTaskForm);
    (POST, Path [Lit "add"], addTask);
    (GET, Path task_path, getOneTask);
    (DELETE, Path task_path, deleteOneTask);
    (PUT, Path task_path, updateOneTask);
    (GET, Path (task_path ++ [Lit "edit"]), editOneTask);
    (GET, Path [Lit "books"], books);
    (GET, Path [Lit "register"], showRegister);
    (POST, Path [Lit "register"], createUser);
    (GET, Path [Lit "login"], showLogin);
    (POST, Path [Lit "login"], doLogin);
    (POST, Path [Lit "logout"], doLogout);
    (GET, Star, notFound) ].

(** The first route whose method and path match, with the parameters
    of the match. *)
Fixpoint find_route (rs : list (http_method * pattern * handler))
    (m : http_method) (p : list string)
  : option (handler * list (string * string)) :=
  match rs with
  | [] => None
  | (rm, pat, h) :: rs' =>
      if method_matches rm m
      then match match_pattern pat p with
           | Some ps => Some (h, ps)
           | None => find_route rs' m p
           end
      else find_route rs' m p
  end.

(** [express.static('./public')]: a GET or HEAD for a file that
    exists is answered with the file. *)
Definition static (request : http_request) : option string :=
  if method_matches GET (method request) then public_file (path request) else None.

(** The error handler middleware, [(err, req, res, next) => ...]. *)
Definition error_middleware (err : error) (res : http_response) : outcome :=
  Responded (handleError err res).

(** One request through the stack: identity middleware, static
    files, routes and the error handler. [FallThrough] leaves the
    request to what Express does when the stack is exhausted. *)
Definition app (request : http_request) (w : world) : world * outcome :=
  match identity request fresh_response w with
  | (w1, Throws err) => (w1, error_middleware err fresh_response)
  | (w1, CallsNext request1 response1) =>
      match static request1 with
      | Some content => (w1, Responded (send_file content response1))
      | None =>
          match find_route routes (method request1) (path request1) with
          | None => (w1, FallThrough)
          | Some (h, ps) =>
              let (w2, o) := h (set_params ps request1) response1 w1 in
              (w2, match o with
                   | NextError err => error_middleware err response1
                   | _ => o
                   end)
          end
      end
  end.

(** *** Vocabulary of the properties *)

(** The id of the requester as the statements read it: the owner id
    the WHERE clauses compare with, [None] when the identity carries
    no id, or the error that rejects the query. *)
Definition requester (request : http_request) : dberror + option Z :=
  int4 (prepareValue (prop "id" (user request))).

(** The task id the path names, read the same way. *)
Definition target (request : http_request) : dberror + option Z :=
  int4 (text_param (assoc "task_id" (params request))).

(** The task rows a response carries to its view. *)
Definition shown (o : outcome) : list Tasks.row :=
  match o with
  | Responded r =>
      match sent r with
      | Some (Render _ (TasksModel rows)) => rows
      | Some (Render _ (TaskModel (Some t))) => [t]
      | _ => []
      end
  | _ => []
  end.

(** The listing as the specification words it: the rows of the owner
    in ascending order of the column [sort_by] names, [due] when it
    names none. To be compared with what [SQL_getTasks] returns. *)
Definition listing_by_column (sort_by : option string) (uid : option Z)
    (d : database) : list Tasks.row :=
  order_by_asc
    (fun t => match Tasks.column (or_default sort_by "due") t with
              | Some v => v
              | None => VNull
              end)
    (filter (fun t => sql_eq (Tasks.user_id t) uid) (tasks d)).

(** The routes registered before the catch-all. *)
Definition defined_routes : list (http_method * pattern * handler) :=
  removelast routes.

(** *** Invariants of the database *)

(** Every task that has an owner refers to a row of [users]
    (the foreign key [fk_user_id]). *)
Definition references_ok (d : database) : Prop :=
  forall t, In t (tasks d) -> user_exists d (Tasks.user_id t) = true.

(** No two users share a username or an id (UNIQUE and PRIMARY KEY). *)
Definition users_unique (d : database) : Prop :=
  NoDup (map Users.username (users d)) /\ NoDup (map Users.id (users d)).

(** Every username fits its column, VARCHAR(100). *)
Definition usernames_fit (d : database) : Prop :=
  forall u, In u (users d) -> (String.length (Users.username u) <= 100)%nat.

(** Every id in use was handed out by its sequence. *)
Definition ids_below_seq (d : database) : Prop :=
  (forall t, In t (tasks d) -> Tasks.id t < tasks_id_seq d)
  /\ (forall u, In u (users d) -> Users.id u < users_id_seq d).

(** What one statement of server.js can do to the database: nothing;
    draw an id from a sequence and fail; append a task whose id is the
    one drawn and whose owner, if it has one, exists; delete tasks;
    rewrite some tasks, behind the others, without touching their id,
    owner and due date;
    append a user whose id is the one drawn and whose id and username
    are new. *)
Inductive transition (d : database) : database -> Prop :=
| Unchanged : transition d d
| TaskIdDrawn :
    transition d (mkDb (tasks d) (users d) (tasks_id_seq d + 1) (users_id_seq d))
| TaskAdded (t : Tasks.row) :
    Tasks.id t = tasks_id_seq d ->
    user_exists d (Tasks.user_id t) = true ->
    transition d (mkDb (tasks d ++ [t]) (users d) (tasks_id_seq d + 1) (users_id_seq d))
| TasksDeleted (f : Tasks.row -> bool) :
    transition d (mkDb (filter f (tasks d)) (users d) (tasks_id_seq d) (users_id_seq d))
| TasksUpdated (f : Tasks.row -> bool) (g : Tasks.row -> Tasks.row) :
    (forall t, Tasks.id (g t) = Tasks.id t
               /\ Tasks.user_id (g t) = Tasks.user_id t
               /\ Tasks.due (g t) = Tasks.due t) ->
    transition d (mkDb (filter (fun t => negb (f t)) (tasks d) ++ map g (filter f (tasks d)))
                    (users d) (tasks_id_seq d) (users_id_seq d))
| UserIdDrawn :
    transition d (mkDb (tasks d) (users d) (tasks_id_seq d) (users_id_seq d + 1))
| UserAdded (u : Users.row) :
    Users.id u = users_id_seq d ->
    (forall v, In v (users d) ->
       Users.id v <> Users.id u /\ Users.username v <> Users.username u) ->
    transition d (mkDb (tasks d) (users d ++ [u]) (tasks_id_seq d) (users_id_seq d + 1)).

(** A handler answered: it sent a response, with the status it found
    on the response object or one of those server.js sets. *)
Definition answered (response : http_response) (o : outcome) : Prop :=
  exists r, o = Responded r
            /\ (statusCode r = statusCode response
                \/ In (statusCode r) [302; 400; 404; 500]).

(** The row the INSERT of [addTask] writes for a form. *)
Definition submitted_task (id : Z) (b : Body.t) (owner : option Z) : Tasks.row :=
  Tasks.mk id (Body.title b) (Body.description b) (Body.category b)
    (Body.contact b) (Body.status b) tasks_due_default owner.

(** A handler keeps a relation between the database it finds and the
    database it leaves. *)
Definition keeps (R : database -> database -> Prop) (h : handler) : Prop :=
  forall request response w, R (db w) (db (fst (h request response w))).

(** *** The first server.js of the file

    server.js comes twice in the source: first without the identity
    cookie and without the owner in its statements. Its handlers carry
    the suffix [_v1] here. *)

(** WHERE id = $a *)
Definition has_id (tid : option Z) (t : Tasks.row) : bool :=
  sql_eq (Some (Tasks.id t)) tid.

(** SELECT * FROM Tasks ORDER BY $1 ASC; *)
Definition SQL_getTasks_v1 (p1 : sqlparam) (d : database)
  : database * (dberror + list Tasks.row) :=
  (d, inr (order_by_asc (fun _ : Tasks.row => param_value p1) (tasks d))).

(** SELECT * FROM Tasks WHERE id = $1 LIMIT 1; *)
Definition SQL_getOneTask_v1 (p1 : sqlparam) (d : database)
  : database * (dberror + list Tasks.row) :=
  (d, tid <- int4 p1 ;;
      inr (limit 1 (filter (has_id tid) (tasks d)))).

(** INSERT INTO tasks (title, description, category, contact, status)
    VALUES ($1, $2, $3, $4, $5) RETURNING Id; no owner is given. *)
Definition SQL_addTask_v1 (p1 p2 p3 p4 p5 : option string) (d : database)
  : database * (dberror + list Z) :=
  let id := tasks_id_seq d in
  let d1 := mkDb (tasks d) (users d) (id + 1) (users_id_seq d) in
  let row := Tasks.mk id p1 p2 p3 p4 p5 tasks_due_default None in
  match tasks_constraint (tasks d) row with
  | Some e => (d1, inl e)
  | None => (mkDb (tasks d ++ [row]) (users d) (id + 1) (users_id_seq d), inr [id])
  end.

(** DELETE FROM Tasks WHERE Id = $1 *)
Definition SQL_deleteOneTask_v1 (p1 : sqlparam) (d : database)
  : database * (dberror + unit) :=
  match int4 p1 with
  | inl e => (d, inl e)
  | inr tid =>
      (mkDb (filter (fun t => negb (has_id tid t)) (tasks d))
         (users d) (tasks_id_seq d) (users_id_seq d), inr tt)
  end.

(** SELECT * FROM Tasks WHERE Id = $1 *)
Definition SQL_editOneTask_v1 (p1 : sqlparam) (d : database)
  : database * (dberror + list Tasks.row) :=
  (d, tid <- int4 p1 ;;
      inr (filter (has_id tid) (tasks d))).

(** UPDATE Tasks SET ... WHERE Id = $6 *)
Definition SQL_updateOneTask_v1 (p1 p2 p3 p4 p5 : option string) (p6 : sqlparam)
    (d : database) : database * (dberror + unit) :=
  match int4 p6 with
  | inl e => (d, inl e)
  | inr tid =>
      let changed := map (set_fields p1 p2 p3 p4 p5)
                       (filter (has_id tid) (tasks d)) in
      match first_violation (tasks d) changed with
      | Some e => (d, inl e)
      | None =>
          (mkDb (filter (fun t => negb (has_id tid t)) (tasks d) ++ changed)
             (users d) (tasks_id_seq d) (users_id_seq d), inr tt)
      end
  end.

Definition getTasks_v1 : handler := fun request response w =>
  let sort_by := assoc "sort_by" (query request) in
  let SQL := SQL_getTasks_v1 in
  let (w1, p) := client_query (SQL (PText (or_default sort_by "due"))) w in
  (w1, settle
    (catch_
      (then_ p (fun rows => responds (render "index" (TasksModel rows) response)))
      (fun err => responds (handleError err response)))).

Definition getOneTask_v1 : handler := fun request response w =>
  let task_id := assoc "task_id" (params request) in
  let SQL := SQL_getOneTask_v1 in
  let (w1, p) := client_query (SQL (text_param task_id)) w in
  (w1, settle
    (catch_
      (then_ p (fun rows =>
        if (List.length rows <? 1)%nat
        then responds (handleError (Message "Task Not Found") response)
        else responds (render "pages/detail-view" (TaskModel (nth_error rows 0)) response)))
      (fun err => responds (handleError err response)))).

Definition addTask_v1 : handler := fun request response w =>
  let w0 := log (LogPostAdd (body request)) w in
  let b := body request in
  let SQL := SQL_addTask_v1 in
  let (w1, p) :=
    client_query (SQL (Body.title b) (Body.description b) (Body.category b)
                      (Body.contact b) (Body.status b)) w0 in
  (w1, settle
    (catch_
      (then_ p (fun rows =>
        match nth_error rows 0 with
        | Some id => responds (redirect ("/tasks/" ++ decimal id)%string response)
        | None => Rejected (TypeError "Cannot read properties of undefined")
        end))
      (fun err => responds (handleError err response)))).

Definition deleteOneTask_v1 : handler := fun request response w =>
  let w0 := log (LogDelete (assoc "task_id" (params request))) w in
  let SQL := SQL_deleteOneTask_v1 in
  let (w1, p) :=
    client_query (SQL (text_param (assoc "task_id" (params request)))) w0 in
  (w1, settle
    (catch_
      (then_ p (fun _ => responds (redirect "/" response)))
      (fun err => responds (handleError err response)))).

Definition editOneTask_v1 : handler := fun request response w =>
  let task_id := assoc "task_id" (params request) in
  let SQL := SQL_editOneTask_v1 in
  let (w1, p) := client_query (SQL (text_param task_id)) w in
  (w1, settle
    (then_ p (fun rows =>
      let task := nth_error rows 0 in
      let viewModel := TaskModel task in
      responds (render "pages/edit-view" viewModel response)))).

Definition updateOneTask_v1 : handler := fun request response w =>
  let task_id := assoc "task_id" (params request) in
  let b := body request in
  let SQL := SQL_updateOneTask_v1 in
  let (w1, p) :=
    client_query (SQL (Body.title b) (Body.description b) (Body.category b)
                      (Body.contact b) (Body.status b) (text_param task_id)) w in
  (w1, settle
    (catch_
      (then_ p (fun _ => responds (redirect ("/tasks/" ++ template task_id)%string response)))
      (fun err => Fulfilled (NextError err)))).

(** INSERT INTO users (username) VALUES ($1): the statement of
    [createUser] without RETURNING; the answer is the redirect alone. *)
Definition createUser_v1 : handler := fun request response w =>
  let username := Body.username (body request) in
  let SQL := SQL_createUser in
  let (w1, p) := client_query (SQL username) w in
  (w1, settle
    (catch_
      (then_ p (fun results => responds (redirect "/" response)))
      (fun err => responds (handleError err response)))).

Definition doLogin_v1 : handler := fun request response w =>
  let username := Body.username (body request) in
  let SQL := SQL_doLogin in
  let (w1, p) := client_query (SQL username) w in
  (w1, settle
    (catch_
      (then_ p (fun rows =>
        let user := nth_error rows 0 in
        match user with
        | None =>
            responds (render "pages/error-view"
                        (ErrorModel (Message "User not found!"))
                        (set_status 400 response))
        | Some _ => responds (redirect "/" response)
        end))
      (fun err => responds (handleError err response)))).

Definition doLogout_v1 : handler := fun request response w =>
  (w, Responded (redirect "/" response)).

(** *** The migration (the SQL script beside server.js) *)

(** ALTER TABLE tasks ADD COLUMN user_id INT, on a table that does
    not have the column yet: the new column is NULL in every row. *)
Definition add_column_user_id (d : database) : database :=
  mkDb (map (fun t => Tasks.mk (Tasks.id t) (Tasks.title t) (Tasks.description t)
                        (Tasks.category t) (Tasks.contact t) (Tasks.status t)
                        (Tasks.due t) None) (tasks d))
    (users d) (tasks_id_seq d) (users_id_seq d).

(** UPDATE tasks SET user_id = 1 *)
Definition set_all_owners (d : database) : database :=
  mkDb (map (fun t => Tasks.mk (Tasks.id t) (Tasks.title t) (Tasks.description t)
                        (Tasks.category t) (Tasks.contact t) (Tasks.status t)
                        (Tasks.due t) (Some 1)) (tasks d))
    (users d) (tasks_id_seq d) (users_id_seq d).

(** ALTER TABLE tasks ADD CONSTRAINT fk_user_id FOREIGN KEY (user_id)
    REFERENCES users(id): the rows already there are checked. *)
Definition add_constraint_fk (d : database) : dberror + database :=
  if forallb (fun t => user_exists d (Tasks.user_id t)) (tasks d)
  then inr d
  else inl (ForeignKeyViolation "fk_user_id").

(** The five statements in order, up to the first that fails. CREATE
    TABLE IF NOT EXISTS leaves the [users] of the database as they
    are: a table that is not there yet is the empty one, with its
    sequence at 1. *)
Definition migration (d : database) : dberror + database :=
  let d1 := add_column_user_id d in
  match SQL_createUser (Some "keith") d1 with
  | (_, inl e) => inl e
  | (d2, inr _) => add_constraint_fk (set_all_owners d2)
  end.

(** ** Properties *)

(** *** The database layer *)

Lemma value_leb_refl (v : value) : value_leb v v = true.
Proof.
  destruct v as [|n|s]; simpl.
  - reflexivity.
  - apply Z.leb_refl.
  - destruct (String.leb_total s s); assumption.
Qed.

(** Sorting on an expression that is the same for every row leaves
    the rows as the scan produced them. *)
Lemma order_by_asc_constant {A : Type} (v : value) (rows : list A) :
  order_by_asc (fun _ => v) rows = rows.
Proof.
  unfold order_by_asc.
  induction rows as [|x rows IH]; simpl.
  - reflexivity.
  - rewrite IH. destruct rows as [|y rows']; simpl.
    + reflexivity.
    + now rewrite value_leb_refl.
Qed.

Lemma set_db_same (w : world) : set_db (db w) w = w.
Proof. now destruct w. Qed.

Lemma sql_eq_true (a b : option Z) :
  sql_eq a b = true <-> exists n, a = Some n /\ b = Some n.
Proof.
  destruct a as [x|], b as [y|]; simpl; split; intro H;
    try discriminate; try (destruct H as (n & H1 & H2); discriminate).
  - apply Z.eqb_eq in H. subst. now exists y.
  - destruct H as (n & H1 & H2). injection H1 as ->. injection H2 as ->.
    apply Z.eqb_refl.
Qed.

Lemma owned_by_true (tid uid : option Z) (t : Tasks.row) :
  owned_by tid uid t = true <->
  tid = Some (Tasks.id t) /\ uid = Tasks.user_id t /\ uid <> None.
Proof.
  unfold owned_by. rewrite andb_true_iff, !sql_eq_true. split.
  - intros [(n & H1 & H2) (m & H3 & H4)].
    injection H1 as <-. subst. rewrite H3. repeat split; congruence.
  - intros (H1 & H2 & H3). subst. split.
    + now exists (Tasks.id t).
    + destruct (Tasks.user_id t) as [u|]; [now exists u | congruence].
Qed.

Lemma filter_none {A : Type} (f : A -> bool) (l : list A) :
  (forall x, In x l -> f x = false) -> filter f l = [].
Proof.
  induction l as [|x l IH]; simpl; intro H.
  - reflexivity.
  - rewrite (H x (or_introl eq_refl)). apply IH. intros y Hy. apply H. now right.
Qed.

Lemma filter_all {A : Type} (f : A -> bool) (l : list A) :
  (forall x, In x l -> f x = true) -> filter f l = l.
Proof.
  induction l as [|x l IH]; simpl; intro H.
  - reflexivity.
  - rewrite (H x (or_introl eq_refl)). f_equal. apply IH. intros y Hy. apply H. now right.
Qed.

Lemma map_unchanged {A : Type} (f : A -> A) (l : list A) :
  (forall x, In x l -> f x = x) -> map f l = l.
Proof.
  induction l as [|x l IH]; simpl; intro H.
  - reflexivity.
  - rewrite (H x (or_introl eq_refl)). f_equal. apply IH. intros y Hy. apply H. now right.
Qed.

(** Rows moved behind the others: what a filter finds among them. *)
Lemma filter_moved {A : Type} (f : A -> bool) (g : A -> A) (l : list A) :
  (forall x, f (g x) = f x) ->
  filter f (filter (fun x => negb (f x)) l ++ map g (filter f l)) = map g (filter f l).
Proof.
  intro Hg. rewrite filter_app.
  rewrite (filter_none f (filter (fun x => negb (f x)) l)).
  - simpl. apply filter_all.
    intros y Hy. apply in_map_iff in Hy. destruct Hy as (x & <- & Hx).
    apply filter_In in Hx. now rewrite Hg.
  - intros x Hx. apply filter_In in Hx. destruct Hx as [_ Hx].
    now apply negb_true_iff in Hx.
Qed.



(** *** What each handler answers *)

(** The listing: the rows of the requester in scan order, whatever
    [sort_by] says, or the error view when the query is rejected. *)
Lemma getTasks_answer (request : http_request) (response : http_response) (w : world) :
  getTasks request response w =
  (w, match requester request with
      | inl e => Responded (handleError (DbError e) response)
      | inr uid =>
          Responded (render "index"
            (TasksModel (filter (fun t => sql_eq (Tasks.user_id t) uid) (tasks (db w))))
            response)
      end).
Proof.
  unfold getTasks, client_query, SQL_getTasks, requester.
  rewrite set_db_same.
  destruct (int4 (prepareValue (prop "id" (user request)))) as [e|uid]; simpl.
  - reflexivity.
  - now rewrite order_by_asc_constant.
Qed.

Lemma getOneTask_answer (request : http_request) (response : http_response) (w : world) :
  getOneTask request response w =
  (w, match target request, requester request with
      | inl e, _ => Responded (handleError (DbError e) response)
      | inr _, inl e => Responded (handleError (DbError e) response)
      | inr tid, inr uid =>
          match filter (owned_by tid uid) (tasks (db w)) with
          | [] => Responded (handleError (Message "Task Not Found") response)
          | t :: _ => Responded (render "pages/detail-view" (TaskModel (Some t)) response)
          end
      end).
Proof.
  unfold getOneTask, client_query, SQL_getOneTask, requester, target.
  rewrite set_db_same.
  destruct (int4 (text_param (assoc "task_id" (params request)))) as [e|tid]; simpl;
    [reflexivity|].
  destruct (int4 (prepareValue (prop "id" (user request)))) as [e|uid]; simpl;
    [reflexivity|].
  destruct (filter (owned_by tid uid) (tasks (db w))) as [|t rest]; reflexivity.
Qed.

Lemma editOneTask_answer (request : http_request) (response : http_response) (w : world) :
  editOneTask request response w =
  (w, match target request, requester request with
      | inl e, _ => UnhandledRejection (DbError e)
      | inr _, inl e => UnhandledRejection (DbError e)
      | inr tid, inr uid =>
          Responded (render "pages/edit-view"
            (TaskModel (nth_error (filter (owned_by tid uid) (tasks (db w))) 0))
            response)
      end).
Proof.
  unfold editOneTask, client_query, SQL_editOneTask, requester, target.
  rewrite set_db_same.
  destruct (int4 (text_param (assoc "task_id" (params request)))) as [e|tid]; simpl;
    [reflexivity|].
  destruct (int4 (prepareValue (prop "id" (user request)))) as [e|uid]; reflexivity.
Qed.

(** A row the listing shows is a row of the table whose owner is the
    requester. *)
Lemma getTasks_shows_own (request : http_request) (response : http_response)
    (w : world) (r : Tasks.row) :
  In r (shown (snd (getTasks request response w))) ->
  In r (tasks (db w)) /\ requester request = inr (Tasks.user_id r).
Proof.
  rewrite getTasks_answer. simpl.
  destruct (requester request) as [e|uid]; simpl; [tauto|].
  rewrite filter_In, sql_eq_true. intros [Hin (n & H1 & H2)].
  split; [assumption | congruence].
Qed.

(** The listing leaves out no row of the requester. *)
Lemma getTasks_lists_all_owned (request : http_request) (response : http_response)
    (w : world) (t : Tasks.row) (u : Z) :
  requester request = inr (Some u) ->
  In t (tasks (db w)) ->
  Tasks.user_id t = Some u ->
  In t (shown (snd (getTasks request response w))).
Proof.
  intros Hr Hin Hown. rewrite getTasks_answer, Hr. simpl.
  apply filter_In. split; [assumption|].
  apply sql_eq_true. now exists u.
Qed.

(** A row the detail view shows is a row of the table with the
    requested id whose owner is the requester. *)
Lemma getOneTask_shows_own (request : http_request) (response : http_response)
    (w : world) (r : Tasks.row) :
  In r (shown (snd (getOneTask request response w))) ->
  In r (tasks (db w)) /\ target request = inr (Some (Tasks.id r))
  /\ requester request = inr (Tasks.user_id r).
Proof.
  rewrite getOneTask_answer. simpl.
  destruct (target request) as [e|tid]; simpl; [tauto|].
  destruct (requester request) as [e|uid]; simpl; [tauto|].
  destruct (filter (owned_by tid uid) (tasks (db w))) as [|t rest] eqn:F; simpl; [tauto|].
  intros [<-|[]].
  assert (Ht : In t (filter (owned_by tid uid) (tasks (db w)))) by (rewrite F; now left).
  apply filter_In in Ht. destruct Ht as [Hin Hown].
  apply owned_by_true in Hown. destruct Hown as (H1 & H2 & _).
  repeat split; [assumption | congruence | congruence].
Qed.

(** C1. Ownership isolation. Let [t] be a task whose owner is [U] and
    let the requester be anyone whose identity does not read as [U].
    The listing never shows [t], and every row it shows belongs to
    the requester; the detail view never shows [t] either, whatever
    id the path names; and when the path names an id under which the
    requester owns no row, the retrieval reports 'Task Not Found'. *)
Theorem ownership_isolation (w : world) (request : http_request)
    (response : http_response) (t : Tasks.row) (U : Z) :
  In t (tasks (db w)) ->
  Tasks.user_id t = Some U ->
  requester request <> inr (Some U) ->
  ~ In t (shown (snd (getTasks request response w)))
  /\ (forall r, In r (shown (snd (getTasks request response w))) ->
        requester request = inr (Tasks.user_id r))
  /\ ~ In t (shown (snd (getOneTask request response w)))
  /\ (forall n V,
        target request = inr (Some n) ->
        requester request = inr V ->
        (forall r, In r (tasks (db w)) -> Tasks.id r = n -> Tasks.user_id r <> V) ->
        getOneTask request response w =
        (w, Responded (handleError (Message "Task Not Found") response))).
Proof.
  intros Hin Hown Hother. repeat split.
  - intro H. apply getTasks_shows_own in H. destruct H as [_ H]. congruence.
  - intros r H. now apply getTasks_shows_own in H.
  - intro H. apply getOneTask_shows_own in H. destruct H as (_ & _ & H). congruence.
  - intros n V Ht Hr Hnone. rewrite getOneTask_answer, Ht, Hr.
    rewrite filter_none; [reflexivity|].
    intros r Hr_in. destruct (owned_by (Some n) V r) eqn:E; [|reflexivity].
    apply owned_by_true in E. destruct E as (H1 & H2 & _).
    injection H1 as H1. exfalso. apply (Hnone r Hr_in); congruence.
Qed.

(** C3. Single task retrieval. Either the table holds a row with the
    requested id that belongs to the requester, and such a row is
    rendered in the detail view with the status left as it was; or
    it holds none, and the handler answers through [handleError]:
    status 500 and the view pages/error-view, the same view the error
    middleware renders a server error with. The error shown is 'Task
    Not Found' when the query ran. *)
Theorem getOneTask_found_or_error (request : http_request)
    (response : http_response) (w : world) :
  (exists t,
      In t (tasks (db w))
      /\ target request = inr (Some (Tasks.id t))
      /\ requester request = inr (Tasks.user_id t)
      /\ Tasks.user_id t <> None
      /\ getOneTask request response w =
         (w, Responded (render "pages/detail-view" (TaskModel (Some t)) response)))
  \/
  ((forall t, In t (tasks (db w)) ->
      ~ (target request = inr (Some (Tasks.id t))
         /\ requester request = inr (Tasks.user_id t)
         /\ Tasks.user_id t <> None))
   /\ exists err,
      getOneTask request response w = (w, Responded (handleError err response))
      /\ error_middleware err response = Responded (handleError err response)
      /\ statusCode (handleError err response) = 500
      /\ sent (handleError err response) = Some (Render "pages/error-view" (ErrorModel err))
      /\ (forall tid uid, target request = inr tid -> requester request = inr uid ->
            err = Message "Task Not Found")).
Proof.
  rewrite getOneTask_answer.
  destruct (target request) as [e|tid] eqn:Ht.
  - right. split.
    + intros t _ (H & _). discriminate.
    + exists (DbError e). repeat split. intros; discriminate.
  - destruct (requester request) as [e|uid] eqn:Hr.
    + right. split.
      * intros t _ (_ & H & _). discriminate.
      * exists (DbError e). repeat split. intros; discriminate.
    + destruct (filter (owned_by tid uid) (tasks (db w))) as [|t rest] eqn:F.
      * right. split.
        -- intros t Hin (H1 & H2 & H3).
           assert (Hf : In t (filter (owned_by tid uid) (tasks (db w)))).
           { apply filter_In. split; [assumption|].
             apply owned_by_true. repeat split; congruence. }
           rewrite F in Hf. destruct Hf.
        -- exists (Message "Task Not Found"). repeat split.
      * left. exists t.
        assert (Hf : In t (filter (owned_by tid uid) (tasks (db w)))) by (rewrite F; now left).
        apply filter_In in Hf. destruct Hf as [Hin Hown].
        apply owned_by_true in Hown. destruct Hown as (H1 & H2 & H3).
        repeat split; [assumption | congruence | congruence | congruence].
Qed.


Lemma db_eta (d : database) :
  mkDb (tasks d) (users d) (tasks_id_seq d) (users_id_seq d) = d.
Proof. now destruct d. Qed.

Lemma updateOneTask_answer (request : http_request) (response : http_response)
    (w : world) (tid uid : option Z) :
  target request = inr tid ->
  requester request = inr uid ->
  (forall t, In t (tasks (db w)) -> owned_by tid uid t = false) ->
  updateOneTask request response w =
  (w, Responded (redirect ("/tasks/" ++ template (assoc "task_id" (params request)))%string
                   response)).
Proof.
  unfold target, requester. intros Ht Hr Hnone.
  unfold updateOneTask, client_query, SQL_updateOneTask.
  rewrite Ht, Hr. simpl.
  rewrite (filter_none _ _ Hnone). simpl.
  rewrite filter_all, app_nil_r.
  - now rewrite db_eta, set_db_same.
  - intros t Hin. now rewrite (Hnone t Hin).
Qed.

Lemma deleteOneTask_answer (request : http_request) (response : http_response)
    (w : world) (tid uid : option Z) :
  target request = inr tid ->
  requester request = inr uid ->
  (forall t, In t (tasks (db w)) -> owned_by tid uid t = false) ->
  deleteOneTask request response w =
  (log (LogDelete (assoc "task_id" (params request))) w,
   Responded (redirect "/" response)).
Proof.
  unfold target, requester. intros Ht Hr Hnone.
  unfold deleteOneTask, client_query, SQL_deleteOneTask.
  rewrite Ht, Hr. simpl.
  rewrite filter_all.
  - rewrite db_eta. now destruct w.
  - intros t Hin. now rewrite (Hnone t Hin).
Qed.

(** C4, as the code has it. Update and delete that match no row. When
    the statement runs, that is, the path names an integer task id
    and the identity an integer owner id (or none), and no row of the
    table has that id and that owner (the id is missing, or its row
    belongs to someone else), the update answers with the redirect to
    the detail view and the delete with the redirect to the listing,
    neither through [handleError] nor through [next]; the database
    after either is the database before, so the row under another
    owner is still there, unchanged. *)
Theorem update_delete_without_match (request : http_request)
    (response : http_response) (w : world) (tid uid : option Z) :
  target request = inr tid ->
  requester request = inr uid ->
  (forall t, In t (tasks (db w)) ->
     ~ (Some (Tasks.id t) = tid /\ Tasks.user_id t = uid /\ uid <> None)) ->
  snd (updateOneTask request response w) =
    Responded (redirect ("/tasks/" ++ template (assoc "task_id" (params request)))%string
                 response)
  /\ snd (deleteOneTask request response w) = Responded (redirect "/" response)
  /\ db (fst (updateOneTask request response w)) = db w
  /\ db (fst (deleteOneTask request response w)) = db w
  /\ (forall t, In t (tasks (db w)) ->
        In t (tasks (db (fst (updateOneTask request response w))))
        /\ In t (tasks (db (fst (deleteOneTask request response w))))).
Proof.
  intros Ht Hr Hnone.
  assert (Hf : forall t, In t (tasks (db w)) -> owned_by tid uid t = false).
  { intros t Hin. destruct (owned_by tid uid t) eqn:E; [|reflexivity].
    apply owned_by_true in E. destruct E as (H1 & H2 & H3).
    exfalso. apply (Hnone t Hin). repeat split; congruence. }
  rewrite (updateOneTask_answer _ response _ _ _ Ht Hr Hf).
  rewrite (deleteOneTask_answer _ response _ _ _ Ht Hr Hf).
  simpl. repeat split; assumption.
Qed.

(** Whatever the request, a row whose owner is not the requester
    outlives an update and a delete unchanged. *)
Lemma rows_of_others_survive (request : http_request) (response : http_response)
    (w : world) (t : Tasks.row) :
  In t (tasks (db w)) ->
  requester request <> inr (Tasks.user_id t) ->
  In t (tasks (db (fst (updateOneTask request response w))))
  /\ In t (tasks (db (fst (deleteOneTask request response w)))).
Proof.
  unfold requester. intros Hin Hother. split.
  - unfold updateOneTask, client_query, SQL_updateOneTask.
    destruct (int4 (text_param (assoc "task_id" (params request)))) as [e|tid]; simpl;
      [assumption|].
    destruct (int4 (prepareValue (prop "id" (user request)))) as [e|uid]; simpl;
      [assumption|].
    destruct (first_violation _ _); simpl; [assumption|].
    apply in_or_app. left. apply filter_In. split; [assumption|].
    destruct (owned_by tid uid t) eqn:E; [|reflexivity].
    apply owned_by_true in E. destruct E as (_ & H & _). congruence.
  - unfold deleteOneTask, client_query, SQL_deleteOneTask.
    destruct (int4 (text_param (assoc "task_id" (params request)))) as [e|tid]; simpl;
      [assumption|].
    destruct (int4 (prepareValue (prop "id" (user request)))) as [e|uid]; simpl;
      [assumption|].
    apply filter_In. split; [assumption|].
    destruct (owned_by tid uid t) eqn:E; [|reflexivity].
    apply owned_by_true in E. destruct E as (_ & H & _). congruence.
Qed.

Lemma prefix_of_length (n : nat) (s : string) :
  (String.length (prefix_of n s) <= n)%nat.
Proof.
  revert s. induction n as [|n IH]; intros [|c s]; simpl; try lia.
  specialize (IH s). lia.
Qed.

(** What VARCHAR(n) stores fits in [n] characters, and is the text
    itself when the text fits. *)
Lemma varchar_fits (n : nat) (s stored : string) :
  varchar n s = Some stored ->
  (String.length stored <= n)%nat
  /\ ((String.length s <= n)%nat -> stored = s).
Proof.
  unfold varchar. destruct (String.length s <=? n)%nat eqn:E.
  - intro H. injection H as <-. apply Nat.leb_le in E. auto.
  - destruct (blank (suffix_from n s)); [|discriminate].
    intro H. injection H as <-. split; [apply prefix_of_length|].
    apply Nat.leb_gt in E. lia.
Qed.

Lemma varchar_of_fit (n : nat) (s : string) :
  (String.length s <= n)%nat -> varchar n s = Some s.
Proof.
  intro H. unfold varchar. apply Nat.leb_le in H. now rewrite H.
Qed.

(** When the INSERT of a registration succeeds. *)
Lemma SQL_createUser_success (name : option string) (d d' : database)
    (rows : list Users.row) :
  SQL_createUser name d = (d', inr rows) ->
  exists row text,
    rows = [row]
    /\ name = Some text
    /\ varchar 100 text = Some (Users.username row)
    /\ Users.id row = users_id_seq d
    /\ d' = mkDb (tasks d) (users d ++ [row]) (tasks_id_seq d) (users_id_seq d + 1)
    /\ (forall u, In u (users d) ->
          Users.id u <> Users.id row /\ Users.username u <> Users.username row).
Proof.
  unfold SQL_createUser. destruct name as [text|]; [|discriminate].
  destruct (varchar 100 text) as [name|] eqn:V; [|discriminate].
  destruct (existsb (fun r => Users.id r =? users_id_seq d) (users d)) eqn:Eid;
    [discriminate|].
  destruct (existsb (fun r => String.eqb (Users.username r) name) (users d)) eqn:Ename;
    [discriminate|].
  intro H. injection H as <- <-.
  exists (Users.mk (users_id_seq d) name), text. simpl.
  split; [reflexivity|]. split; [reflexivity|]. split; [exact V|].
  split; [reflexivity|]. split; [reflexivity|]. intros u Hin. split.
  - intro Hid. assert (X : existsb (fun r => Users.id r =? users_id_seq d) (users d) = true).
    { apply existsb_exists. exists u. split; [assumption | now apply Z.eqb_eq]. }
    congruence.
  - intro Hn.
    assert (X : existsb (fun r => String.eqb (Users.username r) name) (users d) = true).
    { apply existsb_exists. exists u. split; [assumption | now apply String.eqb_eq]. }
    congruence.
Qed.

(** C5. Registration. When the INSERT succeeds, exactly one row is
    added to [users]: its username is the submitted one as the column
    stores it (the username itself when it has at most 100
    characters), and its id is the one the sequence gave. The cookie
    [user] is set to the serialisation of that row's id and username,
    so the id in the cookie is the id of the inserted row, and the
    answer is the redirect to [/], the listing. *)
Theorem createUser_cookie_matches_row (request : http_request)
    (response : http_response) (w : world) (d' : database) (rows : list Users.row) :
  SQL_createUser (Body.username (body request)) (db w) = (d', inr rows) ->
  exists row text,
    Body.username (body request) = Some text
    /\ varchar 100 text = Some (Users.username row)
    /\ ((String.length text <= 100)%nat -> Users.username row = text)
    /\ Users.id row = users_id_seq (db w)
    /\ users d' = (users (db w) ++ [row])%list
    /\ ~ In row (users (db w))
    /\ createUser request response w =
       (set_db d' w,
        Responded (redirect "/"
          (cookie "user"
             (JSON_stringify (JObj [("id", JNum (Users.id row));
                                    ("username", JStr (Users.username row))]))
             response)))
    /\ statusCode (redirect "/" response) = 302.
Proof.
  intro H.
  destruct (SQL_createUser_success _ _ _ _ H)
    as (row & text & -> & Hn & Hv & Hid & -> & Hnew).
  exists row, text. repeat split.
  - assumption.
  - assumption.
  - now apply (varchar_fits 100 text).
  - assumption.
  - intro Hin. destruct (Hnew row Hin) as [Hne _]. now apply Hne.
  - unfold createUser, client_query. rewrite H. reflexivity.
Qed.

(** C6. Login. If no row of [users] has the submitted username, the
    answer is pages/error-view with status 400 and the response
    carries no cookie operation beyond those it had. If some row has
    it, the cookie [user] is set to the serialisation of such a row's
    id and username and the answer is the redirect to [/]. *)
Theorem doLogin_unknown_or_known (request : http_request)
    (response : http_response) (w : world) :
  ((forall u, In u (users (db w)) ->
      Some (Users.username u) <> Body.username (body request)) ->
   doLogin request response w =
     (w, Responded (render "pages/error-view" (ErrorModel (Message "User not found!"))
                      (set_status 400 response)))
   /\ statusCode (render "pages/error-view" (ErrorModel (Message "User not found!"))
                    (set_status 400 response)) = 400
   /\ cookie_ops (render "pages/error-view" (ErrorModel (Message "User not found!"))
                    (set_status 400 response)) = cookie_ops response)
  /\
  ((exists u, In u (users (db w))
             /\ Some (Users.username u) = Body.username (body request)) ->
   exists u,
     In u (users (db w))
     /\ Some (Users.username u) = Body.username (body request)
     /\ doLogin request response w =
        (w, Responded (redirect "/"
              (cookie "user"
                 (JSON_stringify (JObj [("id", JNum (Users.id u));
                                        ("username", JStr (Users.username u))]))
                 response)))).
Proof.
  assert (Hmatch : forall u,
    sql_eq_text (Users.username u) (Body.username (body request)) = true <->
    Some (Users.username u) = Body.username (body request)).
  { intro u. unfold sql_eq_text. destruct (Body.username (body request)) as [n|].
    - rewrite String.eqb_eq. split; congruence.
    - split; discriminate. }
  split.
  - intro Hnone. repeat split.
    unfold doLogin, client_query, SQL_doLogin. rewrite set_db_same.
    rewrite filter_none; [reflexivity|].
    intros u Hin. destruct (sql_eq_text _ _) eqn:E; [|reflexivity].
    apply Hmatch in E. now destruct (Hnone u Hin).
  - intros (u0 & Hin0 & Hu0).
    unfold doLogin, client_query, SQL_doLogin. rewrite set_db_same.
    destruct (filter _ (users (db w))) as [|u rest] eqn:F.
    + assert (X : In u0 (filter (fun r => sql_eq_text (Users.username r)
                                  (Body.username (body request))) (users (db w)))).
      { apply filter_In. split; [assumption | now apply Hmatch]. }
      rewrite F in X. destruct X.
    + assert (X : In u (filter (fun r => sql_eq_text (Users.username r)
                                 (Body.username (body request))) (users (db w)))).
      { rewrite F. now left. }
      apply filter_In in X. destruct X as [Hin Hu]. apply Hmatch in Hu.
      exists u. repeat split; assumption.
Qed.

(** *** The identity middleware *)

Lemma parse_user_truthy (c : option string) (u : json) :
  parse_user c = inr u -> truthy u = true.
Proof.
  unfold parse_user. destruct c as [text|].
  - destruct (String.eqb text ""); [intro H; now injection H as <-|].
    destruct (JSON_parse text) as [v|]; [|discriminate].
    intro H. injection H as <-. destruct (truthy v) eqn:E; [assumption | reflexivity].
  - intro H. now injection H as <-.
Qed.

(** The middleware always reaches [next], with the identity it
    resolved in the request and in the locals of the response. *)
Lemma identity_calls_next (request : http_request) (response : http_response)
    (w : world) :
  exists u w',
    identity request response w =
      (w', CallsNext (set_user u request) (set_locals_user u response)).
Proof.
  unfold identity.
  destruct (parse_user (assoc "user" (cookies request))) as [[]|u].
  - now exists (JObj []), (log WarnUserCookie w).
  - now exists u, (log (LogUser u) w).
Qed.

(** C7. Identity resolution. Whatever the request, the middleware
    calls [next] and never throws; it leaves the database alone. The
    identity [u] it resolves is stored in [request.user] and in
    [response.locals.user]. It is decoded from the cookie [user]:
    when [JSON.parse] reads the cookie as a value, [u] is that value
    if it is truthy and the empty object if not. With no cookie, an
    empty one, or one that [JSON.parse] rejects, [u] is the empty
    object, which has no [id]. The warning is written to the console
    exactly when [JSON.parse] threw on the cookie; otherwise the
    identity is. *)
Theorem identity_never_fails (request : http_request) (response : http_response)
    (w : world) :
  exists u w',
    identity request response w =
      (w', CallsNext (set_user u request) (set_locals_user u response))
    /\ user (set_user u request) = u
    /\ locals_user (set_locals_user u response) = Some u
    /\ truthy u = true
    /\ db w' = db w
    /\ (forall text v, assoc "user" (cookies request) = Some text ->
          text <> "" -> JSON_parse text = Some v ->
          u = (if truthy v then v else JObj [])
          /\ console w' = (console w ++ [LogUser u])%list)
    /\ (assoc "user" (cookies request) = None \/ assoc "user" (cookies request) = Some "" ->
        u = JObj [] /\ console w' = (console w ++ [LogUser u])%list)
    /\ (forall text, assoc "user" (cookies request) = Some text ->
          JSON_parse text = None -> u = JObj [])
    /\ (u = JObj [] -> prop "id" u = None)
    /\ (console w' = (console w ++ [WarnUserCookie])%list <->
        exists text, assoc "user" (cookies request) = Some text
                     /\ text <> "" /\ JSON_parse text = None).
Proof.
  unfold identity.
  destruct (parse_user (assoc "user" (cookies request))) as [[]|u] eqn:P.
  - exists (JObj []), (log WarnUserCookie w). cbn [fst snd user set_user].
    unfold parse_user in P.
    destruct (assoc "user" (cookies request)) as [text|]; [|discriminate].
    destruct (String.eqb text "") eqn:E; [discriminate|].
    destruct (JSON_parse text) eqn:J; [discriminate|].
    split; [reflexivity|]. split; [reflexivity|]. split; [reflexivity|].
    split; [reflexivity|]. split; [reflexivity|]. split.
    { intros text' v H. injection H as <-. intros _ Hp. congruence. }
    split.
    { intros [H|H]; [discriminate|]. injection H as ->. discriminate. }
    split; [reflexivity|]. split; [reflexivity|]. split; [|reflexivity].
    intros _. exists text. split; [reflexivity|].
    split; [now apply String.eqb_neq | assumption].
  - exists u, (log (LogUser u) w). cbn [fst snd user set_user].
    split; [reflexivity|]. split; [reflexivity|]. split; [reflexivity|].
    split; [exact (parse_user_truthy _ _ P)|]. split; [reflexivity|]. split.
    { intros text v Hc Hne Hp. unfold parse_user in P. rewrite Hc, Hp in P.
      apply String.eqb_neq in Hne. rewrite Hne in P. injection P as <-.
      split; reflexivity. }
    split.
    { intros [Hc|Hc]; unfold parse_user in P; rewrite Hc in P;
        injection P as <-; split; reflexivity. }
    split.
    { intros text Hc Hp. unfold parse_user in P. rewrite Hc, Hp in P.
      destruct (String.eqb text ""); [now injection P as <- | discriminate]. }
    split; [now intros ->|]. split.
    + intro H. simpl in H. apply app_inv_head in H. discriminate.
    + intros (text & Hc & Hne & Hp). unfold parse_user in P. rewrite Hc, Hp in P.
      apply String.eqb_neq in Hne. rewrite Hne in P. discriminate.
Qed.

(** *** Creation *)

(** When the INSERT of [addTask] succeeds, the one row it adds carries
    the submitted fields and, as its owner, the id of the requester. *)
Lemma addTask_creates_for_requester (request : http_request)
    (response : http_response) (w : world) (d' : database) (rows : list Z) :
  let b := body request in
  SQL_addTask (Body.title b) (Body.description b) (Body.category b)
    (Body.contact b) (Body.status b) (prepareValue (prop "id" (user request)))
    (db w) = (d', inr rows) ->
  exists t,
    tasks d' = (tasks (db w) ++ [t])%list
    /\ requester request = inr (Tasks.user_id t)
    /\ Tasks.title t = Body.title b
    /\ Tasks.description t = Body.description b
    /\ Tasks.category t = Body.category b
    /\ Tasks.contact t = Body.contact b
    /\ Tasks.status t = Body.status b
    /\ snd (addTask request response w) =
       Responded (redirect ("/tasks/" ++ decimal (Tasks.id t))%string response).
Proof.
  intros b H. subst b. unfold addTask, client_query. cbn [db log].
  rewrite H. revert H.
  unfold SQL_addTask, requester.
  destruct (int4 (prepareValue (prop "id" (user request)))) as [e|uid]; [discriminate|].
  destruct (tasks_constraint _ _); [discriminate|].
  destruct (user_exists (db w) uid); [|discriminate].
  intro H. injection H as <- <-.
  eexists. repeat split.
Qed.

(** A cookie written by a registration or a login resolves, on a later
    request, to the row it was written from, provided the JSON codec
    reads back what it wrote. *)
Lemma written_cookie_resolves (request : http_request) (response : http_response)
    (w : world) (u : Users.row) :
  JSON_parse (JSON_stringify (Users.object u)) = Some (Users.object u) ->
  JSON_stringify (Users.object u) <> "" ->
  assoc "user" (cookies request) = Some (JSON_stringify (Users.object u)) ->
  exists w',
    identity request response w =
      (w', CallsNext (set_user (Users.object u) request)
             (set_locals_user (Users.object u) response))
    /\ prop "id" (Users.object u) = Some (JNum (Users.id u))
    /\ prop "username" (Users.object u) = Some (JStr (Users.username u)).
Proof.
  intros Hrt Hne Hc. apply String.eqb_neq in Hne.
  exists (log (LogUser (Users.object u)) w).
  unfold identity, parse_user. rewrite Hc, Hne, Hrt. repeat split.
Qed.

(** *** Rejected queries *)

Lemma client_query_rejected {A : Type}
    (statement : database -> database * (dberror + A)) (w : world) (e : dberror) :
  snd (statement (db w)) = inl e ->
  client_query statement w = (set_db (fst (statement (db w))) w, Rejected (DbError e)).
Proof.
  unfold client_query. destruct (statement (db w)) as [d r]. simpl. now intros ->.
Qed.

(** A handler whose query was rejected, as [H] says: run the chain. *)
Ltac rejected_query H :=
  cbv zeta; erewrite client_query_rejected by exact H; reflexivity.

(** In every handler that ends its chain with a [catch], a rejected
    query is rendered by [handleError]; [updateOneTask] hands it to
    [next], where the error middleware renders it the same way. *)
Lemma rejections_rendered (request : http_request) (response : http_response)
    (w : world) (e : dberror) :
  let b := body request in
  let me := prepareValue (prop "id" (user request)) in
  let task_id := text_param (assoc "task_id" (params request)) in
  (snd (SQL_getTasks (PText (or_default (assoc "sort_by" (query request)) "due")) me
          (db w)) = inl e ->
   snd (getTasks request response w) = Responded (handleError (DbError e) response))
  /\ (snd (SQL_getOneTask task_id me (db w)) = inl e ->
      snd (getOneTask request response w) = Responded (handleError (DbError e) response))
  /\ (snd (SQL_addTask (Body.title b) (Body.description b) (Body.category b)
             (Body.contact b) (Body.status b) me
             (db (log (LogPostAdd b) w))) = inl e ->
      snd (addTask request response w) = Responded (handleError (DbError e) response))
  /\ (snd (SQL_deleteOneTask task_id me (db w)) = inl e ->
      snd (deleteOneTask request response w) = Responded (handleError (DbError e) response))
  /\ (snd (SQL_createUser (Body.username b) (db w)) = inl e ->
      snd (createUser request response w) = Responded (handleError (DbError e) response))
  /\ (snd (SQL_doLogin (Body.username b) (db w)) = inl e ->
      snd (doLogin request response w) = Responded (handleError (DbError e) response))
  /\ (snd (SQL_updateOneTask (Body.title b) (Body.description b) (Body.category b)
             (Body.contact b) (Body.status b) task_id me (db w)) = inl e ->
      snd (updateOneTask request response w) = NextError (DbError e)
      /\ error_middleware (DbError e) response = Responded (handleError (DbError e) response)).
Proof.
  intros b me task_id. subst b me task_id.
  repeat match goal with |- _ /\ _ => split end; intro H.
  - unfold getTasks. rejected_query H.
  - unfold getOneTask. rejected_query H.
  - unfold addTask. rejected_query H.
  - unfold deleteOneTask. rejected_query H.
  - unfold createUser. rejected_query H.
  - unfold doLogin. rejected_query H.
  - split; [|reflexivity]. unfold updateOneTask. rejected_query H.
Qed.

(** [editOneTask] ends its chain with [then]: a rejected query stays
    rejected and nothing is sent. *)
Lemma editOneTask_rejection_escapes (request : http_request)
    (response : http_response) (w : world) (e : dberror) :
  snd (SQL_editOneTask (text_param (assoc "task_id" (params request)))
         (prepareValue (prop "id" (user request))) (db w)) = inl e ->
  snd (editOneTask request response w) = UnhandledRejection (DbError e).
Proof.
  unfold editOneTask, client_query.
  destruct (SQL_editOneTask _ _ _) as [d r]. simpl. now intros ->.
Qed.

(** *** Routing *)

Lemma find_route_app (rs1 rs2 : list (http_method * pattern * handler))
    (m : http_method) (p : list string) :
  find_route (rs1 ++ rs2) m p =
  match find_route rs1 m p with
  | Some x => Some x
  | None => find_route rs2 m p
  end.
Proof.
  induction rs1 as [|[[rm pat] h] rs1 IH]; simpl.
  - reflexivity.
  - destruct (method_matches rm m); [|assumption].
    destruct (match_pattern pat p); [reflexivity | assumption].
Qed.

Lemma routes_split : routes = (defined_routes ++ [(GET, Star, notFound)])%list.
Proof. reflexivity. Qed.

(** A request no defined route matches reaches the catch-all when its
    method is GET or HEAD, and nothing otherwise. *)
Lemma find_route_unmatched (m : http_method) (p : list string) :
  find_route defined_routes m p = None ->
  find_route routes m p =
  if method_matches GET m then Some (notFound, []) else None.
Proof.
  intro H. rewrite routes_split, find_route_app, H. simpl.
  destruct (method_matches GET m); reflexivity.
Qed.

(** C9, as the code has it. A GET or HEAD request that names no file
    under ./public and matches none of the routes defined before the
    catch-all is answered by the catch-all: status 404 and the text
    'This route does not exist', sent as it is. *)
Theorem catch_all_answers_get (request : http_request) (w : world) :
  method_matches GET (method request) = true ->
  public_file (path request) = None ->
  find_route defined_routes (method request) (path request) = None ->
  exists r w',
    app request w = (w', Responded r)
    /\ statusCode r = 404
    /\ sent r = Some (Send "This route does not exist").
Proof.
  intros Hm Hf Hr.
  destruct (identity_calls_next request fresh_response w) as (u & w' & Hid).
  exists (send "This route does not exist"
            (set_status 404 (set_locals_user u fresh_response))), w'.
  repeat split.
  unfold app. rewrite Hid. unfold static.
  change (method (set_user u request)) with (method request).
  change (path (set_user u request)) with (path request).
  rewrite Hm, Hf, (find_route_unmatched _ _ Hr), Hm. reflexivity.
Qed.

(** A request of any other method that no defined route matches is
    answered by nothing in server.js. *)
Lemma other_methods_fall_through (request : http_request) (w : world) :
  method_matches GET (method request) = false ->
  find_route defined_routes (method request) (path request) = None ->
  snd (app request w) = FallThrough.
Proof.
  intros Hm Hr.
  destruct (identity_calls_next request fresh_response w) as (u & w' & Hid).
  unfold app. rewrite Hid. unfold static.
  change (method (set_user u request)) with (method request).
  change (path (set_user u request)) with (path request).
  rewrite Hm, (find_route_unmatched _ _ Hr), Hm. reflexivity.
Qed.

(** ** Beyond the claims *)

(** *** What each handler does to the database *)

Lemma identity_keeps_db (request : http_request) (response : http_response) (w : world) :
  db (fst (identity request response w)) = db w.
Proof.
  unfold identity. destruct (parse_user _) as [[]|u]; reflexivity.
Qed.

Lemma doLogin_keeps_db (request : http_request) (response : http_response) (w : world) :
  db (fst (doLogin request response w)) = db w.
Proof.
  unfold doLogin, client_query, SQL_doLogin. now rewrite set_db_same.
Qed.

(** What [addTask] leaves: the table as it was, or the table with
    one more row, which carries the next id of the sequence, the
    submitted fields and the requester as its owner, an owner that
    exists. *)
Lemma addTask_db (request : http_request) (response : http_response) (w : world) :
  let d := db w in
  let d' := db (fst (addTask request response w)) in
  users d' = users d
  /\ users_id_seq d' = users_id_seq d
  /\ ((tasks d' = tasks d
       /\ (tasks_id_seq d' = tasks_id_seq d \/ tasks_id_seq d' = tasks_id_seq d + 1)
       /\ exists e, snd (addTask request response w)
                    = Responded (handleError (DbError e) response))
      \/ exists t,
           tasks d' = (tasks d ++ [t])%list
           /\ tasks_id_seq d' = tasks_id_seq d + 1
           /\ Tasks.id t = tasks_id_seq d
           /\ requester request = inr (Tasks.user_id t)
           /\ user_exists d (Tasks.user_id t) = true
           /\ t = Tasks.mk (tasks_id_seq d) (Body.title (body request))
                    (Body.description (body request)) (Body.category (body request))
                    (Body.contact (body request)) (Body.status (body request))
                    tasks_due_default (Tasks.user_id t)
           /\ snd (addTask request response w)
              = Responded (redirect ("/tasks/" ++ decimal (Tasks.id t))%string response)).
Proof.
  unfold addTask, client_query, SQL_addTask, requester. cbn [db log].
  destruct (int4 (prepareValue (prop "id" (user request)))) as [e|uid]; simpl.
  - repeat split. left. repeat split; eauto.
  - destruct (tasks_constraint _ _) as [e|]; simpl.
    + repeat split. left. repeat split; eauto.
    + destruct (user_exists (db w) uid) eqn:E; simpl.
      * repeat split. right. eexists. repeat split. exact E.
      * repeat split. left. repeat split; eauto.
Qed.

Lemma deleteOneTask_db (request : http_request) (response : http_response) (w : world) :
  let d := db w in
  let d' := db (fst (deleteOneTask request response w)) in
  users d' = users d
  /\ users_id_seq d' = users_id_seq d
  /\ tasks_id_seq d' = tasks_id_seq d
  /\ (tasks d' = tasks d
      \/ exists tid uid,
           target request = inr tid /\ requester request = inr uid
           /\ tasks d' = filter (fun t => negb (owned_by tid uid t)) (tasks d)).
Proof.
  unfold deleteOneTask, client_query, SQL_deleteOneTask, requester, target. cbn [db log].
  destruct (int4 (text_param (assoc "task_id" (params request)))) as [e|tid]; simpl;
    [repeat split; now left|].
  destruct (int4 (prepareValue (prop "id" (user request)))) as [e|uid]; simpl;
    [repeat split; now left|].
  repeat split. right. now exists tid, uid.
Qed.

Lemma updateOneTask_db (request : http_request) (response : http_response) (w : world) :
  let d := db w in
  let d' := db (fst (updateOneTask request response w)) in
  let b := body request in
  users d' = users d
  /\ users_id_seq d' = users_id_seq d
  /\ tasks_id_seq d' = tasks_id_seq d
  /\ (tasks d' = tasks d
      \/ exists tid uid,
           target request = inr tid /\ requester request = inr uid
           /\ tasks d' =
              (filter (fun t => negb (owned_by tid uid t)) (tasks d)
               ++ map (set_fields (Body.title b) (Body.description b)
                         (Body.category b) (Body.contact b) (Body.status b))
                    (filter (owned_by tid uid) (tasks d)))%list
           /\ snd (updateOneTask request response w)
              = Responded (redirect ("/tasks/" ++ template (assoc "task_id" (params request)))%string
                             response)).
Proof.
  unfold updateOneTask, client_query, SQL_updateOneTask, requester, target.
  destruct (int4 (text_param (assoc "task_id" (params request)))) as [e|tid]; simpl;
    [repeat split; now left|].
  destruct (int4 (prepareValue (prop "id" (user request)))) as [e|uid]; simpl;
    [repeat split; now left|].
  destruct (first_violation _ _); simpl; [repeat split; now left|].
  repeat split. right. exists tid, uid. repeat split.
Qed.

Lemma createUser_db (request : http_request) (response : http_response) (w : world) :
  let d := db w in
  let d' := db (fst (createUser request response w)) in
  tasks d' = tasks d
  /\ tasks_id_seq d' = tasks_id_seq d
  /\ ((users d' = users d
       /\ (users_id_seq d' = users_id_seq d \/ users_id_seq d' = users_id_seq d + 1)
       /\ exists e, snd (createUser request response w)
                    = Responded (handleError (DbError e) response))
      \/ exists u text,
           users d' = (users d ++ [u])%list
           /\ users_id_seq d' = users_id_seq d + 1
           /\ Users.id u = users_id_seq d
           /\ Body.username (body request) = Some text
           /\ varchar 100 text = Some (Users.username u)
           /\ (forall v, In v (users d) ->
                 Users.id v <> Users.id u /\ Users.username v <> Users.username u)).
Proof.
  unfold createUser, client_query. cbn zeta.
  destruct (SQL_createUser (Body.username (body request)) (db w)) as [d1 [e|rows]] eqn:E.
  - simpl. revert E. unfold SQL_createUser.
    destruct (Body.username (body request)) as [name|].
    + destruct (varchar 100 name) as [stored|];
        [|intro E; injection E as <- <-; repeat split; left; repeat split; eauto].
      destruct (existsb _ _);
        [intro E; injection E as <- <-; repeat split; left; repeat split; eauto|].
      destruct (existsb _ _);
        [intro E; injection E as <- <-; repeat split; left; repeat split; eauto|].
      discriminate.
    + intro E; injection E as <- <-; repeat split; left; repeat split; eauto.
  - simpl. destruct (SQL_createUser_success _ _ _ _ E)
      as (u & text & -> & Hn & Hv & Hid & -> & Hnew).
    simpl. repeat split. right. exists u, text. repeat split; try assumption.
    + now apply Hnew.
    + now apply Hnew.
Qed.

(** *** One request through the stack *)

Lemma find_route_In (rs : list (http_method * pattern * handler))
    (m : http_method) (p : list string) (h : handler) (ps : list (string * string)) :
  find_route rs m p = Some (h, ps) ->
  exists rm pat,
    In (rm, pat, h) rs /\ method_matches rm m = true /\ match_pattern pat p = Some ps.
Proof.
  induction rs as [|[[rm pat] h0] rs IH]; simpl; [discriminate|].
  destruct (method_matches rm m) eqn:Em.
  - destruct (match_pattern pat p) as [ps0|] eqn:Ep.
    + intro H. injection H as <- <-. exists rm, pat. auto.
    + intro H. destruct (IH H) as (rm' & pat' & Hin & Hm & Hp).
      exists rm', pat'. auto.
  - intro H. destruct (IH H) as (rm' & pat' & Hin & Hm & Hp).
    exists rm', pat'. auto.
Qed.

(** A relation that holds of the database around every handler the
    request can reach holds around the whole request. *)
Lemma app_relates (R : database -> database -> Prop) (request : http_request) (w : world) :
  (forall d, R d d) ->
  (forall rm pat h, In (rm, pat, h) routes ->
     method_matches rm (method request) = true ->
     match_pattern pat (path request) <> None ->
     keeps R h) ->
  R (db w) (db (fst (app request w))).
Proof.
  intros Hrefl Hall. unfold app.
  pose proof (identity_keeps_db request fresh_response w) as Hdb.
  destruct (identity_calls_next request fresh_response w) as (u & w1 & Hid).
  rewrite Hid in *. simpl in Hdb.
  destruct (static (set_user u request)); [simpl; rewrite Hdb; apply Hrefl|].
  change (method (set_user u request)) with (method request).
  change (path (set_user u request)) with (path request).
  destruct (find_route routes (method request) (path request)) as [[h ps]|] eqn:F;
    [|simpl; rewrite Hdb; apply Hrefl].
  destruct (find_route_In _ _ _ _ _ F) as (rm & pat & Hin & Hm & Hp).
  assert (Hk : keeps R h).
  { apply (Hall rm pat h Hin Hm). congruence. }
  specialize (Hk (set_params ps (set_user u request)) (set_locals_user u fresh_response) w1).
  destruct (h _ _ w1) as [w2 o]. simpl in Hk |- *. now rewrite <- Hdb.
Qed.

(** *** The transitions of the database *)

Lemma db_ext (d d' : database) :
  tasks d' = tasks d -> users d' = users d ->
  tasks_id_seq d' = tasks_id_seq d -> users_id_seq d' = users_id_seq d ->
  d' = d.
Proof. destruct d, d'. simpl. now intros -> -> -> ->. Qed.

Lemma db_is (d' : database) (ts : list Tasks.row) (us : list Users.row) (a b : Z) :
  tasks d' = ts -> users d' = us -> tasks_id_seq d' = a -> users_id_seq d' = b ->
  d' = mkDb ts us a b.
Proof. destruct d'. simpl. now intros -> -> -> ->. Qed.

Lemma getTasks_keeps_db (request : http_request) (response : http_response) (w : world) :
  db (fst (getTasks request response w)) = db w.
Proof. now rewrite getTasks_answer. Qed.

Lemma getOneTask_keeps_db (request : http_request) (response : http_response) (w : world) :
  db (fst (getOneTask request response w)) = db w.
Proof. now rewrite getOneTask_answer. Qed.

Lemma editOneTask_keeps_db (request : http_request) (response : http_response) (w : world) :
  db (fst (editOneTask request response w)) = db w.
Proof. now rewrite editOneTask_answer. Qed.

Lemma addTask_transition : keeps transition addTask.
Proof.
  intros request response w.
  destruct (addTask_db request response w)
    as (Hu & Hus & [(Ht & [Hs|Hs] & _) | (t & Ht & Hs & Hid & _ & Hex & _)]).
  - rewrite (db_ext _ _ Ht Hu Hs Hus). constructor.
  - rewrite (db_is _ _ _ _ _ Ht Hu Hs Hus). constructor.
  - rewrite (db_is _ _ _ _ _ Ht Hu Hs Hus). now constructor.
Qed.

Lemma deleteOneTask_transition : keeps transition deleteOneTask.
Proof.
  intros request response w.
  destruct (deleteOneTask_db request response w)
    as (Hu & Hus & Hs & [Ht | (tid & uid & _ & _ & Ht)]).
  - rewrite (db_ext _ _ Ht Hu Hs Hus). constructor.
  - rewrite (db_is _ _ _ _ _ Ht Hu Hs Hus). constructor.
Qed.

Lemma updateOneTask_transition : keeps transition updateOneTask.
Proof.
  intros request response w.
  destruct (updateOneTask_db request response w)
    as (Hu & Hus & Hs & [Ht | (tid & uid & _ & _ & Ht & _)]).
  - rewrite (db_ext _ _ Ht Hu Hs Hus). constructor.
  - rewrite (db_is _ _ _ _ _ Ht Hu Hs Hus).
    apply (TasksUpdated (db w) (owned_by tid uid)). intro t. repeat split.
Qed.

Lemma createUser_transition : keeps transition createUser.
Proof.
  intros request response w.
  destruct (createUser_db request response w)
    as (Ht & Hs & [(Hu & [Hus|Hus] & _) | (u & text & Hu & Hus & Hid & _ & _ & Hnew)]).
  - rewrite (db_ext _ _ Ht Hu Hs Hus). constructor.
  - rewrite (db_is _ _ _ _ _ Ht Hu Hs Hus). constructor.
  - rewrite (db_is _ _ _ _ _ Ht Hu Hs Hus). now constructor.
Qed.

(** The handlers of the route table, [books] apart, each make one
    transition. *)
Lemma routes_transition (rm : http_method) (pat : pattern) (h : handler) :
  keeps transition books ->
  In (rm, pat, h) routes ->
  keeps transition h.
Proof.
  intros Hbooks Hin. unfold routes in Hin. simpl in Hin.
  repeat (destruct Hin as [Hin|Hin]; [injection Hin as <- <- <-|]);
    try (destruct Hin);
    try exact Hbooks;
    try exact addTask_transition;
    try exact deleteOneTask_transition;
    try exact updateOneTask_transition;
    try exact createUser_transition;
    intros request response w.
  - rewrite getTasks_keeps_db. constructor.
  - constructor.
  - rewrite getOneTask_keeps_db. constructor.
  - rewrite editOneTask_keeps_db. constructor.
  - constructor.
  - constructor.
  - rewrite doLogin_keeps_db. constructor.
  - constructor.
  - constructor.
Qed.

Lemma app_transition (request : http_request) (w : world) :
  keeps transition books ->
  transition (db w) (db (fst (app request w))).
Proof.
  intro Hbooks. apply app_relates.
  - constructor.
  - intros rm pat h Hin _ _. now apply (routes_transition rm pat).
Qed.

Lemma user_exists_more_users (d d' : database) (uid : option Z) :
  (forall u, In u (users d) -> In u (users d')) ->
  user_exists d uid = true -> user_exists d' uid = true.
Proof.
  intros Hsub. destruct uid as [n|]; simpl; [|reflexivity].
  rewrite !existsb_exists. intros (u & Hin & Hu). exists u. auto.
Qed.

Lemma transition_references (d d' : database) :
  transition d d' -> references_ok d -> references_ok d'.
Proof.
  intros T H. destruct T as [| |t Hid Hex|f|f g Hg| |u Hid Hnew]; unfold references_ok in *; simpl.
  - assumption.
  - assumption.
  - intros r Hin. apply in_app_or in Hin. destruct Hin as [Hin|[<-|[]]].
    + now apply H.
    + assumption.
  - intros r Hin. apply filter_In in Hin. now apply H.
  - intros r Hin. apply in_app_or in Hin. destruct Hin as [Hin|Hin].
    + apply filter_In in Hin. now apply H.
    + apply in_map_iff in Hin. destruct Hin as (r0 & <- & Hin).
      apply filter_In in Hin. destruct (Hg r0) as (_ & -> & _). now apply H.
  - assumption.
  - intros r Hin. apply user_exists_more_users with (d := d).
    + simpl. intros v Hv. apply in_or_app. now left.
    + now apply H.
Qed.

Lemma transition_users_unique (d d' : database) :
  transition d d' -> users_unique d -> users_unique d'.
Proof.
  intros T H. destruct T as [| |t Hid Hex|f|f g Hg| |u Hid Hnew]; try assumption.
  destruct H as [Hn Hi]. unfold users_unique. simpl. rewrite !map_app. simpl.
  split.
  - apply NoDup_app_remove_l with (l := []). simpl.
    apply NoDup_app; [assumption | repeat constructor; intros [] |].
    intros x Hx [<-|[]]. apply in_map_iff in Hx. destruct Hx as (v & Hv & Hin).
    destruct (Hnew v Hin) as [_ Hne]. congruence.
  - apply NoDup_app; [assumption | repeat constructor; intros [] |].
    intros x Hx [<-|[]]. apply in_map_iff in Hx. destruct Hx as (v & Hv & Hin).
    destruct (Hnew v Hin) as [Hne _]. congruence.
Qed.

Lemma transition_ids_below_seq (d d' : database) :
  transition d d' -> ids_below_seq d -> ids_below_seq d'.
Proof.
  intros T [Ht Hu].
  destruct T as [| |t Hid Hex|f|f g Hg| |u Hid Hnew]; unfold ids_below_seq; simpl; split;
    try assumption.
  - intros r Hin. specialize (Ht r Hin). lia.
  - intros r Hin. apply in_app_or in Hin. destruct Hin as [Hin|[<-|[]]].
    + specialize (Ht r Hin). lia.
    + lia.
  - intros r Hin. apply filter_In in Hin. now apply Ht.
  - intros r Hin. apply in_app_or in Hin. destruct Hin as [Hin|Hin].
    + apply filter_In in Hin. now apply Ht.
    + apply in_map_iff in Hin. destruct Hin as (r0 & <- & Hin).
      apply filter_In in Hin. destruct (Hg r0) as (-> & _). now apply Ht.
  - intros v Hin. specialize (Hu v Hin). lia.
  - intros v Hin. apply in_app_or in Hin. destruct Hin as [Hin|[<-|[]]].
    + specialize (Hu v Hin). lia.
    + lia.
Qed.

(** *** Invariants over requests *)

(** X15. Referential integrity. If the handler of ./modules/books makes
    only the transitions server.js makes, a request through the stack
    leaves every task with an owner that exists, provided it found
    the tasks so. *)
Theorem app_keeps_references (request : http_request) (w : world) :
  keeps transition books ->
  references_ok (db w) ->
  references_ok (db (fst (app request w))).
Proof.
  intros Hbooks H. apply (transition_references (db w)); [|assumption].
  now apply app_transition.
Qed.

(** X16. Unique users. Under the same proviso, no request makes two users
    share a username or an id. *)
Theorem app_keeps_users_unique (request : http_request) (w : world) :
  keeps transition books ->
  users_unique (db w) ->
  users_unique (db (fst (app request w))).
Proof.
  intros Hbooks H. apply (transition_users_unique (db w)); [|assumption].
  now apply app_transition.
Qed.

(** X17. Fresh ids. Under the same proviso, every id in the tables stays
    below the next value of its sequence, so the id an INSERT draws is
    never one in use. *)
Theorem app_keeps_ids_below_seq (request : http_request) (w : world) :
  keeps transition books ->
  ids_below_seq (db w) ->
  ids_below_seq (db (fst (app request w)))
  /\ (forall t, In t (tasks (db (fst (app request w)))) ->
        Tasks.id t <> tasks_id_seq (db (fst (app request w))))
  /\ (forall u, In u (users (db (fst (app request w)))) ->
        Users.id u <> users_id_seq (db (fst (app request w)))).
Proof.
  intros Hbooks H.
  assert (H' : ids_below_seq (db (fst (app request w)))).
  { apply (transition_ids_below_seq (db w)); [|assumption]. now apply app_transition. }
  split; [assumption|]. destruct H' as [Ht Hu]. split.
  - intros t Hin. specialize (Ht t Hin). lia.
  - intros u Hin. specialize (Hu u Hin). lia.
Qed.

Lemma transition_users_grow (d d' : database) :
  transition d d' -> exists more, users d' = (users d ++ more)%list /\ (List.length more <= 1)%nat.
Proof.
  intros T. destruct T as [| |t Hid Hex|f|f g Hg| |u Hid Hnew]; simpl;
    try (exists []; rewrite app_nil_r; split; [reflexivity | simpl; lia]).
  exists [u]. split; [reflexivity | simpl; lia].
Qed.

(** X18. Users are only ever added. Under the same proviso, the users
    after a request are the users before it, in the same order,
    followed by at most one new row. *)
Theorem app_only_adds_users (request : http_request) (w : world) :
  keeps transition books ->
  exists more,
    users (db (fst (app request w))) = (users (db w) ++ more)%list
    /\ (List.length more <= 1)%nat.
Proof.
  intro Hbooks. apply transition_users_grow. now apply app_transition.
Qed.

(** X14. GET and HEAD are safe. If the handler of ./modules/books leaves
    the database alone, so does every GET or HEAD request through the
    stack, whatever its path, query and cookie. *)
Theorem app_get_reads_only (request : http_request) (w : world) :
  keeps (fun d d' => d' = d) books ->
  method_matches GET (method request) = true ->
  db (fst (app request w)) = db w.
Proof.
  intros Hbooks Hm.
  apply (app_relates (fun d d' => d' = d)); [reflexivity|].
  intros rm pat h Hin Hrm _. unfold routes in Hin. simpl in Hin.
  repeat (destruct Hin as [Hin|Hin]; [injection Hin as <- <- <-|]);
    try (destruct Hin);
    try exact Hbooks;
    try (destruct (method request); discriminate);
    intros req res w0.
  - apply getTasks_keeps_db.
  - reflexivity.
  - apply getOneTask_keeps_db.
  - apply editOneTask_keeps_db.
  - reflexivity.
  - reflexivity.
  - reflexivity.
Qed.

(** *** Every request is answered *)

Lemma caught_chain_answered {A : Type} (p : promise A) (f : A -> promise outcome)
    (response : http_response) :
  (forall a, answered response (settle (f a)) \/ exists e, f a = Rejected e) ->
  answered response
    (settle (catch_ (then_ p f) (fun err => responds (handleError err response)))).
Proof.
  intro H. destruct p as [a|e]; simpl.
  - destruct (H a) as [Ha|[e He]].
    + destruct (f a) as [o|e]; simpl in *; [assumption|].
      destruct Ha as (r & Hr & _). discriminate.
    + rewrite He. simpl. eexists. split; [reflexivity|]. right. simpl. auto 10.
  - eexists. split; [reflexivity|]. right. simpl. auto 10.
Qed.

Ltac answered_now :=
  left; eexists; split; [reflexivity|]; simpl; auto 10.

(** The handlers that end their chain with [catch(handleError)], and
    those that query nothing, answer whatever the query does. *)
Lemma handlers_answered (request : http_request) (response : http_response) (w : world) :
  answered response (snd (getTasks request response w))
  /\ answered response (snd (getOneTask request response w))
  /\ answered response (snd (showAddTaskForm request response w))
  /\ answered response (snd (addTask request response w))
  /\ answered response (snd (deleteOneTask request response w))
  /\ answered response (snd (showRegister request response w))
  /\ answered response (snd (createUser request response w))
  /\ answered response (snd (showLogin request response w))
  /\ answered response (snd (doLogin request response w))
  /\ answered response (snd (doLogout request response w))
  /\ answered response (snd (notFound request response w)).
Proof.
  repeat match goal with |- _ /\ _ => split end.
  - unfold getTasks. destruct (client_query _ w) as [w1 p]. simpl.
    apply caught_chain_answered. intro rows. answered_now.
  - unfold getOneTask. destruct (client_query _ w) as [w1 p]. simpl.
    apply caught_chain_answered. intro rows.
    destruct (List.length rows <? 1)%nat; answered_now.
  - eexists. split; [reflexivity|]. simpl. auto 10.
  - unfold addTask. destruct (client_query _ _) as [w1 p]. simpl.
    apply caught_chain_answered. intro rows.
    destruct rows as [|id rest]; [right; eauto | answered_now].
  - unfold deleteOneTask. destruct (client_query _ _) as [w1 p]. simpl.
    apply caught_chain_answered. intro rows. answered_now.
  - eexists. split; [reflexivity|]. simpl. auto 10.
  - unfold createUser. destruct (client_query _ w) as [w1 p]. simpl.
    apply caught_chain_answered. intro rows. answered_now.
  - eexists. split; [reflexivity|]. simpl. auto 10.
  - unfold doLogin. destruct (client_query _ w) as [w1 p]. simpl.
    apply caught_chain_answered. intro rows.
    destruct rows as [|user rest]; answered_now.
  - eexists. split; [reflexivity|]. simpl. auto 10.
  - eexists. split; [reflexivity|]. simpl. auto 10.
Qed.

Lemma updateOneTask_answered_or_next (request : http_request) (response : http_response)
    (w : world) :
  answered response (snd (updateOneTask request response w))
  \/ exists e, snd (updateOneTask request response w) = NextError e.
Proof.
  unfold updateOneTask. destruct (client_query _ w) as [w1 [[]|e]]; simpl.
  - left. eexists. split; [reflexivity|]. simpl. auto 10.
  - right. eauto.
Qed.

(** Every handler of the route table but those of the edit form and
    of /books answers, or hands an error to [next]. *)
Lemma routes_answered (rm : http_method) (pat : pattern) (h : handler) :
  In (rm, pat, h) routes ->
  pat <> Path (task_path ++ [Lit "edit"]) ->
  pat <> Path [Lit "books"] ->
  forall request response w,
    answered response (snd (h request response w))
    \/ exists e, snd (h request response w) = NextError e.
Proof.
  intros Hin Hedit Hbooks request response w.
  pose proof (handlers_answered request response w)
    as (A1 & A2 & A3 & A4 & A5 & A6 & A7 & A8 & A9 & A10 & A11).
  unfold routes in Hin. simpl in Hin.
  repeat (destruct Hin as [Hin|Hin]; [injection Hin as <- <- <-|]);
    try (destruct Hin); try (now left); try congruence.
  apply updateOneTask_answered_or_next.
Qed.

(** X13. Every request that goes neither to the edit form nor to /books is
    answered, with status 200, 302, 400, 404 or 500, unless its method
    is not GET or HEAD and no route matches it; then nothing in
    server.js answers. No such request is left with an unhandled
    rejection or an error nobody renders. *)
Theorem app_answers (request : http_request) (w : world) :
  match_segments (task_path ++ [Lit "edit"]) (path request) = None ->
  match_segments [Lit "books"] (path request) = None ->
  (exists r, snd (app request w) = Responded r
             /\ In (statusCode r) [200; 302; 400; 404; 500])
  \/ (snd (app request w) = FallThrough
      /\ method_matches GET (method request) = false).
Proof.
  intros Hedit Hbooks. unfold app.
  destruct (identity_calls_next request fresh_response w) as (u & w1 & Hid).
  rewrite Hid.
  destruct (static (set_user u request)) as [content|] eqn:S.
  { left. eexists. split; [reflexivity|]. simpl. auto 10. }
  change (method (set_user u request)) with (method request).
  change (path (set_user u request)) with (path request).
  destruct (find_route routes (method request) (path request)) as [[h ps]|] eqn:F.
  - left. destruct (find_route_In _ _ _ _ _ F) as (rm & pat & Hin & Hm & Hp).
    clear F.
    assert (H1 : pat <> Path (task_path ++ [Lit "edit"])).
    { intros ->. unfold match_pattern in Hp. congruence. }
    assert (H2 : pat <> Path [Lit "books"]).
    { intros ->. unfold match_pattern in Hp. congruence. }
    destruct (routes_answered rm pat h Hin H1 H2 (set_params ps (set_user u request))
                (set_locals_user u fresh_response) w1) as [(r & Hr & Hs)|[e He]];
      destruct (h _ _ w1) as [w2 o]; cbn [fst snd] in *; subst o.
    + exists r. split; [reflexivity|]. destruct Hs as [Hs|Hs].
      * rewrite Hs. simpl. auto.
      * right. exact Hs.
    + eexists. split; [reflexivity|]. simpl. auto 10.
  - destruct (method_matches GET (method request)) eqn:Hm.
    + exfalso. rewrite (routes_split), find_route_app in F.
      destruct (find_route defined_routes _ _); [discriminate|].
      cbn [find_route] in F. rewrite Hm in F. discriminate.
    + right. split; reflexivity.
Qed.

(** *** Creating tasks *)

Lemma addTask_inserts (request : http_request) (response : http_response) (w : world)
    (uid : option Z) :
  requester request = inr uid ->
  user_exists (db w) uid = true ->
  tasks_constraint (tasks (db w))
    (submitted_task (tasks_id_seq (db w)) (body request) uid) = None ->
  addTask request response w =
  (mkWorld
     (mkDb (tasks (db w) ++ [submitted_task (tasks_id_seq (db w)) (body request) uid])
        (users (db w)) (tasks_id_seq (db w) + 1) (users_id_seq (db w)))
     (console w ++ [LogPostAdd (body request)]),
   Responded (redirect ("/tasks/" ++ decimal (tasks_id_seq (db w)))%string response)).
Proof.
  unfold requester, submitted_task. intros Hr Hex Hc.
  unfold addTask, client_query, SQL_addTask. cbn [db log].
  rewrite Hr, Hc, Hex. reflexivity.
Qed.

Lemma filter_fresh_row (tid uid : option Z) (rows : list Tasks.row) (t : Tasks.row) :
  (forall r, In r rows -> Tasks.id r <> Tasks.id t) ->
  tid = Some (Tasks.id t) ->
  filter (owned_by tid uid) (rows ++ [t]) = filter (owned_by tid uid) [t].
Proof.
  intros Hfresh ->. rewrite filter_app, filter_none; [reflexivity|].
  intros r Hin. destruct (owned_by _ uid r) eqn:E; [|reflexivity].
  apply owned_by_true in E. destruct E as (H & _). injection H as H.
  exfalso. apply (Hfresh r Hin). congruence.
Qed.

(** X1. Round trip of creation. A requester with an id that exists
    submits a form the table accepts, into a table where the next id
    is not in use. The answer is the redirect to /tasks/<id>; and the
    request that follows the redirect (the same requester, the path
    naming that id, read back by the database as the number it
    prints) is shown the new row: the submitted fields, the id and
    the requester as owner. *)
Theorem addTask_then_getOneTask (request view : http_request)
    (response response' : http_response) (w : world) (u : Z) :
  requester request = inr (Some u) ->
  user_exists (db w) (Some u) = true ->
  tasks_constraint (tasks (db w))
    (submitted_task (tasks_id_seq (db w)) (body request) (Some u)) = None ->
  (forall t, In t (tasks (db w)) -> Tasks.id t <> tasks_id_seq (db w)) ->
  assoc "task_id" (params view) = Some (decimal (tasks_id_seq (db w))) ->
  int4in (decimal (tasks_id_seq (db w))) = Some (tasks_id_seq (db w)) ->
  requester view = inr (Some u) ->
  snd (addTask request response w) =
    Responded (redirect ("/tasks/" ++ decimal (tasks_id_seq (db w)))%string response)
  /\ snd (getOneTask view response' (fst (addTask request response w))) =
     Responded (render "pages/detail-view"
                  (TaskModel (Some (submitted_task (tasks_id_seq (db w)) (body request)
                                      (Some u))))
                  response').
Proof.
  intros Hr Hex Hc Hfresh Hid Hread Hv.
  rewrite (addTask_inserts _ response _ _ Hr Hex Hc). split; [reflexivity|].
  rewrite getOneTask_answer. unfold target. rewrite Hid, Hv. cbn [text_param int4 fst snd db].
  rewrite Hread. cbn [tasks].
  rewrite filter_fresh_row; [|exact Hfresh | reflexivity].
  cbn [filter]. unfold owned_by, submitted_task. cbn [Tasks.id Tasks.user_id sql_eq].
  now rewrite !Z.eqb_refl.
Qed.

Lemma ownerless_not_owned (tid uid : option Z) (t : Tasks.row) :
  Tasks.user_id t = None -> owned_by tid uid t = false.
Proof.
  intro H. unfold owned_by. rewrite H. simpl. apply andb_false_r.
Qed.

Lemma never_owned_never_shown (request : http_request) (response : http_response)
    (w : world) (t : Tasks.row) :
  Tasks.user_id t = None ->
  ~ In t (shown (snd (getTasks request response w)))
  /\ ~ In t (shown (snd (getOneTask request response w)))
  /\ ~ In t (shown (snd (editOneTask request response w))).
Proof.
  intro Hnone. split; [|split].
  - rewrite getTasks_answer. simpl.
    destruct (requester request) as [e|uid]; simpl; [tauto|].
    rewrite filter_In, sql_eq_true. intros [_ (n & H & _)]. congruence.
  - rewrite getOneTask_answer. simpl.
    destruct (target request) as [e|tid]; simpl; [tauto|].
    destruct (requester request) as [e|uid]; simpl; [tauto|].
    destruct (filter (owned_by tid uid) (tasks (db w))) as [|r rest] eqn:F; simpl; [tauto|].
    intros [<-|[]].
    assert (X : In r (filter (owned_by tid uid) (tasks (db w)))) by (rewrite F; now left).
    apply filter_In in X. destruct X as [_ X].
    rewrite (ownerless_not_owned _ _ _ Hnone) in X. discriminate.
  - rewrite editOneTask_answer. simpl.
    destruct (target request) as [e|tid]; simpl; [tauto|].
    destruct (requester request) as [e|uid]; simpl; [tauto|].
    destruct (filter (owned_by tid uid) (tasks (db w))) as [|r rest] eqn:F; simpl; [tauto|].
    intros [<-|[]].
    assert (X : In r (filter (owned_by tid uid) (tasks (db w)))) by (rewrite F; now left).
    apply filter_In in X. destruct X as [_ X].
    rewrite (ownerless_not_owned _ _ _ Hnone) in X. discriminate.
Qed.

Lemma never_owned_survives (request : http_request) (response : http_response)
    (w : world) (t : Tasks.row) :
  In t (tasks (db w)) ->
  Tasks.user_id t = None ->
  In t (tasks (db (fst (updateOneTask request response w))))
  /\ In t (tasks (db (fst (deleteOneTask request response w)))).
Proof.
  intros Hin Hnone. split.
  - destruct (updateOneTask_db request response w)
      as (_ & _ & _ & [-> | (tid & uid & _ & _ & -> & _)]); [assumption|].
    apply in_or_app. left. apply filter_In. split; [assumption|].
    now rewrite (ownerless_not_owned _ _ _ Hnone).
  - destruct (deleteOneTask_db request response w)
      as (_ & _ & _ & [-> | (tid & uid & _ & _ & ->)]); [assumption|].
    apply filter_In. split; [assumption|].
    now rewrite (ownerless_not_owned _ _ _ Hnone).
Qed.

(** X3. A task without owner is out of reach. Whoever asks and whatever
    the path names, the listing, the detail view and the edit form
    never show a row whose [user_id] is NULL, and an update or a
    delete leaves it in the table as it is. *)
Theorem ownerless_task_unreachable (request : http_request) (response : http_response)
    (w : world) (t : Tasks.row) :
  In t (tasks (db w)) ->
  Tasks.user_id t = None ->
  ~ In t (shown (snd (getTasks request response w)))
  /\ ~ In t (shown (snd (getOneTask request response w)))
  /\ ~ In t (shown (snd (editOneTask request response w)))
  /\ In t (tasks (db (fst (updateOneTask request response w))))
  /\ In t (tasks (db (fst (deleteOneTask request response w)))).
Proof.
  intros Hin Hnone.
  destruct (never_owned_never_shown request response w t Hnone) as (A & B & C).
  destruct (never_owned_survives request response w t Hin Hnone) as (D & E).
  repeat split; assumption.
Qed.

(** X2. Creation without identity. A requester whose identity has no id
    can submit the form: the row is stored without owner and the
    answer is the redirect to its detail page. No request, of any
    identity, is then shown that row by the detail view or the
    listing. *)
Theorem anonymous_addTask_is_lost (request view : http_request)
    (response response' : http_response) (w : world) :
  requester request = inr None ->
  tasks_constraint (tasks (db w))
    (submitted_task (tasks_id_seq (db w)) (body request) None) = None ->
  let w' := fst (addTask request response w) in
  let t := submitted_task (tasks_id_seq (db w)) (body request) None in
  snd (addTask request response w) =
    Responded (redirect ("/tasks/" ++ decimal (tasks_id_seq (db w)))%string response)
  /\ In t (tasks (db w'))
  /\ ~ In t (shown (snd (getOneTask view response' w')))
  /\ ~ In t (shown (snd (getTasks view response' w'))).
Proof.
  intros Hr Hc w' t. subst w' t.
  rewrite (addTask_inserts _ response _ _ Hr eq_refl Hc). cbn [fst snd db tasks].
  split; [reflexivity|]. split; [apply in_or_app; right; now left|].
  match goal with
  | |- context [getOneTask view response' ?w1] =>
      destruct (never_owned_never_shown view response' w1
                  (submitted_task (tasks_id_seq (db w)) (body request) None) eq_refl)
        as (A & B & _)
  end.
  split; assumption.
Qed.

(** X4. Creation with an id nobody has. A requester whose id is an
    integer that is not the id of a user (a forged or outdated
    cookie) cannot create a task: the answer goes through
    [handleError] with the error of the database and the table is as
    it was. *)
Theorem addTask_unknown_owner (request : http_request) (response : http_response)
    (w : world) (u : Z) :
  requester request = inr (Some u) ->
  (forall v, In v (users (db w)) -> Users.id v <> u) ->
  exists e,
    snd (addTask request response w) = Responded (handleError (DbError e) response)
    /\ tasks (db (fst (addTask request response w))) = tasks (db w).
Proof.
  intros Hr Hnone.
  destruct (addTask_db request response w)
    as (_ & _ & [(Ht & _ & e & He) | (t & _ & _ & _ & Hown & Hex & _)]).
  - exists e. split; assumption.
  - exfalso. rewrite Hr in Hown. injection Hown as Hown. rewrite <- Hown in Hex.
    simpl in Hex. apply existsb_exists in Hex. destruct Hex as (v & Hin & Hv).
    apply Z.eqb_eq in Hv. now apply (Hnone v Hin).
Qed.

(** *** Registration and login *)

(** X5. A registration that cannot insert. When the form has no username,
    or a username that, as the column stores it, some user already
    has, the answer goes through [handleError] with the error of the
    database, no cookie is set and the users are as they were. In a
    table whose usernames fit the column, as the column makes them,
    this is so for every username some user already has. *)
Theorem createUser_rejected (request : http_request) (response : http_response)
    (w : world) :
  (Body.username (body request) = None
   \/ (exists v text, In v (users (db w))
                      /\ Body.username (body request) = Some text
                      /\ varchar 100 text = Some (Users.username v))
   \/ (usernames_fit (db w)
       /\ exists v, In v (users (db w))
                    /\ Some (Users.username v) = Body.username (body request))) ->
  exists e,
    snd (createUser request response w) = Responded (handleError (DbError e) response)
    /\ cookie_ops (handleError (DbError e) response) = cookie_ops response
    /\ users (db (fst (createUser request response w))) = users (db w).
Proof.
  intro H.
  assert (H' : Body.username (body request) = None
               \/ exists v text, In v (users (db w))
                                 /\ Body.username (body request) = Some text
                                 /\ varchar 100 text = Some (Users.username v)).
  { destruct H as [H | [H | (Hfit & v & Hin & Hv)]]; [now left | now right |].
    right. exists v, (Users.username v). split; [assumption|].
    split; [now symmetry|]. apply varchar_of_fit. now apply Hfit. }
  clear H.
  destruct (createUser_db request response w)
    as (_ & _ & [(Hu & _ & e & He) | (u & text & _ & _ & _ & Hname & Hv & Hnew)]).
  - exists e. repeat split; assumption.
  - exfalso. destruct H' as [H | (v & text' & Hin & Hname' & Hv')]; [congruence|].
    destruct (Hnew v Hin) as [_ Hne]. congruence.
Qed.

(** A login with a username some row has, in a table where no other
    row has it, finds that row. *)
Lemma doLogin_finds (login : http_request) (response : http_response) (w : world)
    (before : list Users.row) (row : Users.row) :
  users (db w) = (before ++ [row])%list ->
  (forall v, In v before -> Users.username v <> Users.username row) ->
  Body.username (body login) = Some (Users.username row) ->
  snd (doLogin login response w) =
  Responded (redirect "/" (cookie "user" (JSON_stringify (Users.object row)) response)).
Proof.
  intros Hu Hnew Hname.
  unfold doLogin, client_query, SQL_doLogin. cbn [fst snd].
  rewrite Hname, Hu, filter_app, filter_none.
  - simpl. now rewrite String.eqb_refl.
  - intros v Hin. simpl. apply String.eqb_neq. now apply Hnew.
Qed.

(** X6. Registration, then login. After a registration that succeeded, a
    login with the username as the table stores it finds the new row
    and sets the very cookie the registration set; so does a login
    with the submitted username when it has at most 100 characters.
    A login with a submitted username the column cut, in a table
    where no user had that username, finds no user: status 400 and
    'User not found!'. *)
Theorem createUser_then_doLogin (request login : http_request)
    (response response' : http_response) (w : world) (d' : database)
    (rows : list Users.row) :
  SQL_createUser (Body.username (body request)) (db w) = (d', inr rows) ->
  exists row text c,
    rows = [row]
    /\ Body.username (body request) = Some text
    /\ varchar 100 text = Some (Users.username row)
    /\ snd (createUser request response w) =
         Responded (redirect "/" (cookie "user" c response))
    /\ (Body.username (body login) = Some (Users.username row) ->
        snd (doLogin login response' (fst (createUser request response w))) =
        Responded (redirect "/" (cookie "user" c response')))
    /\ ((String.length text <= 100)%nat ->
        Body.username (body login) = Some text ->
        snd (doLogin login response' (fst (createUser request response w))) =
        Responded (redirect "/" (cookie "user" c response')))
    /\ (Users.username row <> text ->
        (forall v, In v (users (db w)) -> Users.username v <> text) ->
        Body.username (body login) = Some text ->
        snd (doLogin login response' (fst (createUser request response w))) =
        Responded (render "pages/error-view" (ErrorModel (Message "User not found!"))
                     (set_status 400 response'))).
Proof.
  intros H.
  destruct (SQL_createUser_success _ _ _ _ H)
    as (row & text & -> & Hn & Hv & Hid & -> & Hnew).
  exists row, text, (JSON_stringify (Users.object row)).
  assert (Hc : createUser request response w =
               (set_db (mkDb (tasks (db w)) (users (db w) ++ [row])
                          (tasks_id_seq (db w)) (users_id_seq (db w) + 1)) w,
                Responded (redirect "/"
                  (cookie "user" (JSON_stringify (Users.object row)) response)))).
  { unfold createUser, client_query. rewrite H. reflexivity. }
  rewrite Hc. cbn [fst snd].
  assert (Hfind : Body.username (body login) = Some (Users.username row) ->
                  snd (doLogin login response'
                         (set_db (mkDb (tasks (db w)) (users (db w) ++ [row])
                                    (tasks_id_seq (db w)) (users_id_seq (db w) + 1)) w)) =
                  Responded (redirect "/"
                    (cookie "user" (JSON_stringify (Users.object row)) response'))).
  { intro Hl. apply (doLogin_finds login response' _ (users (db w)) row).
    - reflexivity.
    - intros v Hin. now apply Hnew.
    - exact Hl. }
  split; [reflexivity|]. split; [assumption|]. split; [assumption|].
  split; [reflexivity|]. split; [exact Hfind|]. split.
  - intros Hlen Hl. apply Hfind. rewrite Hl. f_equal. symmetry.
    now apply (varchar_fits 100 text).
  - intros Hcut Hfree Hl.
    unfold doLogin, client_query, SQL_doLogin. cbn [fst snd db set_db users].
    rewrite Hl, filter_none; [reflexivity|].
    intros v Hin. simpl. apply String.eqb_neq. apply in_app_or in Hin.
    destruct Hin as [Hin|[<-|[]]]; [now apply Hfree | assumption].
Qed.

(** *** Updating and deleting tasks *)

Lemma updateOneTask_redirected (request : http_request) (response : http_response)
    (w : world) (r : http_response) :
  snd (updateOneTask request response w) = Responded r ->
  exists tid uid,
    target request = inr tid /\ requester request = inr uid
    /\ tasks (db (fst (updateOneTask request response w))) =
       (filter (fun t => negb (owned_by tid uid t)) (tasks (db w))
        ++ map (set_fields (Body.title (body request))
                  (Body.description (body request))
                  (Body.category (body request))
                  (Body.contact (body request))
                  (Body.status (body request)))
             (filter (owned_by tid uid) (tasks (db w))))%list.
Proof.
  unfold updateOneTask, client_query, SQL_updateOneTask, requester, target.
  destruct (int4 (text_param (assoc "task_id" (params request)))) as [e|tid]; simpl;
    [discriminate|].
  destruct (int4 (prepareValue (prop "id" (user request)))) as [e|uid]; simpl;
    [discriminate|].
  destruct (first_violation _ _); simpl; [discriminate|].
  intros _. now exists tid, uid.
Qed.

(** X7. Round trip of an update. When the update of a task the requester
    owns is answered with its redirect, the detail view, asked by the
    same requester for the same id, shows a row with the five
    submitted fields, that id and that owner. *)
Theorem updateOneTask_then_getOneTask (request view : http_request)
    (response response' r : http_response) (w : world) (t : Tasks.row) (n u : Z) :
  target request = inr (Some n) ->
  requester request = inr (Some u) ->
  In t (tasks (db w)) ->
  Tasks.id t = n ->
  Tasks.user_id t = Some u ->
  snd (updateOneTask request response w) = Responded r ->
  target view = inr (Some n) ->
  requester view = inr (Some u) ->
  exists t',
    snd (getOneTask view response' (fst (updateOneTask request response w))) =
      Responded (render "pages/detail-view" (TaskModel (Some t')) response')
    /\ Tasks.id t' = n
    /\ Tasks.user_id t' = Some u
    /\ Tasks.title t' = Body.title (body request)
    /\ Tasks.description t' = Body.description (body request)
    /\ Tasks.category t' = Body.category (body request)
    /\ Tasks.contact t' = Body.contact (body request)
    /\ Tasks.status t' = Body.status (body request).
Proof.
  intros Ht Hr Hin Hid Hown Hok Hvt Hvr.
  destruct (updateOneTask_redirected _ _ _ _ Hok) as (tid & uid & Ht' & Hr' & Htasks).
  rewrite Ht in Ht'. injection Ht' as <-. rewrite Hr in Hr'. injection Hr' as <-.
  rewrite getOneTask_answer, Hvt, Hvr, Htasks. cbn [snd].
  rewrite filter_moved; [|reflexivity].
  destruct (filter (owned_by (Some n) (Some u)) (tasks (db w))) as [|t0 rest] eqn:F.
  - exfalso.
    assert (X : In t (filter (owned_by (Some n) (Some u)) (tasks (db w)))).
    { apply filter_In. split; [assumption|].
      apply owned_by_true. repeat split; congruence. }
    rewrite F in X. destruct X.
  - eexists. split; [reflexivity|].
    assert (X : In t0 (filter (owned_by (Some n) (Some u)) (tasks (db w))))
      by (rewrite F; now left).
    apply filter_In in X. destruct X as [_ Hown'].
    apply owned_by_true in Hown'. destruct Hown' as (H1 & H2 & _).
    injection H1 as H1. repeat split; simpl; congruence.
Qed.


(** X9. A delete and what follows. When the statement runs, the table
    after [deleteOneTask] is the table before without the rows that
    have the requested id and the requester as owner, the others in
    their order; and the detail view, asked by the same requester for
    the same id, answers 'Task Not Found'. *)
Theorem deleteOneTask_then_getOneTask (request view : http_request)
    (response response' : http_response) (w : world) (tid uid : option Z) :
  target request = inr tid ->
  requester request = inr uid ->
  target view = inr tid ->
  requester view = inr uid ->
  let w' := fst (deleteOneTask request response w) in
  snd (deleteOneTask request response w) = Responded (redirect "/" response)
  /\ tasks (db w') = filter (fun t => negb (owned_by tid uid t)) (tasks (db w))
  /\ snd (getOneTask view response' w') =
     Responded (handleError (Message "Task Not Found") response').
Proof.
  intros Ht Hr Hvt Hvr w'. subst w'. unfold target, requester in Ht, Hr.
  unfold deleteOneTask, client_query, SQL_deleteOneTask. cbn [db log].
  rewrite Ht, Hr. cbn [bind fst snd of_result then_ catch_ settle set_db db responds].
  split; [reflexivity|]. split; [reflexivity|].
  rewrite getOneTask_answer, Hvt, Hvr. cbn [snd db tasks].
  rewrite filter_none; [reflexivity|].
  intros t Hin. apply filter_In in Hin. destruct Hin as [_ Hin].
  now apply negb_true_iff in Hin.
Qed.

(** *** Identities that carry no id *)

(** X10. A cookie that is JSON but no identity. When the cookie parses to
    a falsy value (null, false, 0, the empty string) the identity is
    the empty object and nothing is warned about; when it parses to
    anything that is not an object, the identity has no id. Either
    way the statements compare the owner with NULL. *)
Theorem identity_without_id (request : http_request) (response : http_response)
    (w : world) (text : string) (v : json) :
  assoc "user" (cookies request) = Some text ->
  text <> "" ->
  JSON_parse text = Some v ->
  (forall fields, v <> JObj fields) ->
  exists u,
    identity request response w =
      (log (LogUser u) w, CallsNext (set_user u request) (set_locals_user u response))
    /\ (truthy v = false -> u = JObj [])
    /\ (truthy v = true -> u = v)
    /\ requester (set_user u request) = inr None.
Proof.
  intros Hc Hne Hp Hobj. apply String.eqb_neq in Hne.
  exists (if truthy v then v else JObj []).
  unfold identity, parse_user. rewrite Hc, Hne, Hp. split; [reflexivity|].
  split; [now intros ->|]. split; [now intros ->|].
  unfold requester. cbn [user set_user].
  destruct (truthy v); [|reflexivity].
  destruct v; try reflexivity. now destruct (Hobj fields).
Qed.

(** X11. The listing of a requester without id. When the identity has no
    id, or a null one, the listing is rendered with no row at all,
    whatever the table holds, and not as an error. *)
Theorem getTasks_without_id (request : http_request) (response : http_response)
    (w : world) :
  prop "id" (user request) = None \/ prop "id" (user request) = Some JNull ->
  getTasks request response w =
  (w, Responded (render "index" (TasksModel []) response)).
Proof.
  intro H. rewrite getTasks_answer.
  assert (Hr : requester request = inr None).
  { unfold requester. destruct H as [-> | ->]; reflexivity. }
  rewrite Hr. rewrite filter_none; [reflexivity|].
  intros t _. unfold sql_eq. now destruct (Tasks.user_id t).
Qed.

(** *** The route table *)

(** X12. The task routes. For every piece [x] of a path, GET /tasks/x goes
    to [getOneTask], PUT to [updateOneTask], DELETE to
    [deleteOneTask] and GET /tasks/x/edit to [editOneTask] (the
    shorter route does not take it), each with [x] as [task_id],
    untouched. POST /tasks/x matches no route. *)
Theorem task_routes (x : string) :
  find_route routes GET ["tasks"; x] = Some (getOneTask, [("task_id", x)])
  /\ find_route routes PUT ["tasks"; x] = Some (updateOneTask, [("task_id", x)])
  /\ find_route routes DELETE ["tasks"; x] = Some (deleteOneTask, [("task_id", x)])
  /\ find_route routes GET ["tasks"; x; "edit"] = Some (editOneTask, [("task_id", x)])
  /\ find_route routes POST ["tasks"; x] = None.
Proof.
  repeat split; reflexivity.
Qed.

(** One request through the stack, when the route is known. *)
Lemma app_dispatch (request : http_request) (w w1 : world) (u : json)
    (h : handler) (ps : list (string * string)) :
  identity request fresh_response w =
    (w1, CallsNext (set_user u request) (set_locals_user u fresh_response)) ->
  static request = None ->
  find_route routes (method request) (path request) = Some (h, ps) ->
  app request w =
  (fst (h (set_params ps (set_user u request)) (set_locals_user u fresh_response) w1),
   match snd (h (set_params ps (set_user u request)) (set_locals_user u fresh_response) w1)
   with
   | NextError err => error_middleware err (set_locals_user u fresh_response)
   | o => o
   end).
Proof.
  intros Hid Hs Hf. unfold app. rewrite Hid.
  change (static (set_user u request)) with (static request). rewrite Hs.
  change (method (set_user u request)) with (method request).
  change (path (set_user u request)) with (path request).
  rewrite Hf. clear Hf. destruct (h _ _ w1) as [w2 o]. now destruct o.
Qed.

(** *** From registration to the listing *)

Lemma existsb_none {A : Type} (f : A -> bool) (l : list A) :
  (forall x, In x l -> f x = false) -> existsb f l = false.
Proof.
  induction l as [|x l IH]; simpl; intro H; [reflexivity|].
  rewrite (H x (or_introl eq_refl)). apply IH. intros y Hy. apply H. now right.
Qed.

Lemma SQL_createUser_ok (name : string) (d : database) :
  (String.length name <= 100)%nat ->
  (forall v, In v (users d) ->
     Users.id v <> users_id_seq d /\ Users.username v <> name) ->
  SQL_createUser (Some name) d =
  (mkDb (tasks d) (users d ++ [Users.mk (users_id_seq d) name])
     (tasks_id_seq d) (users_id_seq d + 1),
   inr [Users.mk (users_id_seq d) name]).
Proof.
  intros Hlen Hnew. unfold SQL_createUser, varchar.
  assert (H1 : (String.length name <=? 100)%nat = true) by (apply Nat.leb_le; exact Hlen).
  rewrite H1, existsb_none, existsb_none; [reflexivity | |].
  - intros v Hin. apply String.eqb_neq. now destruct (Hnew v Hin).
  - intros v Hin. apply Z.eqb_neq. now destruct (Hnew v Hin).
Qed.

Lemma requester_of_row (request : http_request) (me : Users.row) :
  user request = Users.object me ->
  int4_range (Users.id me) = true ->
  requester request = inr (Some (Users.id me)).
Proof.
  intros Hu Hrange. unfold requester. rewrite Hu. simpl. now rewrite Hrange.
Qed.

(** X20. A user registers, adds a task with the cookie the registration
    set, and asks for the listing with the same cookie. Provided the
    registration can insert (a username of at most 100 characters
    that nobody has, an id nobody has), JSON.parse reads back what
    JSON.stringify wrote for the new row, the id is in the range of
    [integer], the table accepts the task and ./public has no index
    file: the registration sets the cookie and redirects to /, the
    creation redirects to the page of the new task, and the listing
    shows the new task, owned by the new user. *)
Theorem register_add_list (reg add lst : http_request) (w : world) (name : string) :
  let me := Users.mk (users_id_seq (db w)) name in
  let c := JSON_stringify (Users.object me) in
  let t := submitted_task (tasks_id_seq (db w)) (body add) (Some (Users.id me)) in
  method reg = POST -> path reg = ["register"] ->
  Body.username (body reg) = Some name ->
  (String.length name <= 100)%nat ->
  (forall v, In v (users (db w)) ->
     Users.id v <> users_id_seq (db w) /\ Users.username v <> name) ->
  JSON_parse c = Some (Users.object me) -> c <> "" ->
  int4_range (users_id_seq (db w)) = true ->
  method add = POST -> path add = ["add"] ->
  assoc "user" (cookies add) = Some c ->
  tasks_constraint (tasks (db w)) t = None ->
  method lst = GET -> path lst = [] ->
  assoc "user" (cookies lst) = Some c ->
  public_file [] = None ->
  let w1 := fst (app reg w) in
  let w2 := fst (app add w1) in
  (exists r, snd (app reg w) = Responded r
             /\ cookie_ops r = [SetCookie "user" c]
             /\ sent r = Some (Redirect "/"))
  /\ (exists r, snd (app add w1) = Responded r
                /\ sent r = Some (Redirect ("/tasks/" ++ decimal (tasks_id_seq (db w)))%string))
  /\ In t (shown (snd (app lst w2)))
  /\ Tasks.user_id t = Some (Users.id me).
Proof.
  intros me c t Hm1 Hp1 Hname Hlen Hnew Hrt Hne Hrange Hm2 Hp2 Hc2 Hcon Hm3 Hp3 Hc3 Hpub
    w1 w2.
  (* the registration *)
  destruct (identity_calls_next reg fresh_response w) as (u0 & w0 & Hid0).
  pose proof (identity_keeps_db reg fresh_response w) as Hdb0.
  rewrite Hid0 in Hdb0. cbn [fst] in Hdb0.
  assert (Hs1 : static reg = None) by (unfold static; now rewrite Hm1).
  assert (Hf1 : find_route routes (method reg) (path reg) = Some (createUser, []))
    by (rewrite Hm1, Hp1; reflexivity).
  pose proof (app_dispatch reg w w0 u0 createUser [] Hid0 Hs1 Hf1) as Happ1.
  assert (Hreg : createUser (set_params [] (set_user u0 reg))
                   (set_locals_user u0 fresh_response) w0 =
                 (set_db (mkDb (tasks (db w)) (users (db w) ++ [me])
                            (tasks_id_seq (db w)) (users_id_seq (db w) + 1)) w0,
                  Responded (redirect "/"
                    (cookie "user" c (set_locals_user u0 fresh_response))))).
  { unfold createUser, client_query. cbn [body set_params set_user].
    rewrite Hname, Hdb0, (SQL_createUser_ok name (db w) Hlen Hnew). reflexivity. }
  rewrite Hreg in Happ1. cbn [fst snd] in Happ1.
  assert (Hdb1 : db w1 = mkDb (tasks (db w)) (users (db w) ++ [me])
                           (tasks_id_seq (db w)) (users_id_seq (db w) + 1)).
  { unfold w1. now rewrite Happ1. }
  (* the creation *)
  destruct (written_cookie_resolves add fresh_response w1 me Hrt Hne Hc2)
    as (w1' & Hid1 & _ & _).
  pose proof (identity_keeps_db add fresh_response w1) as Hdb1'.
  rewrite Hid1 in Hdb1'. cbn [fst] in Hdb1'.
  assert (Hs2 : static add = None) by (unfold static; now rewrite Hm2).
  assert (Hf2 : find_route routes (method add) (path add) = Some (addTask, []))
    by (rewrite Hm2, Hp2; reflexivity).
  pose proof (app_dispatch add w1 w1' (Users.object me) addTask [] Hid1 Hs2 Hf2) as Happ2.
  assert (Hreq2 : requester (set_params [] (set_user (Users.object me) add))
                  = inr (Some (Users.id me)))
    by (apply requester_of_row; [reflexivity | exact Hrange]).
  assert (Hex : user_exists (db w1') (Some (Users.id me)) = true).
  { rewrite Hdb1', Hdb1. simpl. apply existsb_exists. exists me.
    split; [apply in_or_app; right; now left | apply Z.eqb_refl]. }
  assert (Hcon2 : tasks_constraint (tasks (db w1'))
                    (submitted_task (tasks_id_seq (db w1'))
                       (body (set_params [] (set_user (Users.object me) add)))
                       (Some (Users.id me))) = None).
  { rewrite Hdb1', Hdb1. exact Hcon. }
  rewrite (addTask_inserts _ (set_locals_user (Users.object me) fresh_response) w1' _
             Hreq2 Hex Hcon2) in Happ2.
  cbn [fst snd] in Happ2. rewrite Hdb1', Hdb1 in Happ2.
  cbn [tasks users tasks_id_seq users_id_seq body set_params set_user] in Happ2.
  fold t in Happ2.
  assert (Hdb2 : tasks (db w2) = (tasks (db w) ++ [t])%list).
  { unfold w2. now rewrite Happ2. }
  (* the listing *)
  destruct (written_cookie_resolves lst fresh_response w2 me Hrt Hne Hc3)
    as (w2' & Hid2 & _ & _).
  pose proof (identity_keeps_db lst fresh_response w2) as Hdb2'.
  rewrite Hid2 in Hdb2'. cbn [fst] in Hdb2'.
  assert (Hs3 : static lst = None) by (unfold static; now rewrite Hm3, Hp3).
  assert (Hf3 : find_route routes (method lst) (path lst) = Some (getTasks, []))
    by (rewrite Hm3, Hp3; reflexivity).
  pose proof (app_dispatch lst w2 w2' (Users.object me) getTasks [] Hid2 Hs3 Hf3) as Happ3.
  assert (Hreq3 : requester (set_params [] (set_user (Users.object me) lst))
                  = inr (Some (Users.id me)))
    by (apply requester_of_row; [reflexivity | exact Hrange]).
  rewrite getTasks_answer, Hreq3 in Happ3. cbn [fst snd] in Happ3.
  split; [|split; [|split]].
  - rewrite Happ1. eexists. split; [reflexivity|]. split; reflexivity.
  - fold w1. rewrite Happ2. eexists. split; reflexivity.
  - fold w1 w2. rewrite Happ3. cbn [shown sent render].
    rewrite Hdb2', Hdb2. apply filter_In. split.
    + apply in_or_app. right. now left.
    + apply sql_eq_true. exists (Users.id me). split; reflexivity.
  - reflexivity.
Qed.

(** *** Logging out *)

(** X19. POST /logout, whatever the cookie (none, broken, anybody's), is
    answered with the redirect to / and the order to clear the cookie
    [user], and leaves the database as it is. *)
Theorem logout_clears_cookie (request : http_request) (w : world) :
  method request = POST ->
  path request = ["logout"] ->
  exists r,
    snd (app request w) = Responded r
    /\ cookie_ops r = [ClearCookie "user"]
    /\ sent r = Some (Redirect "/")
    /\ statusCode r = 302
    /\ db (fst (app request w)) = db w.
Proof.
  intros Hm Hp.
  destruct (identity_calls_next request fresh_response w) as (u & w1 & Hid).
  pose proof (identity_keeps_db request fresh_response w) as Hdb.
  rewrite Hid in Hdb. cbn [fst] in Hdb.
  assert (Hs : static request = None) by (unfold static; now rewrite Hm).
  assert (Hf : find_route routes (method request) (path request) = Some (doLogout, []))
    by (rewrite Hm, Hp; reflexivity).
  rewrite (app_dispatch request w w1 u doLogout [] Hid Hs Hf). clear Hf.
  eexists. repeat split. exact Hdb.
Qed.

(** *** The first server.js and the second *)

Lemma owned_is_has_id (tid : option Z) (u : Z) (t : Tasks.row) :
  Tasks.user_id t = Some u ->
  owned_by tid (Some u) t = has_id tid t.
Proof.
  intro H. unfold owned_by, has_id. rewrite H. simpl.
  rewrite Z.eqb_refl. apply andb_true_r.
Qed.

(** X21. On a table where every task belongs to the requester, the
    handlers of the second server.js do what those of the first do:
    the listing, the detail view, the edit form, the update and the
    delete give the same answer and leave the same database. *)
Theorem versions_agree_for_sole_owner (request : http_request)
    (response : http_response) (w : world) (u : Z) :
  requester request = inr (Some u) ->
  (forall t, In t (tasks (db w)) -> Tasks.user_id t = Some u) ->
  getTasks request response w = getTasks_v1 request response w
  /\ getOneTask request response w = getOneTask_v1 request response w
  /\ editOneTask request response w = editOneTask_v1 request response w
  /\ updateOneTask request response w = updateOneTask_v1 request response w
  /\ deleteOneTask request response w = deleteOneTask_v1 request response w.
Proof.
  unfold requester. intros Hr Hall.
  assert (Hf : forall tid,
            filter (owned_by tid (Some u)) (tasks (db w))
            = filter (has_id tid) (tasks (db w))).
  { intro tid. apply filter_ext_in. intros t Hin. apply owned_is_has_id. now apply Hall. }
  repeat match goal with |- _ /\ _ => split end.
  - unfold getTasks, getTasks_v1, client_query, SQL_getTasks, SQL_getTasks_v1.
    rewrite Hr. cbn [bind].
    rewrite (filter_all (fun t => sql_eq (Tasks.user_id t) (Some u))); [reflexivity|].
    intros t Hin. rewrite (Hall t Hin). simpl. apply Z.eqb_refl.
  - unfold getOneTask, getOneTask_v1, client_query, SQL_getOneTask, SQL_getOneTask_v1.
    rewrite Hr.
    destruct (int4 (text_param (assoc "task_id" (params request)))) as [e|tid];
      cbn [bind]; [reflexivity|].
    now rewrite Hf.
  - unfold editOneTask, editOneTask_v1, client_query, SQL_editOneTask, SQL_editOneTask_v1.
    rewrite Hr.
    destruct (int4 (text_param (assoc "task_id" (params request)))) as [e|tid];
      cbn [bind]; [reflexivity|].
    now rewrite Hf.
  - unfold updateOneTask, updateOneTask_v1, client_query,
      SQL_updateOneTask, SQL_updateOneTask_v1.
    rewrite Hr.
    destruct (int4 (text_param (assoc "task_id" (params request)))) as [e|tid];
      cbn [bind]; [reflexivity|].
    rewrite Hf.
    assert (Hn : filter (fun t => negb (owned_by tid (Some u) t)) (tasks (db w))
                 = filter (fun t => negb (has_id tid t)) (tasks (db w))).
    { apply filter_ext_in. intros t Hin.
      now rewrite (owned_is_has_id tid u t (Hall t Hin)). }
    now rewrite Hn.
  - unfold deleteOneTask, deleteOneTask_v1, client_query,
      SQL_deleteOneTask, SQL_deleteOneTask_v1. cbn [db log].
    rewrite Hr.
    destruct (int4 (text_param (assoc "task_id" (params request)))) as [e|tid];
      cbn [bind]; [reflexivity|].
    rewrite (filter_ext_in (fun t => negb (owned_by tid (Some u) t))
               (fun t => negb (has_id tid t))); [reflexivity|].
    intros t Hin. now rewrite (owned_is_has_id tid u t (Hall t Hin)).
Qed.

(** X22. The first server.js did not isolate. Whoever asks, and whatever
    the request carries, its listing shows every row of the table;
    and its detail view shows a task of the requested id whenever the
    table has one, whatever the owner. *)
Theorem first_version_shows_all (request : http_request) (response : http_response)
    (w : world) :
  getTasks_v1 request response w =
    (w, Responded (render "index" (TasksModel (tasks (db w))) response))
  /\ (forall t, In t (tasks (db w)) ->
        shown (snd (getTasks_v1 request response w)) = tasks (db w)
        /\ In t (shown (snd (getTasks_v1 request response w))))
  /\ (forall t, In t (tasks (db w)) ->
        target request = inr (Some (Tasks.id t)) ->
        exists t',
          In t' (tasks (db w)) /\ Tasks.id t' = Tasks.id t
          /\ getOneTask_v1 request response w =
             (w, Responded (render "pages/detail-view" (TaskModel (Some t')) response))).
Proof.
  assert (L : getTasks_v1 request response w =
              (w, Responded (render "index" (TasksModel (tasks (db w))) response))).
  { unfold getTasks_v1, client_query, SQL_getTasks_v1.
    now rewrite set_db_same, order_by_asc_constant. }
  split; [exact L|]. split.
  - intros t Hin. rewrite L. split; [reflexivity | exact Hin].
  - unfold target. intros t Hin Ht.
    unfold getOneTask_v1, client_query, SQL_getOneTask_v1.
    rewrite Ht, set_db_same. cbn [bind].
    destruct (filter (has_id (Some (Tasks.id t))) (tasks (db w))) as [|t' rest] eqn:F.
    + exfalso.
      assert (X : In t (filter (has_id (Some (Tasks.id t))) (tasks (db w)))).
      { apply filter_In. split; [assumption|]. unfold has_id. simpl. apply Z.eqb_refl. }
      rewrite F in X. destruct X.
    + assert (X : In t' (filter (has_id (Some (Tasks.id t))) (tasks (db w))))
        by (rewrite F; now left).
      apply filter_In in X. destruct X as [Hin' Hid].
      unfold has_id in Hid. simpl in Hid. apply Z.eqb_eq in Hid.
      exists t'. repeat split; assumption.
Qed.

(** X23. Where the two versions meet on writes. For a requester without
    id the second [addTask] stores what the first stored, a row
    without owner; and the second [createUser] and [doLogin] answer
    as the first did, except that they set the cookie. *)
Theorem versions_differ_by_cookie (request : http_request) (response : http_response)
    (w : world) :
  (requester request = inr None ->
   addTask request response w = addTask_v1 request response w)
  /\ fst (createUser request response w) = fst (createUser_v1 request response w)
  /\ fst (doLogin request response w) = fst (doLogin_v1 request response w)
  /\ (forall r1, snd (createUser_v1 request response w) = Responded r1 ->
        cookie_ops r1 = cookie_ops response
        /\ exists r2, snd (createUser request response w) = Responded r2
                      /\ statusCode r2 = statusCode r1 /\ sent r2 = sent r1)
  /\ (forall r1, snd (doLogin_v1 request response w) = Responded r1 ->
        cookie_ops r1 = cookie_ops response
        /\ exists r2, snd (doLogin request response w) = Responded r2
                      /\ statusCode r2 = statusCode r1 /\ sent r2 = sent r1).
Proof.
  repeat match goal with |- _ /\ _ => split end.
  - unfold requester. intro Hr.
    unfold addTask, addTask_v1, client_query, SQL_addTask, SQL_addTask_v1. cbn [db log].
    rewrite Hr. cbn [user_exists].
    now destruct (tasks_constraint _ _).
  - unfold createUser, createUser_v1, client_query.
    now destruct (SQL_createUser _ _) as [d r].
  - unfold doLogin, doLogin_v1, client_query.
    now destruct (SQL_doLogin _ _) as [d r].
  - unfold createUser, createUser_v1, client_query.
    destruct (SQL_createUser _ _) as [d [e|rows]]; simpl;
      intros r1 H; injection H as <-; (split; [reflexivity|]);
      eexists; repeat split.
  - unfold doLogin, doLogin_v1, client_query, SQL_doLogin. simpl.
    destruct (filter _ (users (db w))) as [|v rest]; simpl;
      intros r1 H; injection H as <-; (split; [reflexivity|]);
      eexists; repeat split.
Qed.

(** *** The migration *)

Lemma forallb_all {A : Type} (f : A -> bool) (l : list A) :
  (forall x, In x l -> f x = true) -> forallb f l = true.
Proof. intro H. apply forallb_forall. exact H. Qed.

(** X24. On a database whose [users] table is new, the migration succeeds:
    keith is the one user, with id 1; every task has owner 1 and is
    otherwise the task it was, in the order it was; and every owner
    exists. *)
Theorem migration_backfills (d : database) :
  users d = [] ->
  users_id_seq d = 1 ->
  exists d',
    migration d = inr d'
    /\ users d' = [Users.mk 1 "keith"]
    /\ tasks d' =
       map (fun t => Tasks.mk (Tasks.id t) (Tasks.title t) (Tasks.description t)
                       (Tasks.category t) (Tasks.contact t) (Tasks.status t)
                       (Tasks.due t) (Some 1)) (tasks d)
    /\ tasks_id_seq d' = tasks_id_seq d
    /\ references_ok d'.
Proof.
  intros Hu Hs. unfold migration, SQL_createUser, add_column_user_id.
  cbn [users users_id_seq tasks tasks_id_seq]. rewrite Hu, Hs. cbn.
  unfold add_constraint_fk, set_all_owners.
  cbn [users users_id_seq tasks tasks_id_seq].
  rewrite map_map. cbn [Tasks.id Tasks.title Tasks.description Tasks.category
                         Tasks.contact Tasks.status Tasks.due].
  rewrite forallb_all.
  - eexists. split; [reflexivity|]. cbn [users tasks tasks_id_seq].
    repeat split. intros t Hin. apply in_map_iff in Hin. destruct Hin as (t0 & <- & _).
    reflexivity.
  - intros t Hin. apply in_map_iff in Hin. destruct Hin as (t0 & <- & _). reflexivity.
Qed.

(** X25. The migration writes the owner 1 into every task, whoever keith
    turns out to be. On a database that has tasks and a [users] table
    in which keith cannot get the id 1 (the sequence is past 1 and no
    user has id 1), the migration fails on the foreign key. *)
Theorem migration_needs_user_1 (d : database) (t : Tasks.row) :
  In t (tasks d) ->
  users_id_seq d <> 1 ->
  (forall v, In v (users d) -> Users.id v <> 1) ->
  exists e, migration d = inl e.
Proof.
  intros Hin Hs Hnone. unfold migration.
  destruct (SQL_createUser (Some "keith") (add_column_user_id d)) as [d2 [e|rows]] eqn:E;
    [now exists e|].
  destruct (SQL_createUser_success _ _ _ _ E) as (row & text & -> & _ & _ & Hid & -> & _).
  unfold add_constraint_fk, set_all_owners.
  cbn [users tasks tasks_id_seq users_id_seq add_column_user_id] in *.
  destruct (forallb _ _) eqn:F; [|eauto].
  exfalso. rewrite forallb_forall in F.
  specialize (F (Tasks.mk (Tasks.id t) (Tasks.title t) (Tasks.description t)
                   (Tasks.category t) (Tasks.contact t) (Tasks.status t)
                   (Tasks.due t) (Some 1))).
  rewrite map_map in F. cbn [Tasks.id Tasks.title Tasks.description Tasks.category
                              Tasks.contact Tasks.status Tasks.due] in F.
  assert (X : user_exists
                (mkDb (map (fun t0 => Tasks.mk (Tasks.id t0) (Tasks.title t0)
                                        (Tasks.description t0) (Tasks.category t0)
                                        (Tasks.contact t0) (Tasks.status t0)
                                        (Tasks.due t0) (Some 1)) (tasks d))
                   (users d ++ [row]) (tasks_id_seq d) (users_id_seq d + 1))
                (Some 1) = true).
  { apply F. apply in_map_iff. exists t. split; [reflexivity | assumption]. }
  cbn [user_exists users] in X. apply existsb_exists in X.
  destruct X as (v & Hv & Hv1). apply Z.eqb_eq in Hv1.
  apply in_app_or in Hv. destruct Hv as [Hv|[<-|[]]].
  - now apply (Hnone v Hv).
  - congruence.
Qed.

(** *** The width of the username column *)

(** A registration stores no username wider than the column. *)
Lemma createUser_keeps_usernames_fit (request : http_request) (response : http_response)
    (w : world) :
  usernames_fit (db w) ->
  usernames_fit (db (fst (createUser request response w))).
Proof.
  intros H u Hin.
  destruct (createUser_db request response w)
    as (_ & _ & [(Hu & _) | (v & text & Hu & _ & _ & _ & Hv & _)]);
    rewrite Hu in Hin.
  - now apply H.
  - apply in_app_or in Hin. destruct Hin as [Hin|[<-|[]]]; [now apply H|].
    now apply (varchar_fits 100 text).
Qed.

Lemma fit_of_users_eq (d d' : database) :
  users d' = users d -> usernames_fit d -> usernames_fit d'.
Proof. unfold usernames_fit. now intros ->. Qed.

(** No request stores a username wider than the column, provided the
    handler of ./modules/books stores none. *)
Lemma app_keeps_usernames_fit (request : http_request) (w : world) :
  keeps (fun d d' => usernames_fit d -> usernames_fit d') books ->
  usernames_fit (db w) ->
  usernames_fit (db (fst (app request w))).
Proof.
  intro Hbooks.
  apply (app_relates (fun d d' => usernames_fit d -> usernames_fit d')); [auto|].
  intros rm pat h Hin _ _. unfold routes in Hin. simpl in Hin.
  repeat (destruct Hin as [Hin|Hin]; [injection Hin as <- <- <-|]);
    try (destruct Hin);
    try exact Hbooks;
    intros req res w0 Hfit;
    first
      [ apply createUser_keeps_usernames_fit; exact Hfit
      | rewrite getTasks_keeps_db; exact Hfit
      | rewrite getOneTask_keeps_db; exact Hfit
      | rewrite editOneTask_keeps_db; exact Hfit
      | rewrite doLogin_keeps_db; exact Hfit
      | apply (fit_of_users_eq (db w0));
        [exact (proj1 (addTask_db req res w0)) | exact Hfit]
      | apply (fit_of_users_eq (db w0));
        [exact (proj1 (deleteOneTask_db req res w0)) | exact Hfit]
      | apply (fit_of_users_eq (db w0));
        [exact (proj1 (updateOneTask_db req res w0)) | exact Hfit]
      | exact Hfit ].
Qed.

End Server.

(** ** The application on the sample environment *)

(** C1, on the sample database: ada asks for the task of keith. *)
Lemma ownership_isolation_witness :
  In Sample.milk (tasks (db Sample.world0))
  /\ Tasks.user_id Sample.milk = Some 1
  /\ requester Sample.int4in Sample.stringify Sample.ada_views_milk <> inr (Some 1)
  /\ ~ In Sample.milk
       (shown (snd (getTasks Sample.int4in Sample.stringify Sample.ada_views_milk
                      fresh_response Sample.world0)))
  /\ getOneTask Sample.int4in Sample.stringify Sample.ada_views_milk
       fresh_response Sample.world0
     = (Sample.world0,
        Responded (handleError (Message "Task Not Found") fresh_response)).
Proof.
  assert (H1 : In Sample.milk (tasks (db Sample.world0))) by (simpl; auto).
  assert (H2 : Tasks.user_id Sample.milk = Some 1) by reflexivity.
  assert (H3 : requester Sample.int4in Sample.stringify Sample.ada_views_milk
               <> inr (Some 1)) by (vm_compute; discriminate).
  destruct (ownership_isolation Sample.int4in Sample.stringify Sample.world0
              Sample.ada_views_milk fresh_response Sample.milk 1 H1 H2 H3)
    as (A & _ & _ & D).
  split; [exact H1|]. split; [exact H2|]. split; [exact H3|]. split; [exact A|].
  apply (D 1 (Some 2)); [reflexivity | reflexivity |].
  intros r [<-|[<-|[]]]; vm_compute; discriminate.
Defined.

(** C3, on the sample database: keith is shown his task, ada is not. *)
Lemma getOneTask_found_or_error_witness :
  getOneTask Sample.int4in Sample.stringify Sample.keith_views_milk
    fresh_response Sample.world0
  = (Sample.world0,
     Responded (render "pages/detail-view" (TaskModel (Some Sample.milk)) fresh_response))
  /\ exists err,
       getOneTask Sample.int4in Sample.stringify Sample.ada_views_milk
         fresh_response Sample.world0
       = (Sample.world0, Responded (handleError err fresh_response))
       /\ statusCode (handleError err fresh_response) = 500.
Proof.
  split.
  - destruct (getOneTask_found_or_error Sample.int4in Sample.stringify
                Sample.keith_views_milk fresh_response Sample.world0)
      as [(t & Hin & Ht & _ & _ & Heq) | (Hnone & _)].
    + destruct Hin as [<-|[<-|[]]]; [exact Heq | vm_compute in Ht; discriminate].
    + exfalso. apply (Hnone Sample.milk); [simpl; auto|].
      repeat split; vm_compute; discriminate.
  - destruct (getOneTask_found_or_error Sample.int4in Sample.stringify
                Sample.ada_views_milk fresh_response Sample.world0)
      as [(t & Hin & Ht & Hr & _) | (_ & err & Heq & _ & Hs & _)].
    + exfalso. destruct Hin as [<-|[<-|[]]]; vm_compute in Hr; discriminate.
    + exists err. split; assumption.
Defined.

(** C2, on the sample database. keith owns two tasks, stored with the
    later due date first, and asks for the listing without [sort_by].
    The statement of [getTasks] sorts on its parameter, not on the
    column the parameter names, so the rows come back as stored; in
    ascending order of [due] they would come the other way round. *)
Theorem getTasks_not_ordered_by_due :
  getTasks Sample.int4in Sample.stringify Sample.keith_lists fresh_response Sample.world0
  = (Sample.world0,
     Responded (render "index" (TasksModel [Sample.milk; Sample.eggs]) fresh_response))
  /\ listing_by_column (assoc "sort_by" (query Sample.keith_lists)) (Some 1) Sample.db0
     = [Sample.eggs; Sample.milk].
Proof. split; reflexivity. Qed.

(** C4, on the sample database: ada updates and deletes the task of
    keith. *)
Lemma update_delete_without_match_witness :
  target Sample.int4in Sample.ada_updates_milk = inr (Some 1)
  /\ requester Sample.int4in Sample.stringify Sample.ada_updates_milk = inr (Some 2)
  /\ (forall t, In t (tasks (db Sample.world0)) ->
        ~ (Some (Tasks.id t) = Some 1 /\ Tasks.user_id t = Some 2 /\ Some 2 <> None))
  /\ snd (updateOneTask Sample.int4in Sample.stringify Sample.constraint
            Sample.ada_updates_milk fresh_response Sample.world0)
     = Responded (redirect "/tasks/1" fresh_response)
  /\ snd (deleteOneTask Sample.int4in Sample.stringify
            Sample.ada_updates_milk fresh_response Sample.world0)
     = Responded (redirect "/" fresh_response)
  /\ In Sample.milk
       (tasks (db (fst (updateOneTask Sample.int4in Sample.stringify Sample.constraint
                          Sample.ada_updates_milk fresh_response Sample.world0))))
  /\ In Sample.milk
       (tasks (db (fst (deleteOneTask Sample.int4in Sample.stringify
                          Sample.ada_updates_milk fresh_response Sample.world0)))).
Proof.
  assert (H1 : target Sample.int4in Sample.ada_updates_milk = inr (Some 1))
    by reflexivity.
  assert (H2 : requester Sample.int4in Sample.stringify Sample.ada_updates_milk
               = inr (Some 2)) by reflexivity.
  assert (H3 : forall t, In t (tasks (db Sample.world0)) ->
            ~ (Some (Tasks.id t) = Some 1 /\ Tasks.user_id t = Some 2 /\ Some 2 <> None)).
  { intros t [<-|[<-|[]]] (_ & H & _); vm_compute in H; discriminate. }
  destruct (update_delete_without_match Sample.int4in Sample.stringify Sample.constraint
              Sample.ada_updates_milk fresh_response Sample.world0 (Some 1) (Some 2)
              H1 H2 H3) as (A & B & _ & _ & E).
  split; [exact H1|]. split; [exact H2|]. split; [exact H3|].
  split; [exact A|]. split; [exact B|].
  apply E. simpl. auto.
Defined.

(** C4 as the claim words it fails on /tasks/abc asked by keith: no
    row of the table has the id the path names and keith as owner,
    yet neither the update nor the delete is answered with its
    redirect. The database rejects abc as an integer: the update
    hands the error to [next] and the delete to [handleError]. *)
Lemma update_delete_abc_not_redirected :
  ~ ((forall t, In t (tasks (db Sample.world0)) ->
        ~ (target Sample.int4in Sample.keith_updates_abc = inr (Some (Tasks.id t))
           /\ requester Sample.int4in Sample.stringify Sample.keith_updates_abc
              = inr (Tasks.user_id t))) ->
     (exists r,
        snd (updateOneTask Sample.int4in Sample.stringify Sample.constraint
               Sample.keith_updates_abc fresh_response Sample.world0) = Responded r
        /\ sent r = Some (Redirect "/tasks/abc"))
     \/ snd (deleteOneTask Sample.int4in Sample.stringify
               Sample.keith_deletes_abc fresh_response Sample.world0)
        = Responded (redirect "/" fresh_response)).
Proof.
  intro H. destruct H as [(r & Hr & _) | Hr].
  - intros t _ [Ht _]. vm_compute in Ht. discriminate.
  - vm_compute in Hr. discriminate.
  - vm_compute in Hr. discriminate.
Qed.

(** The same two requests through the stack: both are answered with
    status 500 and the error view, and the table is as it was. *)
Lemma abc_answered_500 :
  (exists r,
     snd (app Sample.int4in Sample.stringify Sample.parse Sample.stringify
            Sample.due_default Sample.constraint Sample.public_file Sample.books
            Sample.put_abc Sample.world0) = Responded r
     /\ statusCode r = 500
     /\ sent r = Some (Render "pages/error-view"
                         (ErrorModel (DbError (InvalidInteger "abc")))))
  /\ (exists r,
        snd (app Sample.int4in Sample.stringify Sample.parse Sample.stringify
               Sample.due_default Sample.constraint Sample.public_file Sample.books
               Sample.delete_abc Sample.world0) = Responded r
        /\ statusCode r = 500
        /\ sent r = Some (Render "pages/error-view"
                            (ErrorModel (DbError (InvalidInteger "abc")))))
  /\ tasks (db (fst (app Sample.int4in Sample.stringify Sample.parse Sample.stringify
                       Sample.due_default Sample.constraint Sample.public_file
                       Sample.books Sample.put_abc Sample.world0)))
     = tasks (db Sample.world0)
  /\ tasks (db (fst (app Sample.int4in Sample.stringify Sample.parse Sample.stringify
                       Sample.due_default Sample.constraint Sample.public_file
                       Sample.books Sample.delete_abc Sample.world0)))
     = tasks (db Sample.world0).
Proof.
  split; [|split; [|split]].
  - eexists. split; [vm_compute; reflexivity|]. split; reflexivity.
  - eexists. split; [vm_compute; reflexivity|]. split; reflexivity.
  - vm_compute. reflexivity.
  - vm_compute. reflexivity.
Qed.

(** C5, on the sample database: bob registers and is given id 3; and
    a registration as bob followed by 98 blanks, 101 characters, is
    stored and written into the cookie with the first 100 of them. *)
Lemma createUser_cookie_matches_row_witness :
  SQL_createUser (Body.username (body Sample.bob_registers)) (db Sample.world0)
  = (mkDb [Sample.milk; Sample.eggs] [Sample.keith; Sample.ada; Users.mk 3 "bob"] 3 4,
     inr [Users.mk 3 "bob"])
  /\ (exists row,
        Users.username row = "bob"
        /\ Users.id row = 3
        /\ snd (createUser Sample.stringify Sample.bob_registers fresh_response
                  Sample.world0)
           = Responded (redirect "/"
               (cookie "user"
                  (Sample.stringify (JObj [("id", JNum (Users.id row));
                                           ("username", JStr (Users.username row))]))
                  fresh_response)))
  /\ String.length Sample.bob_and_blanks = 101%nat
  /\ exists row,
       Users.username row = prefix_of 100 Sample.bob_and_blanks
       /\ Users.id row = 3
       /\ snd (createUser Sample.stringify Sample.bob_with_blanks_registers fresh_response
                 Sample.world0)
          = Responded (redirect "/"
              (cookie "user"
                 (Sample.stringify (JObj [("id", JNum (Users.id row));
                                          ("username", JStr (Users.username row))]))
                 fresh_response)).
Proof.
  assert (H : SQL_createUser (Body.username (body Sample.bob_registers)) (db Sample.world0)
              = (mkDb [Sample.milk; Sample.eggs]
                   [Sample.keith; Sample.ada; Users.mk 3 "bob"] 3 4,
                 inr [Users.mk 3 "bob"])) by reflexivity.
  assert (H' : SQL_createUser (Body.username (body Sample.bob_with_blanks_registers))
                 (db Sample.world0)
               = (mkDb [Sample.milk; Sample.eggs]
                    [Sample.keith; Sample.ada;
                     Users.mk 3 (prefix_of 100 Sample.bob_and_blanks)] 3 4,
                  inr [Users.mk 3 (prefix_of 100 Sample.bob_and_blanks)]))
    by reflexivity.
  split; [exact H|]. split; [|split; [reflexivity|]].
  - destruct (createUser_cookie_matches_row Sample.stringify Sample.bob_registers
                fresh_response Sample.world0 _ _ H)
      as (row & text & Hname & _ & Hfit & Hid & _ & _ & Heq & _).
    injection Hname as <-.
    exists row. split; [apply Hfit; simpl; lia|]. split; [exact Hid|]. now rewrite Heq.
  - destruct (createUser_cookie_matches_row Sample.stringify
                Sample.bob_with_blanks_registers fresh_response Sample.world0 _ _ H')
      as (row & text & Hname & Hv & _ & Hid & _ & _ & Heq & _).
    injection Hname as <-. vm_compute in Hv. injection Hv as Hv.
    exists row. split; [symmetry; exact Hv|]. split; [exact Hid|].
    now rewrite Heq.
Defined.

(** C6, on the sample database: eve is unknown, ada is known. *)
Lemma doLogin_unknown_or_known_witness :
  (forall u, In u (users (db Sample.world0)) ->
     Some (Users.username u) <> Body.username (body Sample.eve_logs_in))
  /\ snd (doLogin Sample.stringify Sample.eve_logs_in fresh_response Sample.world0)
     = Responded (render "pages/error-view" (ErrorModel (Message "User not found!"))
                    (set_status 400 fresh_response))
  /\ (exists u, In u (users (db Sample.world0))
                /\ Some (Users.username u) = Body.username (body Sample.ada_logs_in))
  /\ exists u,
       Some (Users.username u) = Some "ada"
       /\ snd (doLogin Sample.stringify Sample.ada_logs_in fresh_response Sample.world0)
          = Responded (redirect "/"
              (cookie "user"
                 (Sample.stringify (JObj [("id", JNum (Users.id u));
                                          ("username", JStr (Users.username u))]))
                 fresh_response)).
Proof.
  assert (H1 : forall u, In u (users (db Sample.world0)) ->
             Some (Users.username u) <> Body.username (body Sample.eve_logs_in)).
  { intros u [<-|[<-|[]]]; vm_compute; discriminate. }
  assert (H2 : exists u, In u (users (db Sample.world0))
                /\ Some (Users.username u) = Body.username (body Sample.ada_logs_in)).
  { exists Sample.ada. split; [simpl; auto | reflexivity]. }
  split; [exact H1|]. split.
  - destruct (doLogin_unknown_or_known Sample.stringify Sample.eve_logs_in
                fresh_response Sample.world0) as [A _].
    destruct (A H1) as (Heq & _). now rewrite Heq.
  - split; [exact H2|].
    destruct (doLogin_unknown_or_known Sample.stringify Sample.ada_logs_in
                fresh_response Sample.world0) as [_ B].
    destruct (B H2) as (u & _ & Hu & Heq).
    exists u. split; [exact Hu | now rewrite Heq].
Defined.

(** C7, on a cookie that is not JSON: the request goes on as
    anonymous and the console has the warning; and on the cookie a
    login of keith wrote: the request goes on as keith. *)
Lemma identity_never_fails_witness :
  assoc "user" (cookies Sample.get_home_broken) = Some "{id:"
  /\ Sample.parse "{id:" = None
  /\ (exists w',
        identity Sample.parse Sample.get_home_broken fresh_response Sample.world0
        = (w', CallsNext (set_user (JObj []) Sample.get_home_broken)
                  (set_locals_user (JObj []) fresh_response))
        /\ console w' = [WarnUserCookie])
  /\ assoc "user" (cookies Sample.get_home_keith) = Some (Sample.stringify Sample.as_keith)
  /\ Sample.parse (Sample.stringify Sample.as_keith) = Some Sample.as_keith
  /\ exists w',
       identity Sample.parse Sample.get_home_keith fresh_response Sample.world0
       = (w', CallsNext (set_user Sample.as_keith Sample.get_home_keith)
                 (set_locals_user Sample.as_keith fresh_response))
       /\ console w' = [LogUser Sample.as_keith].
Proof.
  assert (H1 : assoc "user" (cookies Sample.get_home_broken) = Some "{id:")
    by reflexivity.
  assert (H2 : Sample.parse "{id:" = None) by reflexivity.
  assert (H3 : assoc "user" (cookies Sample.get_home_keith)
               = Some (Sample.stringify Sample.as_keith)) by reflexivity.
  assert (H4 : Sample.parse (Sample.stringify Sample.as_keith) = Some Sample.as_keith)
    by reflexivity.
  split; [exact H1|]. split; [exact H2|]. split; [|split; [exact H3|split; [exact H4|]]].
  - destruct (identity_never_fails Sample.parse Sample.get_home_broken fresh_response
                Sample.world0)
      as (u & w' & Hid & _ & _ & _ & _ & _ & _ & Hbad & _ & Hwarn).
    exists w'. rewrite (Hbad _ H1 H2) in Hid. split; [exact Hid|].
    apply Hwarn. exists "{id:". split; [exact H1|]. split; [discriminate | exact H2].
  - destruct (identity_never_fails Sample.parse Sample.get_home_keith fresh_response
                Sample.world0)
      as (u & w' & Hid & _ & _ & _ & _ & Hdec & _).
    assert (Hne : Sample.stringify Sample.as_keith <> "") by (vm_compute; discriminate).
    destruct (Hdec _ _ H3 Hne H4) as [Hu Hc].
    change (u = Sample.as_keith) in Hu. subst u.
    exists w'. split; [exact Hid | exact Hc].
Defined.

(** C8, on the sample database: GET /tasks/abc/edit. The database
    rejects the id; [editOneTask] has no [catch], so the rejection is
    left unhandled and the request gets no response. *)
Theorem editOneTask_rejection_unhandled :
  snd (app Sample.int4in Sample.stringify Sample.parse Sample.stringify
         Sample.due_default Sample.constraint Sample.public_file Sample.books
         Sample.get_edit_abc Sample.world0)
  = UnhandledRejection (DbError (InvalidInteger "abc")).
Proof. vm_compute. reflexivity. Qed.

(** C9 as the claim words it fails on POST /nowhere: no defined route
    matches it, and the catch-all, registered for GET, does not
    answer it either. *)
Lemma catch_all_misses_post :
  ~ (find_route
       (defined_routes Sample.int4in Sample.stringify Sample.stringify
          Sample.due_default Sample.constraint Sample.books)
       (method Sample.post_nowhere) (path Sample.post_nowhere) = None ->
     exists r w',
       app Sample.int4in Sample.stringify Sample.parse Sample.stringify
         Sample.due_default Sample.constraint Sample.public_file Sample.books
         Sample.post_nowhere Sample.world0 = (w', Responded r)
       /\ statusCode r = 404
       /\ sent r = Some (Send "This route does not exist")).
Proof.
  intro H. destruct (H eq_refl) as (r & w' & Heq & _).
  vm_compute in Heq. discriminate.
Qed.

(** C9 as the code has it, on GET /nowhere. *)
Lemma catch_all_answers_get_witness :
  method_matches GET (method Sample.get_nowhere) = true
  /\ Sample.public_file (path Sample.get_nowhere) = None
  /\ find_route
       (defined_routes Sample.int4in Sample.stringify Sample.stringify
          Sample.due_default Sample.constraint Sample.books)
       (method Sample.get_nowhere) (path Sample.get_nowhere) = None
  /\ exists r w',
       app Sample.int4in Sample.stringify Sample.parse Sample.stringify
         Sample.due_default Sample.constraint Sample.public_file Sample.books
         Sample.get_nowhere Sample.world0 = (w', Responded r)
       /\ statusCode r = 404
       /\ sent r = Some (Send "This route does not exist").
Proof.
  split; [reflexivity|]. split; [reflexivity|]. split; [reflexivity|].
  apply (catch_all_answers_get Sample.int4in Sample.stringify Sample.parse
           Sample.stringify Sample.due_default Sample.constraint Sample.public_file
           Sample.books Sample.get_nowhere Sample.world0); reflexivity.
Defined.



(** ** Beyond the claims, on the sample environment *)

(** X1, on the sample data: keith adds a task and follows the redirect. *)
Lemma addTask_then_getOneTask_witness :
  requester Sample.int4in Sample.stringify Sample.keith_adds = inr (Some 1)
  /\ user_exists (db Sample.world0) (Some 1) = true
  /\ (forall t, In t (tasks (db Sample.world0)) ->
        Tasks.id t <> tasks_id_seq (db Sample.world0))
  /\ Sample.int4in (decimal (tasks_id_seq (db Sample.world0)))
     = Some (tasks_id_seq (db Sample.world0))
  /\ snd (getOneTask Sample.int4in Sample.stringify Sample.keith_views_new fresh_response
            (fst (addTask Sample.int4in Sample.stringify Sample.due_default
                    Sample.constraint Sample.keith_adds fresh_response Sample.world0)))
     = Responded (render "pages/detail-view"
         (TaskModel (Some (submitted_task Sample.due_default 3 (Sample.form "Buy bread")
                             (Some 1))))
         fresh_response).
Proof.
  assert (H1 : requester Sample.int4in Sample.stringify Sample.keith_adds = inr (Some 1))
    by reflexivity.
  assert (H2 : user_exists (db Sample.world0) (Some 1) = true) by reflexivity.
  assert (H3 : forall t, In t (tasks (db Sample.world0)) ->
                 Tasks.id t <> tasks_id_seq (db Sample.world0)).
  { intros t [<-|[<-|[]]]; vm_compute; discriminate. }
  assert (H4 : Sample.int4in (decimal (tasks_id_seq (db Sample.world0)))
               = Some (tasks_id_seq (db Sample.world0))) by reflexivity.
  split; [exact H1|]. split; [exact H2|]. split; [exact H3|]. split; [exact H4|].
  apply (addTask_then_getOneTask Sample.int4in Sample.stringify Sample.due_default
           Sample.constraint Sample.keith_adds Sample.keith_views_new
           fresh_response fresh_response Sample.world0 1 H1 H2 eq_refl H3 eq_refl H4 eq_refl).
Defined.

(** X3, on the sample data: the task without owner of the sample database, before keith. *)
Lemma ownerless_task_unreachable_witness :
  In Sample.stray (tasks (db Sample.world_stray))
  /\ Tasks.user_id Sample.stray = None
  /\ ~ In Sample.stray
       (shown (snd (getTasks Sample.int4in Sample.stringify Sample.keith_lists
                      fresh_response Sample.world_stray)))
  /\ In Sample.stray
       (tasks (db (fst (deleteOneTask Sample.int4in Sample.stringify
                          Sample.keith_views_new fresh_response Sample.world_stray)))).
Proof.
  assert (H1 : In Sample.stray (tasks (db Sample.world_stray))) by (simpl; auto).
  assert (H2 : Tasks.user_id Sample.stray = None) by reflexivity.
  split; [exact H1|]. split; [exact H2|]. split.
  - apply (ownerless_task_unreachable Sample.int4in Sample.stringify Sample.constraint
             Sample.keith_lists fresh_response Sample.world_stray Sample.stray H1 H2).
  - apply (ownerless_task_unreachable Sample.int4in Sample.stringify Sample.constraint
             Sample.keith_views_new fresh_response Sample.world_stray Sample.stray H1 H2).
Defined.

(** X2, on the sample data: a visitor without cookie adds a task; keith looks for it. *)
Lemma anonymous_addTask_is_lost_witness :
  requester Sample.int4in Sample.stringify Sample.nobody_adds = inr None
  /\ snd (addTask Sample.int4in Sample.stringify Sample.due_default Sample.constraint
            Sample.nobody_adds fresh_response Sample.world0)
     = Responded (redirect "/tasks/3" fresh_response)
  /\ ~ In (submitted_task Sample.due_default 3 (Sample.form "Buy bread") None)
         (shown (snd (getOneTask Sample.int4in Sample.stringify Sample.keith_views_new
                        fresh_response
                        (fst (addTask Sample.int4in Sample.stringify Sample.due_default
                                Sample.constraint Sample.nobody_adds fresh_response
                                Sample.world0))))).
Proof.
  assert (H1 : requester Sample.int4in Sample.stringify Sample.nobody_adds = inr None)
    by reflexivity.
  split; [exact H1|].
  destruct (anonymous_addTask_is_lost Sample.int4in Sample.stringify Sample.due_default
              Sample.constraint Sample.nobody_adds Sample.keith_views_new
              fresh_response fresh_response Sample.world0 H1 eq_refl)
    as (A & _ & C & _).
  split; [exact A | exact C].
Defined.

(** X4, on the sample data: a cookie with the id 99, which nobody has. *)
Lemma addTask_unknown_owner_witness :
  requester Sample.int4in Sample.stringify Sample.forged_adds = inr (Some 99)
  /\ (forall v, In v (users (db Sample.world0)) -> Users.id v <> 99)
  /\ exists e,
       snd (addTask Sample.int4in Sample.stringify Sample.due_default Sample.constraint
              Sample.forged_adds fresh_response Sample.world0)
       = Responded (handleError (DbError e) fresh_response)
       /\ tasks (db (fst (addTask Sample.int4in Sample.stringify Sample.due_default
                            Sample.constraint Sample.forged_adds fresh_response
                            Sample.world0)))
          = tasks (db Sample.world0).
Proof.
  assert (H1 : requester Sample.int4in Sample.stringify Sample.forged_adds
               = inr (Some 99)) by reflexivity.
  assert (H2 : forall v, In v (users (db Sample.world0)) -> Users.id v <> 99).
  { intros v [<-|[<-|[]]]; vm_compute; discriminate. }
  split; [exact H1|]. split; [exact H2|].
  apply (addTask_unknown_owner Sample.int4in Sample.stringify Sample.due_default
           Sample.constraint Sample.forged_adds fresh_response Sample.world0 99 H1 H2).
Defined.

(** X5, on the sample data: keith registers a second time. *)
Lemma createUser_rejected_witness :
  usernames_fit (db Sample.world0)
  /\ (exists v, In v (users (db Sample.world0))
                /\ Some (Users.username v) = Body.username (body Sample.keith_registers))
  /\ exists e,
       snd (createUser Sample.stringify Sample.keith_registers fresh_response Sample.world0)
       = Responded (handleError (DbError e) fresh_response)
       /\ users (db (fst (createUser Sample.stringify Sample.keith_registers
                            fresh_response Sample.world0)))
          = users (db Sample.world0).
Proof.
  assert (F : usernames_fit (db Sample.world0)).
  { intros u [<-|[<-|[]]]; simpl; lia. }
  assert (H : exists v, In v (users (db Sample.world0))
                /\ Some (Users.username v) = Body.username (body Sample.keith_registers)).
  { exists Sample.keith. split; [simpl; auto | reflexivity]. }
  split; [exact F|]. split; [exact H|].
  destruct (createUser_rejected Sample.stringify Sample.keith_registers fresh_response
              Sample.world0 (or_intror (or_intror (conj F H)))) as (e & A & _ & C).
  exists e. split; [exact A | exact C].
Defined.

(** X6, on the sample data: bob registers, then logs in; and a
    registration as bob followed by 98 blanks, then a login with the
    same 101 characters. *)
Lemma createUser_then_doLogin_witness :
  SQL_createUser (Body.username (body Sample.bob_registers)) (db Sample.world0)
  = (mkDb [Sample.milk; Sample.eggs] [Sample.keith; Sample.ada; Sample.bob] 3 4,
     inr [Sample.bob])
  /\ Body.username (body Sample.bob_logs_in) = Body.username (body Sample.bob_registers)
  /\ (exists c,
        snd (createUser Sample.stringify Sample.bob_registers fresh_response Sample.world0)
        = Responded (redirect "/" (cookie "user" c fresh_response))
        /\ snd (doLogin Sample.stringify Sample.bob_logs_in fresh_response
                  (fst (createUser Sample.stringify Sample.bob_registers fresh_response
                          Sample.world0)))
           = Responded (redirect "/" (cookie "user" c fresh_response)))
  /\ Body.username (body Sample.bob_with_blanks_logs_in)
     = Body.username (body Sample.bob_with_blanks_registers)
  /\ snd (doLogin Sample.stringify Sample.bob_with_blanks_logs_in fresh_response
            (fst (createUser Sample.stringify Sample.bob_with_blanks_registers
                    fresh_response Sample.world0)))
     = Responded (render "pages/error-view" (ErrorModel (Message "User not found!"))
                    (set_status 400 fresh_response)).
Proof.
  assert (H1 : SQL_createUser (Body.username (body Sample.bob_registers))
                 (db Sample.world0)
               = (mkDb [Sample.milk; Sample.eggs]
                    [Sample.keith; Sample.ada; Sample.bob] 3 4,
                  inr [Sample.bob])) by reflexivity.
  assert (H2 : Body.username (body Sample.bob_logs_in)
               = Body.username (body Sample.bob_registers)) by reflexivity.
  assert (H3 : SQL_createUser (Body.username (body Sample.bob_with_blanks_registers))
                 (db Sample.world0)
               = (mkDb [Sample.milk; Sample.eggs]
                    [Sample.keith; Sample.ada;
                     Users.mk 3 (prefix_of 100 Sample.bob_and_blanks)] 3 4,
                  inr [Users.mk 3 (prefix_of 100 Sample.bob_and_blanks)]))
    by reflexivity.
  split; [exact H1|]. split; [exact H2|]. split; [|split; [reflexivity|]].
  - destruct (createUser_then_doLogin Sample.stringify Sample.bob_registers
                Sample.bob_logs_in fresh_response fresh_response Sample.world0 _ _ H1)
      as (row & text & c & _ & Hname & _ & Hc & _ & Hsame & _).
    injection Hname as <-.
    exists c. split; [exact Hc|]. apply Hsame; [simpl; lia | reflexivity].
  - destruct (createUser_then_doLogin Sample.stringify Sample.bob_with_blanks_registers
                Sample.bob_with_blanks_logs_in fresh_response fresh_response
                Sample.world0 _ _ H3)
      as (row & text & c & _ & Hname & Hv & _ & _ & _ & Hcut).
    injection Hname as <-. apply Hcut.
    + intro E. rewrite E in Hv. vm_compute in Hv. discriminate.
    + intros v [<-|[<-|[]]]; vm_compute; discriminate.
    + reflexivity.
Defined.

(** X7, on the sample data: keith renames his task and looks at it. *)
Lemma updateOneTask_then_getOneTask_witness :
  target Sample.int4in Sample.keith_updates_milk = inr (Some 1)
  /\ requester Sample.int4in Sample.stringify Sample.keith_updates_milk = inr (Some 1)
  /\ In Sample.milk (tasks (db Sample.world0))
  /\ snd (updateOneTask Sample.int4in Sample.stringify Sample.constraint
            Sample.keith_updates_milk fresh_response Sample.world0)
     = Responded (redirect "/tasks/1" fresh_response)
  /\ exists t',
       snd (getOneTask Sample.int4in Sample.stringify Sample.keith_views_milk
              fresh_response
              (fst (updateOneTask Sample.int4in Sample.stringify Sample.constraint
                      Sample.keith_updates_milk fresh_response Sample.world0)))
       = Responded (render "pages/detail-view" (TaskModel (Some t')) fresh_response)
       /\ Tasks.title t' = Some "Sell milk"
       /\ Tasks.id t' = 1.
Proof.
  assert (H1 : target Sample.int4in Sample.keith_updates_milk = inr (Some 1))
    by reflexivity.
  assert (H2 : requester Sample.int4in Sample.stringify Sample.keith_updates_milk
               = inr (Some 1)) by reflexivity.
  assert (H3 : In Sample.milk (tasks (db Sample.world0))) by (simpl; auto).
  assert (H4 : snd (updateOneTask Sample.int4in Sample.stringify Sample.constraint
                      Sample.keith_updates_milk fresh_response Sample.world0)
               = Responded (redirect "/tasks/1" fresh_response)) by reflexivity.
  split; [exact H1|]. split; [exact H2|]. split; [exact H3|]. split; [exact H4|].
  destruct (updateOneTask_then_getOneTask Sample.int4in Sample.stringify Sample.constraint
              Sample.keith_updates_milk Sample.keith_views_milk
              fresh_response fresh_response _ Sample.world0 Sample.milk 1 1
              H1 H2 H3 eq_refl eq_refl H4 eq_refl eq_refl)
    as (t' & A & B & _ & C & _).
  exists t'. split; [exact A|]. split; [exact C | exact B].
Defined.


(** X9, on the sample data: keith deletes his task and looks for it. *)
Lemma deleteOneTask_then_getOneTask_witness :
  target Sample.int4in Sample.keith_deletes_milk = inr (Some 1)
  /\ requester Sample.int4in Sample.stringify Sample.keith_deletes_milk = inr (Some 1)
  /\ tasks (db (fst (deleteOneTask Sample.int4in Sample.stringify
                       Sample.keith_deletes_milk fresh_response Sample.world0)))
     = [Sample.eggs]
  /\ snd (getOneTask Sample.int4in Sample.stringify Sample.keith_views_milk fresh_response
            (fst (deleteOneTask Sample.int4in Sample.stringify
                    Sample.keith_deletes_milk fresh_response Sample.world0)))
     = Responded (handleError (Message "Task Not Found") fresh_response).
Proof.
  assert (H1 : target Sample.int4in Sample.keith_deletes_milk = inr (Some 1))
    by reflexivity.
  assert (H2 : requester Sample.int4in Sample.stringify Sample.keith_deletes_milk
               = inr (Some 1)) by reflexivity.
  split; [exact H1|]. split; [exact H2|].
  destruct (deleteOneTask_then_getOneTask Sample.int4in Sample.stringify
              Sample.keith_deletes_milk Sample.keith_views_milk
              fresh_response fresh_response Sample.world0 (Some 1) (Some 1)
              H1 H2 eq_refl eq_refl) as (_ & B & C).
  split; [exact B | exact C].
Defined.

(** X10, on the sample data: the cookie [5]: JSON, and no identity. *)
Lemma identity_without_id_witness :
  assoc "user" (cookies Sample.five_cookie) = Some "5"
  /\ Sample.parse "5" = Some (JNum 5)
  /\ exists u,
       identity Sample.parse Sample.five_cookie fresh_response Sample.world0
       = (log (LogUser u) Sample.world0,
          CallsNext (set_user u Sample.five_cookie) (set_locals_user u fresh_response))
       /\ requester Sample.int4in Sample.stringify (set_user u Sample.five_cookie)
          = inr None.
Proof.
  assert (H1 : assoc "user" (cookies Sample.five_cookie) = Some "5") by reflexivity.
  assert (H2 : Sample.parse "5" = Some (JNum 5)) by reflexivity.
  split; [exact H1|]. split; [exact H2|].
  destruct (identity_without_id Sample.int4in Sample.stringify Sample.parse
              Sample.five_cookie fresh_response Sample.world0 "5" (JNum 5) H1)
    as (u & A & _ & _ & D); [discriminate | exact H2 | discriminate |].
  exists u. split; [exact A | exact D].
Defined.

(** X11, on the sample data: the listing of a visitor without cookie. *)
Lemma getTasks_without_id_witness :
  prop "id" (user Sample.nobody_lists) = None
  /\ getTasks Sample.int4in Sample.stringify Sample.nobody_lists fresh_response
       Sample.world_stray
     = (Sample.world_stray, Responded (render "index" (TasksModel []) fresh_response)).
Proof.
  split; [reflexivity|].
  apply (getTasks_without_id Sample.int4in Sample.stringify Sample.nobody_lists
           fresh_response Sample.world_stray). left. reflexivity.
Defined.

(** X20, on the sample data: bob registers, adds a task and opens the listing. *)
Lemma register_add_list_witness :
  (forall v, In v (users (db Sample.world0)) ->
     Users.id v <> users_id_seq (db Sample.world0) /\ Users.username v <> "bob")
  /\ Sample.parse (Sample.stringify (Users.object Sample.bob))
     = Some (Users.object Sample.bob)
  /\ In (submitted_task Sample.due_default 3 (Sample.form "Buy bread") (Some 3))
       (shown (snd
          (app Sample.int4in Sample.stringify Sample.parse Sample.stringify
             Sample.due_default Sample.constraint Sample.public_file Sample.books
             Sample.get_home_bob
             (fst (app Sample.int4in Sample.stringify Sample.parse Sample.stringify
                     Sample.due_default Sample.constraint Sample.public_file Sample.books
                     Sample.post_add_bob
                     (fst (app Sample.int4in Sample.stringify Sample.parse
                             Sample.stringify Sample.due_default Sample.constraint
                             Sample.public_file Sample.books
                             Sample.post_register_bob Sample.world0))))))).
Proof.
  assert (H1 : forall v, In v (users (db Sample.world0)) ->
                 Users.id v <> users_id_seq (db Sample.world0)
                 /\ Users.username v <> "bob").
  { intros v [<-|[<-|[]]]; split; vm_compute; discriminate. }
  assert (H2 : Sample.parse (Sample.stringify (Users.object Sample.bob))
               = Some (Users.object Sample.bob)) by reflexivity.
  split; [exact H1|]. split; [exact H2|].
  apply (register_add_list Sample.int4in Sample.stringify Sample.parse Sample.stringify
           Sample.due_default Sample.constraint Sample.public_file Sample.books
           Sample.post_register_bob Sample.post_add_bob Sample.get_home_bob
           Sample.world0 "bob").
  - reflexivity.
  - reflexivity.
  - reflexivity.
  - simpl. lia.
  - exact H1.
  - exact H2.
  - vm_compute. discriminate.
  - reflexivity.
  - reflexivity.
  - reflexivity.
  - reflexivity.
  - reflexivity.
  - reflexivity.
  - reflexivity.
  - reflexivity.
  - reflexivity.
Defined.

(** X19, on the sample data: POST /logout with a broken cookie. *)
Lemma logout_clears_cookie_witness :
  method Sample.post_logout = POST
  /\ path Sample.post_logout = ["logout"]
  /\ exists r,
       snd (app Sample.int4in Sample.stringify Sample.parse Sample.stringify
              Sample.due_default Sample.constraint Sample.public_file Sample.books
              Sample.post_logout Sample.world0) = Responded r
       /\ cookie_ops r = [ClearCookie "user"]
       /\ sent r = Some (Redirect "/").
Proof.
  split; [reflexivity|]. split; [reflexivity|].
  destruct (logout_clears_cookie Sample.int4in Sample.stringify Sample.parse
              Sample.stringify Sample.due_default Sample.constraint Sample.public_file
              Sample.books Sample.post_logout Sample.world0 eq_refl eq_refl)
    as (r & A & B & C & _).
  exists r. split; [exact A|]. split; [exact B | exact C].
Defined.

(** X21, on the sample data: the sample database belongs to keith alone. *)
Lemma versions_agree_for_sole_owner_witness :
  requester Sample.int4in Sample.stringify Sample.keith_views_milk = inr (Some 1)
  /\ (forall t, In t (tasks (db Sample.world0)) -> Tasks.user_id t = Some 1)
  /\ getOneTask Sample.int4in Sample.stringify Sample.keith_views_milk fresh_response
       Sample.world0
     = getOneTask_v1 Sample.int4in Sample.keith_views_milk fresh_response Sample.world0
  /\ deleteOneTask Sample.int4in Sample.stringify Sample.keith_views_milk fresh_response
       Sample.world0
     = deleteOneTask_v1 Sample.int4in Sample.keith_views_milk fresh_response Sample.world0.
Proof.
  assert (H1 : requester Sample.int4in Sample.stringify Sample.keith_views_milk
               = inr (Some 1)) by reflexivity.
  assert (H2 : forall t, In t (tasks (db Sample.world0)) -> Tasks.user_id t = Some 1).
  { intros t [<-|[<-|[]]]; reflexivity. }
  split; [exact H1|]. split; [exact H2|].
  destruct (versions_agree_for_sole_owner Sample.int4in Sample.stringify Sample.constraint
              Sample.keith_views_milk fresh_response Sample.world0 1 H1 H2)
    as (_ & B & _ & _ & E).
  split; [exact B | exact E].
Defined.

(** X22, on the sample data: in the first server.js a visitor without
    cookie is listed the tasks of keith, and ada is shown one. *)
Lemma first_version_shows_all_witness :
  target Sample.int4in Sample.nobody_lists_v1 = inr None
  /\ getTasks_v1 Sample.nobody_lists_v1 fresh_response Sample.world0
     = (Sample.world0,
        Responded (render "index" (TasksModel [Sample.milk; Sample.eggs]) fresh_response))
  /\ In Sample.milk
       (shown (snd (getTasks_v1 Sample.nobody_lists_v1 fresh_response Sample.world0)))
  /\ In Sample.milk (tasks (db Sample.world0))
  /\ target Sample.int4in Sample.ada_views_milk = inr (Some (Tasks.id Sample.milk))
  /\ exists t',
       Tasks.id t' = 1
       /\ getOneTask_v1 Sample.int4in Sample.ada_views_milk fresh_response Sample.world0
          = (Sample.world0,
             Responded (render "pages/detail-view" (TaskModel (Some t')) fresh_response)).
Proof.
  assert (H1 : In Sample.milk (tasks (db Sample.world0))) by (simpl; auto).
  assert (H2 : target Sample.int4in Sample.ada_views_milk
               = inr (Some (Tasks.id Sample.milk))) by reflexivity.
  destruct (first_version_shows_all Sample.int4in Sample.nobody_lists_v1 fresh_response
              Sample.world0) as (L & S & _).
  destruct (first_version_shows_all Sample.int4in Sample.ada_views_milk fresh_response
              Sample.world0) as (_ & _ & D).
  destruct (D Sample.milk H1 H2) as (t' & _ & B & C).
  split; [reflexivity|]. split; [exact L|]. split; [exact (proj2 (S Sample.milk H1))|].
  split; [exact H1|]. split; [exact H2|].
  exists t'. split; [exact B | exact C].
Defined.

(** X23, on the sample data: ada logs in, in the first server.js and in the second. *)
Lemma versions_differ_by_cookie_witness :
  snd (doLogin_v1 Sample.ada_logs_in fresh_response Sample.world0)
  = Responded (redirect "/" fresh_response)
  /\ exists r2,
       snd (doLogin Sample.stringify Sample.ada_logs_in fresh_response Sample.world0)
       = Responded r2
       /\ sent r2 = Some (Redirect "/").
Proof.
  assert (H : snd (doLogin_v1 Sample.ada_logs_in fresh_response Sample.world0)
              = Responded (redirect "/" fresh_response)) by reflexivity.
  split; [exact H|].
  destruct (versions_differ_by_cookie Sample.int4in Sample.stringify Sample.stringify
              Sample.due_default Sample.constraint Sample.ada_logs_in fresh_response
              Sample.world0) as (_ & _ & _ & _ & E).
  destruct (E _ H) as (_ & r2 & A & _ & C).
  exists r2. split; [exact A | exact C].
Defined.

(** X24, on the sample data: the migration on a database with one task and no users table. *)
Lemma migration_backfills_witness :
  users Sample.db_before = []
  /\ users_id_seq Sample.db_before = 1
  /\ exists d',
       migration Sample.db_before = inr d'
       /\ users d' = [Users.mk 1 "keith"]
       /\ map Tasks.user_id (tasks d') = [Some 1].
Proof.
  split; [reflexivity|]. split; [reflexivity|].
  destruct (migration_backfills Sample.db_before eq_refl eq_refl)
    as (d' & A & B & C & _).
  exists d'. split; [exact A|]. split; [exact B|]. now rewrite C.
Defined.

(** X25, on the sample data: the migration where a user table exists and the id 1 is free. *)
Lemma migration_needs_user_1_witness :
  In Sample.old_milk (tasks Sample.db_taken)
  /\ users_id_seq Sample.db_taken <> 1
  /\ (forall v, In v (users Sample.db_taken) -> Users.id v <> 1)
  /\ exists e, migration Sample.db_taken = inl e.
Proof.
  assert (H1 : In Sample.old_milk (tasks Sample.db_taken)) by (simpl; auto).
  assert (H2 : users_id_seq Sample.db_taken <> 1) by (vm_compute; discriminate).
  assert (H3 : forall v, In v (users Sample.db_taken) -> Users.id v <> 1).
  { intros v [<-|[]]. vm_compute. discriminate. }
  split; [exact H1|]. split; [exact H2|]. split; [exact H3|].
  apply (migration_needs_user_1 Sample.db_taken Sample.old_milk H1 H2 H3).
Defined.

(** X15, on the sample data: bob's creation of a task, on the invariants of the database. *)
Lemma app_keeps_references_witness :
  keeps transition Sample.books
  /\ references_ok (db Sample.world0)
  /\ references_ok
       (db (fst (app Sample.int4in Sample.stringify Sample.parse Sample.stringify
                   Sample.due_default Sample.constraint Sample.public_file Sample.books
                   Sample.post_add_bob Sample.world0))).
Proof.
  assert (H1 : keeps transition Sample.books) by (intros req res w; constructor).
  assert (H2 : references_ok (db Sample.world0)).
  { intros t [<-|[<-|[]]]; reflexivity. }
  split; [exact H1|]. split; [exact H2|].
  apply (app_keeps_references Sample.int4in Sample.stringify Sample.parse Sample.stringify
           Sample.due_default Sample.constraint Sample.public_file Sample.books
           Sample.post_add_bob Sample.world0 H1 H2).
Defined.

(** X16, on the sample data. *)
Lemma app_keeps_users_unique_witness :
  keeps transition Sample.books
  /\ users_unique (db Sample.world0)
  /\ users_unique
       (db (fst (app Sample.int4in Sample.stringify Sample.parse Sample.stringify
                   Sample.due_default Sample.constraint Sample.public_file Sample.books
                   Sample.post_register_bob Sample.world0))).
Proof.
  assert (H1 : keeps transition Sample.books) by (intros req res w; constructor).
  assert (H2 : users_unique (db Sample.world0)).
  { split; simpl; repeat constructor; simpl; intuition discriminate. }
  split; [exact H1|]. split; [exact H2|].
  apply (app_keeps_users_unique Sample.int4in Sample.stringify Sample.parse
           Sample.stringify Sample.due_default Sample.constraint Sample.public_file
           Sample.books Sample.post_register_bob Sample.world0 H1 H2).
Defined.

(** X17, on the sample data. *)
Lemma app_keeps_ids_below_seq_witness :
  keeps transition Sample.books
  /\ ids_below_seq (db Sample.world0)
  /\ ids_below_seq
       (db (fst (app Sample.int4in Sample.stringify Sample.parse Sample.stringify
                   Sample.due_default Sample.constraint Sample.public_file Sample.books
                   Sample.post_register_bob Sample.world0))).
Proof.
  assert (H1 : keeps transition Sample.books) by (intros req res w; constructor).
  assert (H2 : ids_below_seq (db Sample.world0)).
  { split; [intros t [<-|[<-|[]]] | intros v [<-|[<-|[]]]]; simpl; lia. }
  split; [exact H1|]. split; [exact H2|].
  apply (app_keeps_ids_below_seq Sample.int4in Sample.stringify Sample.parse
           Sample.stringify Sample.due_default Sample.constraint Sample.public_file
           Sample.books Sample.post_register_bob Sample.world0 H1 H2).
Defined.

(** X18, on the sample data. *)
Lemma app_only_adds_users_witness :
  keeps transition Sample.books
  /\ exists more,
       users (db (fst (app Sample.int4in Sample.stringify Sample.parse Sample.stringify
                         Sample.due_default Sample.constraint Sample.public_file
                         Sample.books Sample.post_register_bob Sample.world0)))
       = (users (db Sample.world0) ++ more)%list
       /\ (List.length more <= 1)%nat.
Proof.
  assert (H1 : keeps transition Sample.books) by (intros req res w; constructor).
  split; [exact H1|].
  apply (app_only_adds_users Sample.int4in Sample.stringify Sample.parse Sample.stringify
           Sample.due_default Sample.constraint Sample.public_file Sample.books
           Sample.post_register_bob Sample.world0 H1).
Defined.

(** X14, on the sample data: GET / by keith. *)
Lemma app_get_reads_only_witness :
  keeps (fun d d' => d' = d) Sample.books
  /\ method_matches GET (method Sample.get_home_keith) = true
  /\ db (fst (app Sample.int4in Sample.stringify Sample.parse Sample.stringify
                Sample.due_default Sample.constraint Sample.public_file Sample.books
                Sample.get_home_keith Sample.world0))
     = db Sample.world0.
Proof.
  assert (H1 : keeps (fun d d' => d' = d) Sample.books) by (intros req res w; reflexivity).
  split; [exact H1|]. split; [reflexivity|].
  apply (app_get_reads_only Sample.int4in Sample.stringify Sample.parse Sample.stringify
           Sample.due_default Sample.constraint Sample.public_file Sample.books
           Sample.get_home_keith Sample.world0 H1 eq_refl).
Defined.

(** X13, on the sample data: POST /add by bob, who is not registered yet: answered, with 500. *)
Lemma app_answers_witness :
  match_segments (task_path ++ [Lit "edit"]) (path Sample.post_add_bob) = None
  /\ match_segments [Lit "books"] (path Sample.post_add_bob) = None
  /\ exists r,
       snd (app Sample.int4in Sample.stringify Sample.parse Sample.stringify
              Sample.due_default Sample.constraint Sample.public_file Sample.books
              Sample.post_add_bob Sample.world0) = Responded r
       /\ In (statusCode r) [200; 302; 400; 404; 500].
Proof.
  split; [reflexivity|]. split; [reflexivity|].
  destruct (app_answers Sample.int4in Sample.stringify Sample.parse Sample.stringify
              Sample.due_default Sample.constraint Sample.public_file Sample.books
              Sample.post_add_bob Sample.world0 eq_refl eq_refl)
    as [H | [H _]]; [exact H | vm_compute in H; discriminate].
Defined.
